(** * Student Course Management API: models, schemas, handlers

    A shallow embedding of [models.py], [schemas.py] and [main.py].

    The request handlers of [main.py] receive a parsed body and a database
    session; they are embedded as functions from the database (and the
    readings of [datetime.utcnow]) to a response and the database after the
    request.  A handler that raises leaves the database as it was: every
    [except] clause that follows a write calls [session.rollback()].

    The database is the one the repository's test fixture builds
    ([sqlite:///:memory:], tables made by [SQLModel.metadata.create_all]):
    - a table is the list of its rows in rowid order, which is what a
      [select] without [ORDER BY] walks;
    - [id] is [INTEGER PRIMARY KEY] without [AUTOINCREMENT]: an insert gets
      the largest rowid of the table plus one, [1] in an empty table;
    - integers are stored and bound as signed 64-bit values: a key, an
      offset or a limit outside that range cannot be bound as a parameter
      and the driver raises [OverflowError], which the handlers answer 500;
    - [UNIQUE (email)] and [NOT NULL] are enforced at commit time and raise
      [IntegrityError];
    - the foreign keys of [Enrollment] are declared but not enforced
      (SQLite's default), and no uniqueness is declared on
      [(student_id, course_id)].

    Python [int] is [Z]; [str] is [string], one character per code point;
    [datetime] is an opaque instant, here a [Z].  A response is the status
    and the value the handler returns or the detail it raises; how FastAPI
    renders it against [response_model] is outside the embedding. *)

From Stdlib Require Import ZArith List String Ascii Bool Lia.
Import ListNotations.

Local Open Scope string_scope.
Local Open Scope list_scope.
Local Open Scope Z_scope.

Definition datetime := Z.

(** ** models.py *)

Module Student.
Record t := mk
  { id : Z;
    name : string;
    email : string;
    age : Z;
    created_at : datetime;
    updated_at : datetime }.

(** A loaded instance: [setattr] may put [None] in any attribute; the
    column constraints are only looked at when the session commits. *)
Record inst := mk_inst
  { i_id : Z;
    i_name : option string;
    i_email : option string;
    i_age : option Z;
    i_created_at : datetime;
    i_updated_at : datetime }.

Definition load (r : t) : inst :=
  mk_inst (id r) (Some (name r)) (Some (email r)) (Some (age r))
          (created_at r) (updated_at r).

(** The row an instance is written as; [None] when a [NOT NULL] column
    would receive [NULL]. *)
Definition row_of (o : inst) : option t :=
  match i_name o, i_email o, i_age o with
  | Some n, Some e, Some a =>
      Some (mk (i_id o) n e a (i_created_at o) (i_updated_at o))
  | _, _, _ => None
  end.
End Student.

Module Course.
Record t := mk
  { id : Z;
    title : string;
    description : option string;
    credits : Z;
    instructor : string;
    created_at : datetime;
    updated_at : datetime }.

Record inst := mk_inst
  { i_id : Z;
    i_title : option string;
    i_description : option string;
    i_credits : option Z;
    i_instructor : option string;
    i_created_at : datetime;
    i_updated_at : datetime }.

Definition load (r : t) : inst :=
  mk_inst (id r) (Some (title r)) (description r) (Some (credits r))
          (Some (instructor r)) (created_at r) (updated_at r).

Definition row_of (o : inst) : option t :=
  match i_title o, i_credits o, i_instructor o with
  | Some ti, Some c, Some ins =>
      Some (mk (i_id o) ti (i_description o) c ins
               (i_created_at o) (i_updated_at o))
  | _, _, _ => None
  end.
End Course.

Module Enrollment.
Record t := mk
  { id : Z;
    student_id : Z;
    course_id : Z;
    grade : option string;
    enrollment_date : datetime }.

Definition pair_of (r : t) : Z * Z := (student_id r, course_id r).
End Enrollment.

(** ** schemas.py *)

(** A field of an update schema: left out of the body, or present with a
    value that may be [null].  Pydantic remembers which fields were set. *)
Inductive field (A : Type) : Type :=
| Unset
| Given (v : option A).
Arguments Unset {A}.
Arguments Given {A} v.

(** Attribute access on the parsed body: the default is [None]. *)
Definition attr {A : Type} (f : field A) : option A :=
  match f with
  | Unset => None
  | Given v => v
  end.

Module StudentCreate.
Record t := mk { name : string; email : string; age : Z }.
End StudentCreate.

Module StudentUpdate.
Record t := mk
  { name : field string; email : field string; age : field Z }.

(** One entry of [model_dump(exclude_unset=True)]. *)
Inductive item :=
| Name (v : option string)
| Email (v : option string)
| Age (v : option Z).

Definition dump {A : Type} (key : option A -> item) (f : field A)
  : list item :=
  match f with
  | Unset => []
  | Given v => [key v]
  end.

Definition model_dump_exclude_unset (u : t) : list item :=
  dump Name (name u) ++ dump Email (email u) ++ dump Age (age u).
End StudentUpdate.

Module CourseCreate.
Record t := mk
  { title : string;
    description : option string;
    credits : Z;
    instructor : string }.
End CourseCreate.

Module CourseUpdate.
Record t := mk
  { title : field string;
    description : field string;
    credits : field Z;
    instructor : field string }.

Inductive item :=
| Title (v : option string)
| Description (v : option string)
| Credits (v : option Z)
| Instructor (v : option string).

Definition dump {A : Type} (key : option A -> item) (f : field A)
  : list item :=
  match f with
  | Unset => []
  | Given v => [key v]
  end.

Definition model_dump_exclude_unset (u : t) : list item :=
  dump Title (title u) ++ dump Description (description u)
    ++ dump Credits (credits u) ++ dump Instructor (instructor u).
End CourseUpdate.

Module EnrollmentCreate.
Record t := mk
  { student_id : Z; course_id : Z; grade : option string }.
End EnrollmentCreate.

Module EnrollmentUpdate.
Record t := mk { grade : field string }.

Inductive item :=
| Grade (v : option string).

Definition model_dump_exclude_unset (u : t) : list item :=
  match grade u with
  | Unset => []
  | Given v => [Grade v]
  end.
End EnrollmentUpdate.

(** *** Field constraints *)

Definition len (s : string) : Z := Z.of_nat (String.length s).

(** [Field(min_length=lo, max_length=hi)] *)
Definition length_between (lo hi : Z) (s : string) : bool :=
  (lo <=? len s) && (len s <=? hi).

(** [Field(ge=lo, le=hi)] *)
Definition between (lo hi : Z) (n : Z) : bool :=
  (lo <=? n) && (n <=? hi).

(** A constraint on an [Optional] value holds of [None]. *)
Definition opt_ok {A : Type} (p : A -> bool) (v : option A) : bool :=
  match v with
  | None => true
  | Some a => p a
  end.

(** A constraint on an update field is checked only when the field is set. *)
Definition field_ok {A : Type} (p : A -> bool) (f : field A) : bool :=
  match f with
  | Unset => true
  | Given v => opt_ok p v
  end.

Section Validation.
(** The syntax check behind [EmailStr] lives in a library outside the
    repository; the schemas are checked relative to it. *)
Variable email_syntax : string -> bool.

Definition StudentCreate_valid (b : StudentCreate.t) : bool :=
  length_between 1 100 (StudentCreate.name b)
  && email_syntax (StudentCreate.email b)
  && between 1 150 (StudentCreate.age b).

Definition StudentUpdate_valid (b : StudentUpdate.t) : bool :=
  field_ok (length_between 1 100) (StudentUpdate.name b)
  && field_ok email_syntax (StudentUpdate.email b)
  && field_ok (between 1 150) (StudentUpdate.age b).
End Validation.

Definition CourseCreate_valid (b : CourseCreate.t) : bool :=
  length_between 1 200 (CourseCreate.title b)
  && opt_ok (fun d => len d <=? 1000) (CourseCreate.description b)
  && between 1 10 (CourseCreate.credits b)
  && length_between 1 100 (CourseCreate.instructor b).

Definition CourseUpdate_valid (b : CourseUpdate.t) : bool :=
  field_ok (length_between 1 200) (CourseUpdate.title b)
  && field_ok (fun d => len d <=? 1000) (CourseUpdate.description b)
  && field_ok (between 1 10) (CourseUpdate.credits b)
  && field_ok (length_between 1 100) (CourseUpdate.instructor b).

Definition EnrollmentCreate_valid (b : EnrollmentCreate.t) : bool :=
  opt_ok (fun g => len g <=? 2) (EnrollmentCreate.grade b).

Definition EnrollmentUpdate_valid (b : EnrollmentUpdate.t) : bool :=
  field_ok (fun g => len g <=? 2) (EnrollmentUpdate.grade b).


(** ** The database behind the session *)

Record store := mk_store
  { students : list Student.t;
    courses : list Course.t;
    enrollments : list Enrollment.t }.

Definition empty_store : store := mk_store [] [] [].

(** What a handler body can raise. [OtherError] stands for every exception
    that is neither an [HTTPException] nor an [IntegrityError]. *)
Inductive exn :=
| HTTPException (status_code : Z) (detail : string)
| IntegrityError
| OtherError.

Inductive result (A : Type) : Type :=
| Ok (a : A)
| Raise (e : exn).
Arguments Ok {A} a.
Arguments Raise {A} e.

(** The rowid an insert receives. *)
Definition next_rowid (ids : list Z) : Z := fold_right Z.max 0 ids + 1.

(** Whether an integer can be bound as a parameter of a statement. *)
Definition int64 (n : Z) : bool := (- 2 ^ 63 <=? n) && (n <? 2 ^ 63).

(** The row a table holds under a primary key. *)
Definition get_student (db : store) (key : Z) : option Student.t :=
  find (fun r => Student.id r =? key) (students db).

Definition get_course (db : store) (key : Z) : option Course.t :=
  find (fun r => Course.id r =? key) (courses db).

Definition get_enrollment (db : store) (key : Z) : option Enrollment.t :=
  find (fun r => Enrollment.id r =? key) (enrollments db).

(** [session.get(Model, key)], [row] being the row the table holds under
    [key]. The ids of a table are 64-bit integers, so a key that finds a row
    is one that can be bound; a key outside the 64-bit range is the key of no
    row, and binding it raises [OverflowError] (an [OtherError]). *)
Definition session_get {A : Type} (row : option A) (key : Z)
  : result (option A) :=
  match row with
  | Some r => Ok (Some r)
  | None => if int64 key then Ok None else Raise OtherError
  end.

(** [select(Student).where(Student.email == e)).first()] *)
Definition first_student_by_email (db : store) (e : string)
  : option Student.t :=
  find (fun r => String.eqb (Student.email r) e) (students db).

(** [select(Enrollment).where(student_id == s, course_id == c)).first()] *)
Definition first_enrollment_by_pair (db : store) (s c : Z)
  : option Enrollment.t :=
  find (fun r => (Enrollment.student_id r =? s)
                 && (Enrollment.course_id r =? c))
       (enrollments db).

(** What [OFFSET skip LIMIT limit] keeps of the rows: SQLite reads a negative
    [OFFSET] as zero and a negative [LIMIT] as no limit. *)
Definition page {A : Type} (skip limit : Z) (rows : list A) : list A :=
  let rest := skipn (Z.to_nat skip) rows in
  if limit <? 0 then rest else firstn (Z.to_nat limit) rest.

(** [.offset(skip).limit(limit).all()]: both values are bound as parameters,
    which raises [OverflowError] outside the 64-bit range. *)
Definition offset_limit {A : Type} (skip limit : Z) (rows : list A)
  : result (list A) :=
  if int64 skip && int64 limit then Ok (page skip limit rows)
  else Raise OtherError.

(** A table after [UPDATE ... WHERE id = key r], the new row being [r]. *)
Definition put_row {A : Type} (key : A -> Z) (r : A) (rows : list A)
  : list A :=
  map (fun x => if key x =? key r then r else x) rows.

(** A table after [DELETE ... WHERE id = k]. *)
Definition drop_row {A : Type} (key : A -> Z) (k : Z) (rows : list A)
  : list A :=
  filter (fun x => negb (key x =? k)) rows.

(** [session.add(obj); session.commit(); session.refresh(obj)] on a new
    object. *)
Definition insert_student (db : store) (name email : string) (age : Z)
  (created updated : datetime) : result (Student.t * store) :=
  if existsb (fun r => String.eqb (Student.email r) email) (students db)
  then Raise IntegrityError
  else
    let r := Student.mk (next_rowid (map Student.id (students db)))
                        name email age created updated in
    Ok (r, mk_store (students db ++ [r]) (courses db) (enrollments db)).

Definition insert_course (db : store) (title : string)
  (description : option string) (credits : Z) (instructor : string)
  (created updated : datetime) : result (Course.t * store) :=
  let r := Course.mk (next_rowid (map Course.id (courses db)))
                     title description credits instructor created updated in
  Ok (r, mk_store (students db) (courses db ++ [r]) (enrollments db)).

Definition insert_enrollment (db : store) (student_id course_id : Z)
  (grade : option string) (date : datetime) : result (Enrollment.t * store) :=
  let r := Enrollment.mk (next_rowid (map Enrollment.id (enrollments db)))
                         student_id course_id grade date in
  Ok (r, mk_store (students db) (courses db) (enrollments db ++ [r])).

(** The same three calls on a loaded, modified instance: an [UPDATE ... WHERE
    id = ?].  When the row is gone no constraint is looked at and SQLAlchemy
    raises [StaleDataError]. *)
Definition update_student_row (db : store) (o : Student.inst)
  : result (Student.t * store) :=
  if negb (existsb (fun x => Student.id x =? Student.i_id o) (students db))
  then Raise OtherError
  else
    match Student.row_of o with
    | None => Raise IntegrityError
    | Some r =>
        if existsb (fun x => String.eqb (Student.email x) (Student.email r)
                             && negb (Student.id x =? Student.id r))
                   (students db)
        then Raise IntegrityError
        else
          Ok (r, mk_store (put_row Student.id r (students db))
                          (courses db) (enrollments db))
    end.

Definition update_course_row (db : store) (o : Course.inst)
  : result (Course.t * store) :=
  if negb (existsb (fun x => Course.id x =? Course.i_id o) (courses db))
  then Raise OtherError
  else
    match Course.row_of o with
    | None => Raise IntegrityError
    | Some r =>
        Ok (r, mk_store (students db) (put_row Course.id r (courses db))
                        (enrollments db))
    end.

Definition update_enrollment_row (db : store) (r : Enrollment.t)
  : result (Enrollment.t * store) :=
  if negb (existsb (fun x => Enrollment.id x =? Enrollment.id r)
                   (enrollments db))
  then Raise OtherError
  else
    Ok (r, mk_store (students db) (courses db)
                    (put_row Enrollment.id r (enrollments db))).

(** [session.delete(obj); session.commit()]: a [DELETE ... WHERE id = ?]. *)
Definition delete_student_row (db : store) (key : Z) : store :=
  mk_store (drop_row Student.id key (students db))
           (courses db) (enrollments db).

Definition delete_course_row (db : store) (key : Z) : store :=
  mk_store (students db) (drop_row Course.id key (courses db))
           (enrollments db).

Definition delete_enrollment_row (db : store) (key : Z) : store :=
  mk_store (students db) (courses db)
           (drop_row Enrollment.id key (enrollments db)).


(** ** main.py *)

Inductive content :=
| JStudent (r : Student.t)
| JStudents (l : list Student.t)
| JCourse (r : Course.t)
| JCourses (l : list Course.t)
| JEnrollment (r : Enrollment.t)
| JEnrollments (l : list Enrollment.t)
| JDetail (detail : string)
| JValidationErrors
| JWelcome
| JNone.

Record response := mk_response { status : Z; body : content }.

Definition HTTP_200_OK : Z := 200.
Definition HTTP_201_CREATED : Z := 201.
Definition HTTP_204_NO_CONTENT : Z := 204.
Definition HTTP_400_BAD_REQUEST : Z := 400.
Definition HTTP_404_NOT_FOUND : Z := 404.
Definition HTTP_422_UNPROCESSABLE_ENTITY : Z := 422.
Definition HTTP_500_INTERNAL_SERVER_ERROR : Z := 500.

(** The response FastAPI makes of a raised [HTTPException]. *)
Definition http_error (code : Z) (detail : string) : response :=
  mk_response code (JDetail detail).

(** The readings of [datetime.utcnow()] during one request, in call order. *)
Definition clock := nat -> datetime.

(** [except HTTPException: raise] followed by
    [except Exception: rollback; raise HTTPException(500, msg)]. *)
Definition except_500 (msg : string) (e : exn) : response :=
  match e with
  | HTTPException code detail => http_error code detail
  | _ => http_error HTTP_500_INTERNAL_SERVER_ERROR msg
  end.

(** The same with [except IntegrityError: rollback; raise
    HTTPException(400, msg400)] in between. *)
Definition except_400_500 (msg400 msg500 : string) (e : exn) : response :=
  match e with
  | HTTPException code detail => http_error code detail
  | IntegrityError => http_error HTTP_400_BAD_REQUEST msg400
  | OtherError => http_error HTTP_500_INTERNAL_SERVER_ERROR msg500
  end.

(** A lone [except Exception], which also catches [HTTPException]. *)
Definition except_all_500 (msg : string) (e : exn) : response :=
  http_error HTTP_500_INTERNAL_SERVER_ERROR msg.

(** Leaving the [try]: the value is returned with the committed database, a
    raised exception is answered over the database before the request. *)
Definition finish {A : Type} (db : store) (success : A -> response)
  (except : exn -> response) (r : result (A * store)) : response * store :=
  match r with
  | Ok (a, db') => (success a, db')
  | Raise e => (except e, db)
  end.

Definition is_some {A : Type} (o : option A) : bool :=
  match o with
  | Some _ => true
  | None => false
  end.

(** *** Students *)

(** The body of [create_student]. [seen] is the database its query reads and
    [db] the one its commit is applied to; they differ only when another
    request commits in between. *)
Definition create_student_try (seen db : store) (student : StudentCreate.t)
  (now : clock) : result (Student.t * store) :=
  match first_student_by_email seen (StudentCreate.email student) with
  | Some _ =>
      Raise (HTTPException HTTP_400_BAD_REQUEST "Email already registered")
  | None =>
      insert_student db (StudentCreate.name student)
                     (StudentCreate.email student) (StudentCreate.age student)
                     (now 0%nat) (now 1%nat)
  end.

Definition create_student_except : exn -> response :=
  except_400_500 "Failed to create student. Email may already exist."
                 "An error occurred while creating the student".

(** The handler when another request may have committed between its query
    and its own commit. *)
Definition create_student_between (seen db : store)
  (student : StudentCreate.t) (now : clock) : response * store :=
  finish db (fun r => mk_response HTTP_201_CREATED (JStudent r))
         create_student_except (create_student_try seen db student now).

Definition create_student (db : store) (student : StudentCreate.t)
  (now : clock) : response * store :=
  create_student_between db db student now.

Definition read_students (db : store) (skip limit : Z) : response * store :=
  match offset_limit skip limit (students db) with
  | Ok rows => (mk_response HTTP_200_OK (JStudents rows), db)
  | Raise e =>
      (except_all_500 "An error occurred while fetching students" e, db)
  end.

Definition read_student (db : store) (student_id : Z) : response * store :=
  match session_get (get_student db student_id) student_id with
  | Raise e => (except_500 "An error occurred while fetching the student" e, db)
  | Ok None => (http_error HTTP_404_NOT_FOUND "Student not found", db)
  | Ok (Some r) => (mk_response HTTP_200_OK (JStudent r), db)
  end.

(** [setattr(db_student, key, value)] *)
Definition setattr_student (o : Student.inst) (kv : StudentUpdate.item)
  : Student.inst :=
  match kv with
  | StudentUpdate.Name v =>
      Student.mk_inst (Student.i_id o) v (Student.i_email o) (Student.i_age o)
                      (Student.i_created_at o) (Student.i_updated_at o)
  | StudentUpdate.Email v =>
      Student.mk_inst (Student.i_id o) (Student.i_name o) v (Student.i_age o)
                      (Student.i_created_at o) (Student.i_updated_at o)
  | StudentUpdate.Age v =>
      Student.mk_inst (Student.i_id o) (Student.i_name o) (Student.i_email o) v
                      (Student.i_created_at o) (Student.i_updated_at o)
  end.

Definition set_student_updated_at (o : Student.inst) (t : datetime)
  : Student.inst :=
  Student.mk_inst (Student.i_id o) (Student.i_name o) (Student.i_email o)
                  (Student.i_age o) (Student.i_created_at o) t.

(** [student_update.email and student_update.email != db_student.email]:
    [None] and the empty string are falsy. *)
Definition email_is_changed (u : StudentUpdate.t) (db_student : Student.t)
  : option string :=
  match attr (StudentUpdate.email u) with
  | Some e =>
      if negb (String.eqb e "")
         && negb (String.eqb e (Student.email db_student))
      then Some e else None
  | None => None
  end.

Definition update_student_try (seen db : store) (student_id : Z)
  (student_update : StudentUpdate.t) (now : clock)
  : result (Student.t * store) :=
  match session_get (get_student seen student_id) student_id with
  | Raise e => Raise e
  | Ok None => Raise (HTTPException HTTP_404_NOT_FOUND "Student not found")
  | Ok (Some db_student) =>
      let taken :=
        match email_is_changed student_update db_student with
        | Some e => is_some (first_student_by_email seen e)
        | None => false
        end in
      if taken
      then Raise (HTTPException HTTP_400_BAD_REQUEST "Email already registered")
      else
        let update_data :=
          StudentUpdate.model_dump_exclude_unset student_update in
        let o := fold_left setattr_student update_data
                           (Student.load db_student) in
        update_student_row db (set_student_updated_at o (now 0%nat))
  end.

Definition update_student_except : exn -> response :=
  except_400_500 "Failed to update student. Email may already exist."
                 "An error occurred while updating the student".

Definition update_student_between (seen db : store) (student_id : Z)
  (student_update : StudentUpdate.t) (now : clock) : response * store :=
  finish db (fun r => mk_response HTTP_200_OK (JStudent r))
         update_student_except
         (update_student_try seen db student_id student_update now).

Definition update_student (db : store) (student_id : Z)
  (student_update : StudentUpdate.t) (now : clock) : response * store :=
  update_student_between db db student_id student_update now.

Definition delete_student (db : store) (student_id : Z) : response * store :=
  match session_get (get_student db student_id) student_id with
  | Raise e => (except_500 "An error occurred while deleting the student" e, db)
  | Ok None => (http_error HTTP_404_NOT_FOUND "Student not found", db)
  | Ok (Some r) =>
      (mk_response HTTP_204_NO_CONTENT JNone,
       delete_student_row db (Student.id r))
  end.

(** *** Courses *)

Definition create_course (db : store) (course : CourseCreate.t) (now : clock)
  : response * store :=
  finish db (fun r => mk_response HTTP_201_CREATED (JCourse r))
         (except_all_500 "An error occurred while creating the course")
         (insert_course db (CourseCreate.title course)
                        (CourseCreate.description course)
                        (CourseCreate.credits course)
                        (CourseCreate.instructor course)
                        (now 0%nat) (now 1%nat)).

Definition read_courses (db : store) (skip limit : Z) : response * store :=
  match offset_limit skip limit (courses db) with
  | Ok rows => (mk_response HTTP_200_OK (JCourses rows), db)
  | Raise e =>
      (except_all_500 "An error occurred while fetching courses" e, db)
  end.

Definition read_course (db : store) (course_id : Z) : response * store :=
  match session_get (get_course db course_id) course_id with
  | Raise e => (except_500 "An error occurred while fetching the course" e, db)
  | Ok None => (http_error HTTP_404_NOT_FOUND "Course not found", db)
  | Ok (Some r) => (mk_response HTTP_200_OK (JCourse r), db)
  end.

Definition setattr_course (o : Course.inst) (kv : CourseUpdate.item)
  : Course.inst :=
  match kv with
  | CourseUpdate.Title v =>
      Course.mk_inst (Course.i_id o) v (Course.i_description o)
                     (Course.i_credits o) (Course.i_instructor o)
                     (Course.i_created_at o) (Course.i_updated_at o)
  | CourseUpdate.Description v =>
      Course.mk_inst (Course.i_id o) (Course.i_title o) v
                     (Course.i_credits o) (Course.i_instructor o)
                     (Course.i_created_at o) (Course.i_updated_at o)
  | CourseUpdate.Credits v =>
      Course.mk_inst (Course.i_id o) (Course.i_title o) (Course.i_description o)
                     v (Course.i_instructor o)
                     (Course.i_created_at o) (Course.i_updated_at o)
  | CourseUpdate.Instructor v =>
      Course.mk_inst (Course.i_id o) (Course.i_title o) (Course.i_description o)
                     (Course.i_credits o) v
                     (Course.i_created_at o) (Course.i_updated_at o)
  end.

Definition set_course_updated_at (o : Course.inst) (t : datetime)
  : Course.inst :=
  Course.mk_inst (Course.i_id o) (Course.i_title o) (Course.i_description o)
                 (Course.i_credits o) (Course.i_instructor o)
                 (Course.i_created_at o) t.

Definition update_course_try (db : store) (course_id : Z)
  (course_update : CourseUpdate.t) (now : clock) : result (Course.t * store) :=
  match session_get (get_course db course_id) course_id with
  | Raise e => Raise e
  | Ok None => Raise (HTTPException HTTP_404_NOT_FOUND "Course not found")
  | Ok (Some db_course) =>
      let update_data := CourseUpdate.model_dump_exclude_unset course_update in
      let o := fold_left setattr_course update_data (Course.load db_course) in
      update_course_row db (set_course_updated_at o (now 0%nat))
  end.

Definition update_course (db : store) (course_id : Z)
  (course_update : CourseUpdate.t) (now : clock) : response * store :=
  finish db (fun r => mk_response HTTP_200_OK (JCourse r))
         (except_500 "An error occurred while updating the course")
         (update_course_try db course_id course_update now).

Definition delete_course (db : store) (course_id : Z) : response * store :=
  match session_get (get_course db course_id) course_id with
  | Raise e => (except_500 "An error occurred while deleting the course" e, db)
  | Ok None => (http_error HTTP_404_NOT_FOUND "Course not found", db)
  | Ok (Some r) =>
      (mk_response HTTP_204_NO_CONTENT JNone,
       delete_course_row db (Course.id r))
  end.

(** *** Enrollments *)

(** The body of [create_enrollment]; [seen] and [db] as in
    [create_student_try]. *)
Definition create_enrollment_try (seen db : store)
  (enrollment : EnrollmentCreate.t) (now : clock)
  : result (Enrollment.t * store) :=
  match session_get
          (get_student seen (EnrollmentCreate.student_id enrollment))
          (EnrollmentCreate.student_id enrollment) with
  | Raise e => Raise e
  | Ok None => Raise (HTTPException HTTP_404_NOT_FOUND "Student not found")
  | Ok (Some _) =>
      match session_get
              (get_course seen (EnrollmentCreate.course_id enrollment))
              (EnrollmentCreate.course_id enrollment) with
      | Raise e => Raise e
      | Ok None => Raise (HTTPException HTTP_404_NOT_FOUND "Course not found")
      | Ok (Some _) =>
          match first_enrollment_by_pair seen
                  (EnrollmentCreate.student_id enrollment)
                  (EnrollmentCreate.course_id enrollment) with
          | Some _ =>
              Raise (HTTPException HTTP_400_BAD_REQUEST
                                   "Student already enrolled in this course")
          | None =>
              insert_enrollment db (EnrollmentCreate.student_id enrollment)
                                (EnrollmentCreate.course_id enrollment)
                                (EnrollmentCreate.grade enrollment)
                                (now 0%nat)
          end
      end
  end.

Definition create_enrollment_except : exn -> response :=
  except_500 "An error occurred while creating the enrollment".

Definition create_enrollment_between (seen db : store)
  (enrollment : EnrollmentCreate.t) (now : clock) : response * store :=
  finish db (fun r => mk_response HTTP_201_CREATED (JEnrollment r))
         create_enrollment_except
         (create_enrollment_try seen db enrollment now).

Definition create_enrollment (db : store) (enrollment : EnrollmentCreate.t)
  (now : clock) : response * store :=
  create_enrollment_between db db enrollment now.

Definition read_enrollments (db : store) (skip limit : Z) : response * store :=
  match offset_limit skip limit (enrollments db) with
  | Ok rows => (mk_response HTTP_200_OK (JEnrollments rows), db)
  | Raise e =>
      (except_all_500 "An error occurred while fetching enrollments" e, db)
  end.

Definition read_enrollment (db : store) (enrollment_id : Z)
  : response * store :=
  match session_get (get_enrollment db enrollment_id) enrollment_id with
  | Raise e => (except_500 "An error occurred while fetching the enrollment" e, db)
  | Ok None => (http_error HTTP_404_NOT_FOUND "Enrollment not found", db)
  | Ok (Some r) => (mk_response HTTP_200_OK (JEnrollment r), db)
  end.

Definition read_student_enrollments (db : store) (student_id : Z)
  : response * store :=
  match session_get (get_student db student_id) student_id with
  | Raise e =>
      (except_500 "An error occurred while fetching student enrollments" e, db)
  | Ok None => (http_error HTTP_404_NOT_FOUND "Student not found", db)
  | Ok (Some _) =>
      (mk_response HTTP_200_OK
         (JEnrollments
            (filter (fun r => Enrollment.student_id r =? student_id)
                    (enrollments db))),
       db)
  end.

Definition read_course_enrollments (db : store) (course_id : Z)
  : response * store :=
  match session_get (get_course db course_id) course_id with
  | Raise e =>
      (except_500 "An error occurred while fetching course enrollments" e, db)
  | Ok None => (http_error HTTP_404_NOT_FOUND "Course not found", db)
  | Ok (Some _) =>
      (mk_response HTTP_200_OK
         (JEnrollments
            (filter (fun r => Enrollment.course_id r =? course_id)
                    (enrollments db))),
       db)
  end.

Definition setattr_enrollment (r : Enrollment.t) (kv : EnrollmentUpdate.item)
  : Enrollment.t :=
  match kv with
  | EnrollmentUpdate.Grade v =>
      Enrollment.mk (Enrollment.id r) (Enrollment.student_id r)
                    (Enrollment.course_id r) v (Enrollment.enrollment_date r)
  end.

Definition update_enrollment_try (db : store) (enrollment_id : Z)
  (enrollment_update : EnrollmentUpdate.t) : result (Enrollment.t * store) :=
  match session_get (get_enrollment db enrollment_id) enrollment_id with
  | Raise e => Raise e
  | Ok None => Raise (HTTPException HTTP_404_NOT_FOUND "Enrollment not found")
  | Ok (Some db_enrollment) =>
      let update_data :=
        EnrollmentUpdate.model_dump_exclude_unset enrollment_update in
      update_enrollment_row db
        (fold_left setattr_enrollment update_data db_enrollment)
  end.

Definition update_enrollment (db : store) (enrollment_id : Z)
  (enrollment_update : EnrollmentUpdate.t) : response * store :=
  finish db (fun r => mk_response HTTP_200_OK (JEnrollment r))
         (except_500 "An error occurred while updating the enrollment")
         (update_enrollment_try db enrollment_id enrollment_update).

Definition delete_enrollment (db : store) (enrollment_id : Z)
  : response * store :=
  match session_get (get_enrollment db enrollment_id) enrollment_id with
  | Raise e => (except_500 "An error occurred while deleting the enrollment" e, db)
  | Ok None => (http_error HTTP_404_NOT_FOUND "Enrollment not found", db)
  | Ok (Some r) =>
      (mk_response HTTP_204_NO_CONTENT JNone,
       delete_enrollment_row db (Enrollment.id r))
  end.

Definition read_root (db : store) : response * store :=
  (mk_response HTTP_200_OK JWelcome, db).

(** ** The application: routes and request validation *)

Inductive request :=
| GET_root
| POST_students (student : StudentCreate.t)
| GET_students (skip limit : Z)
| GET_student (student_id : Z)
| PUT_student (student_id : Z) (student_update : StudentUpdate.t)
| DELETE_student (student_id : Z)
| POST_courses (course : CourseCreate.t)
| GET_courses (skip limit : Z)
| GET_course (course_id : Z)
| PUT_course (course_id : Z) (course_update : CourseUpdate.t)
| DELETE_course (course_id : Z)
| POST_enrollments (enrollment : EnrollmentCreate.t)
| GET_enrollments (skip limit : Z)
| GET_enrollment (enrollment_id : Z)
| GET_student_enrollments (student_id : Z)
| GET_course_enrollments (course_id : Z)
| PUT_enrollment (enrollment_id : Z) (enrollment_update : EnrollmentUpdate.t)
| DELETE_enrollment (enrollment_id : Z).

Definition unprocessable : response :=
  mk_response HTTP_422_UNPROCESSABLE_ENTITY JValidationErrors.

Section App.
(** [EmailStr] is checked and rewritten by a library outside the repository:
    [email_syntax] is its syntax check, [email_normal] the address it hands
    to the handler in place of an accepted one. *)
Variable email_syntax : string -> bool.
Variable email_normal : string -> string.

(** Whether the body of a request passes the schema its route declares. *)
Definition body_valid (req : request) : bool :=
  match req with
  | POST_students b => StudentCreate_valid email_syntax b
  | PUT_student _ b => StudentUpdate_valid email_syntax b
  | POST_courses b => CourseCreate_valid b
  | PUT_course _ b => CourseUpdate_valid b
  | POST_enrollments b => EnrollmentCreate_valid b
  | PUT_enrollment _ b => EnrollmentUpdate_valid b
  | _ => true
  end.

Definition route (db : store) (now : clock) (req : request)
  : response * store :=
  match req with
  | GET_root => read_root db
  | POST_students b => create_student db b now
  | GET_students skip limit => read_students db skip limit
  | GET_student k => read_student db k
  | PUT_student k b => update_student db k b now
  | DELETE_student k => delete_student db k
  | POST_courses b => create_course db b now
  | GET_courses skip limit => read_courses db skip limit
  | GET_course k => read_course db k
  | PUT_course k b => update_course db k b now
  | DELETE_course k => delete_course db k
  | POST_enrollments b => create_enrollment db b now
  | GET_enrollments skip limit => read_enrollments db skip limit
  | GET_enrollment k => read_enrollment db k
  | GET_student_enrollments k => read_student_enrollments db k
  | GET_course_enrollments k => read_course_enrollments db k
  | PUT_enrollment k b => update_enrollment db k b
  | DELETE_enrollment k => delete_enrollment db k
  end.

(** What the handler receives of a request that passed validation:
    [EmailStr] hands over the normal form of the address ([email_normal]: the
    domain in lower case, for one), every other field as it was sent. *)
Definition parsed (req : request) : request :=
  match req with
  | POST_students b =>
      POST_students
        (StudentCreate.mk (StudentCreate.name b)
                          (email_normal (StudentCreate.email b))
                          (StudentCreate.age b))
  | PUT_student k b =>
      PUT_student k
        (StudentUpdate.mk (StudentUpdate.name b)
                          match StudentUpdate.email b with
                          | Given (Some e) => Given (Some (email_normal e))
                          | f => f
                          end
                          (StudentUpdate.age b))
  | _ => req
  end.

(** FastAPI validates the body against the declared schema before it calls
    the handler (and before the session is used); a body that fails is
    answered 422, one that passes reaches the handler as [parsed]. *)
Definition app (db : store) (now : clock) (req : request)
  : response * store :=
  if body_valid req then route db now (parsed req) else (unprocessable, db).

(** Serving requests one after the other. *)
Fixpoint serve (db : store) (reqs : list (clock * request))
  : list response * store :=
  match reqs with
  | [] => ([], db)
  | (now, req) :: rest =>
      let (resp, db') := app db now req in
      let (resps, db'') := serve db' rest in
      (resp :: resps, db'')
  end.

(** The databases the API can bring about from an empty one. *)
Inductive reachable : store -> Prop :=
| reachable_empty : reachable empty_store
| reachable_app db now req :
    reachable db -> reachable (snd (app db now req)).
End App.


(** ** Vocabulary of the statements *)

Definition has_student (db : store) (k : Z) : Prop :=
  exists r, In r (students db) /\ Student.id r = k.

Definition has_course (db : store) (k : Z) : Prop :=
  exists r, In r (courses db) /\ Course.id r = k.

Definition email_registered (db : store) (e : string) : Prop :=
  exists r, In r (students db) /\ Student.email r = e.

Definition enrolled (db : store) (s c : Z) : Prop :=
  exists r, In r (enrollments db) /\ Enrollment.pair_of r = (s, c).

(** The constraints [models.py] declares and the engine keeps: the primary
    key of each table and [unique=True] on [Student.email]. *)
Record store_ok (db : store) : Prop := mk_store_ok
  { student_pk : NoDup (map Student.id (students db));
    student_email_unique : NoDup (map Student.email (students db));
    course_pk : NoDup (map Course.id (courses db));
    enrollment_pk : NoDup (map Enrollment.id (enrollments db)) }.

Definition set_student_row_updated_at (r : Student.t) (t : datetime)
  : Student.t :=
  Student.mk (Student.id r) (Student.name r) (Student.email r) (Student.age r)
             (Student.created_at r) t.

Definition set_course_row_updated_at (r : Course.t) (t : datetime)
  : Course.t :=
  Course.mk (Course.id r) (Course.title r) (Course.description r)
            (Course.credits r) (Course.instructor r) (Course.created_at r) t.

(** ** Sample data, after test_main.py *)

(** A clock that starts at [t] and advances by one at each reading. *)
Definition tick (t : datetime) : clock := fun n => t + Z.of_nat n.

(** A stand-in for the email syntax check: the address has an [@]. *)
Fixpoint has_at (s : string) : bool :=
  match s with
  | EmptyString => false
  | String c rest => Ascii.eqb c "@"%char || has_at rest
  end.

(** A stand-in for the normal form of an address: the letters after the
    first [@] in lower case. *)
Definition lower (c : ascii) : ascii :=
  let n := nat_of_ascii c in
  if ((65 <=? n) && (n <=? 90))%nat then ascii_of_nat (n + 32) else c.

Fixpoint lower_all (s : string) : string :=
  match s with
  | EmptyString => EmptyString
  | String c rest => String (lower c) (lower_all rest)
  end.

Fixpoint lower_domain (s : string) : string :=
  match s with
  | EmptyString => EmptyString
  | String c rest =>
      if Ascii.eqb c "@"%char then String c (lower_all rest)
      else String c (lower_domain rest)
  end.

Definition john : StudentCreate.t :=
  StudentCreate.mk "John Doe" "john@example.com" 20.

Definition jane : StudentCreate.t :=
  StudentCreate.mk "Jane Smith" "jane@example.com" 22.

Definition python_101 : CourseCreate.t :=
  CourseCreate.mk "Python 101" None 3 "Dr. Smith".

(** John and Jane, one course, John enrolled in it. *)
Definition campus : store :=
  snd (serve has_at lower_domain empty_store
         [ (tick 10, POST_students john);
           (tick 20, POST_students jane);
           (tick 30, POST_courses python_101);
           (tick 40, POST_enrollments (EnrollmentCreate.mk 1 1 (Some "A"))) ]).

(** The record [create_student] stores for a body, and its response. *)
Definition new_student (db : store) (b : StudentCreate.t) (now : clock)
  : Student.t :=
  Student.mk (next_rowid (map Student.id (students db)))
             (StudentCreate.name b) (StudentCreate.email b)
             (StudentCreate.age b) (now 0%nat) (now 1%nat).

Definition created (r : Student.t) : response :=
  mk_response HTTP_201_CREATED (JStudent r).

Definition post_student (tb : clock * StudentCreate.t) : clock * request :=
  (fst tb, POST_students (snd tb)).

(** The five students of [test_read_students_pagination]. *)
Definition five_students : list (clock * StudentCreate.t) :=
  [ (tick 10, StudentCreate.mk "Student 0" "student0@example.com" 20);
    (tick 20, StudentCreate.mk "Student 1" "student1@example.com" 21);
    (tick 30, StudentCreate.mk "Student 2" "student2@example.com" 22);
    (tick 40, StudentCreate.mk "Student 3" "student3@example.com" 23);
    (tick 50, StudentCreate.mk "Student 4" "student4@example.com" 24) ].

(** What every database the API brings about satisfies: the declared
    constraints, and no two enrollments of one student in one course. *)
Definition invariant (db : store) : Prop :=
  store_ok db /\ NoDup (map Enrollment.pair_of (enrollments db)).

(** The value of an attribute after the [setattr] loop: the stored one when
    the field was left out, the one of the body (maybe [None]) otherwise. *)
Definition patched {A : Type} (f : field A) (stored : A) : option A :=
  match f with
  | Unset => Some stored
  | Given v => v
  end.

Definition no_fields : StudentUpdate.t := StudentUpdate.mk Unset Unset Unset.

Definition no_course_fields : CourseUpdate.t :=
  CourseUpdate.mk Unset Unset Unset Unset.


(** ** Further vocabulary *)

Definition has_enrollment (db : store) (k : Z) : Prop :=
  exists r, In r (enrollments db) /\ Enrollment.id r = k.

(** The requests that only read. *)
Definition is_get (req : request) : bool :=
  match req with
  | GET_root | GET_students _ _ | GET_student _ | GET_courses _ _
  | GET_course _ | GET_enrollments _ _ | GET_enrollment _
  | GET_student_enrollments _ | GET_course_enrollments _ => true
  | _ => false
  end.



(** The defaults of the list routes: [skip: int = 0, limit: int = 100]. *)
Definition default_skip : Z := 0.
Definition default_limit : Z := 100.

(** A stored row read against the bounds of its creation schema. *)
Definition student_row_valid (email_syntax : string -> bool) (r : Student.t)
  : bool :=
  StudentCreate_valid email_syntax
    (StudentCreate.mk (Student.name r) (Student.email r) (Student.age r)).

Definition course_row_valid (r : Course.t) : bool :=
  CourseCreate_valid
    (CourseCreate.mk (Course.title r) (Course.description r)
                     (Course.credits r) (Course.instructor r)).

Definition enrollment_row_valid (r : Enrollment.t) : bool :=
  EnrollmentCreate_valid
    (EnrollmentCreate.mk (Enrollment.student_id r) (Enrollment.course_id r)
                         (Enrollment.grade r)).

(** The record [update_course] commits for a body and a stored record, when
    no [NOT NULL] attribute is set to [None]. *)
Definition patched_course (u : CourseUpdate.t) (r : Course.t) (t : datetime)
  : option Course.t :=
  Course.row_of
    (Course.mk_inst (Course.id r)
       (patched (CourseUpdate.title u) (Course.title r))
       match CourseUpdate.description u with
       | Unset => Course.description r
       | Given v => v
       end
       (patched (CourseUpdate.credits u) (Course.credits r))
       (patched (CourseUpdate.instructor u) (Course.instructor r))
       (Course.created_at r) t).

(** The record [update_enrollment] commits. *)
Definition regraded (u : EnrollmentUpdate.t) (r : Enrollment.t)
  : Enrollment.t :=
  Enrollment.mk (Enrollment.id r) (Enrollment.student_id r)
                (Enrollment.course_id r)
                match EnrollmentUpdate.grade u with
                | Unset => Enrollment.grade r
                | Given v => v
                end
                (Enrollment.enrollment_date r).

(** Every stored row is within the bounds of its creation schema. *)
Definition rows_valid (email_syntax : string -> bool) (db : store) : Prop :=
  Forall (fun r => student_row_valid email_syntax r = true) (students db)
  /\ Forall (fun r => course_row_valid r = true) (courses db)
  /\ Forall (fun r => enrollment_row_valid r = true) (enrollments db).

(** * Properties *)

(** ** The scenarios of test_main.py, run on the embedding *)

Example test_create_student_duplicate_email :
  fst (serve has_at lower_domain empty_store
         [ (tick 10, POST_students john);
           (tick 20, POST_students
                       (StudentCreate.mk "Jane Doe" "john@example.com" 22)) ])
  = [ created (Student.mk 1 "John Doe" "john@example.com" 20 10 11);
      http_error 400 "Email already registered" ].
Proof. reflexivity. Qed.

Example test_update_student_duplicate_email :
  fst (app has_at lower_domain campus (tick 50)
         (PUT_student 2 (StudentUpdate.mk Unset
                           (Given (Some "john@example.com")) Unset)))
  = http_error 400 "Email already registered".
Proof. reflexivity. Qed.

Example test_delete_student :
  fst (serve has_at lower_domain empty_store
         [ (tick 10, POST_students john);
           (tick 20, DELETE_student 1);
           (tick 30, GET_student 1) ])
  = [ created (Student.mk 1 "John Doe" "john@example.com" 20 10 11);
      mk_response 204 JNone;
      http_error 404 "Student not found" ].
Proof. reflexivity. Qed.

Example test_create_course_minimal :
  fst (app has_at lower_domain empty_store (tick 10)
         (POST_courses (CourseCreate.mk "Data Structures" None 4 "Dr. Jones")))
  = mk_response 201
      (JCourse (Course.mk 1 "Data Structures" None 4 "Dr. Jones" 10 11)).
Proof. reflexivity. Qed.

Example test_create_enrollment_not_found :
  fst (serve has_at lower_domain campus
         [ (tick 50, POST_enrollments (EnrollmentCreate.mk 9999 1 None));
           (tick 60, POST_enrollments (EnrollmentCreate.mk 1 9999 None)) ])
  = [ http_error 404 "Student not found";
      http_error 404 "Course not found" ].
Proof. reflexivity. Qed.

Example test_create_enrollment_duplicate :
  fst (app has_at lower_domain campus (tick 50)
         (POST_enrollments (EnrollmentCreate.mk 1 1 (Some "B"))))
  = http_error 400 "Student already enrolled in this course".
Proof. reflexivity. Qed.

Example test_update_enrollment :
  fst (app has_at lower_domain campus (tick 50)
         (PUT_enrollment 1 (EnrollmentUpdate.mk (Given (Some "A+")))))
  = mk_response 200 (JEnrollment (Enrollment.mk 1 1 1 (Some "A+") 40)).
Proof. reflexivity. Qed.

Example test_read_student_enrollments :
  fst (serve has_at lower_domain campus
         [ (tick 50, GET_student_enrollments 1);
           (tick 60, GET_student_enrollments 2);
           (tick 70, GET_student_enrollments 9999) ])
  = [ mk_response 200 (JEnrollments [Enrollment.mk 1 1 1 (Some "A") 40]);
      mk_response 200 (JEnrollments []);
      http_error 404 "Student not found" ].
Proof. reflexivity. Qed.

(** Closes [NoDup] and [store_ok] goals over tables written out in full. *)
Ltac distinct_rows :=
  repeat split; simpl; repeat constructor; simpl; intuition discriminate.

(** ** Queries *)

Section Find.
Context {A : Type} (f : A -> bool).

Lemma find_hit (l : list A) :
  (exists x, In x l /\ f x = true) -> exists y, find f l = Some y.
Proof.
  intros [x [Hin Hx]].
  destruct (find f l) as [y|] eqn:E; [now exists y|].
  rewrite (find_none f l E x Hin) in Hx. discriminate.
Qed.

Lemma find_miss (l : list A) :
  (forall x, In x l -> f x = false) -> find f l = None.
Proof.
  induction l as [|a l IH]; simpl; intros H; [reflexivity|].
  rewrite (H a (or_introl eq_refl)). apply IH. intros x Hx. apply H. now right.
Qed.

Lemma existsb_find (l : list A) : existsb f l = is_some (find f l).
Proof.
  induction l as [|a l IH]; simpl; [reflexivity|].
  destruct (f a); simpl; [reflexivity|exact IH].
Qed.

Lemma existsb_none (l : list A) :
  existsb f l = false -> forall x, In x l -> f x = false.
Proof.
  rewrite existsb_find. destruct (find f l) eqn:E; [discriminate|].
  intros _. now apply find_none.
Qed.
End Find.

Lemma get_student_Some db k r :
  get_student db k = Some r -> In r (students db) /\ Student.id r = k.
Proof.
  unfold get_student. intros H. apply find_some in H. destruct H as [Hin Hk].
  split; [exact Hin|]. now apply Z.eqb_eq.
Qed.

Lemma get_student_None db k : get_student db k = None -> ~ has_student db k.
Proof.
  unfold get_student. intros H [r [Hin Hk]].
  pose proof (find_none _ _ H r Hin) as Hf. simpl in Hf.
  apply Z.eqb_neq in Hf. contradiction.
Qed.

Lemma has_student_get db k :
  has_student db k -> exists r, get_student db k = Some r.
Proof.
  intros [r [Hin Hk]]. apply find_hit. exists r. split; [exact Hin|].
  now apply Z.eqb_eq.
Qed.

Lemma get_course_Some db k r :
  get_course db k = Some r -> In r (courses db) /\ Course.id r = k.
Proof.
  unfold get_course. intros H. apply find_some in H. destruct H as [Hin Hk].
  split; [exact Hin|]. now apply Z.eqb_eq.
Qed.

Lemma get_course_None db k : get_course db k = None -> ~ has_course db k.
Proof.
  unfold get_course. intros H [r [Hin Hk]].
  pose proof (find_none _ _ H r Hin) as Hf. simpl in Hf.
  apply Z.eqb_neq in Hf. contradiction.
Qed.

Lemma has_course_get db k :
  has_course db k -> exists r, get_course db k = Some r.
Proof.
  intros [r [Hin Hk]]. apply find_hit. exists r. split; [exact Hin|].
  now apply Z.eqb_eq.
Qed.

Lemma get_enrollment_Some db k r :
  get_enrollment db k = Some r -> In r (enrollments db) /\ Enrollment.id r = k.
Proof.
  unfold get_enrollment. intros H. apply find_some in H.
  destruct H as [Hin Hk]. split; [exact Hin|]. now apply Z.eqb_eq.
Qed.

Lemma pair_eqb_spec (r : Enrollment.t) (s c : Z) :
  (Enrollment.student_id r =? s) && (Enrollment.course_id r =? c) = true
  <-> Enrollment.pair_of r = (s, c).
Proof.
  unfold Enrollment.pair_of. rewrite andb_true_iff, !Z.eqb_eq.
  split; [intros [-> ->]; reflexivity|intros H; inversion H; auto].
Qed.

Lemma first_enrollment_by_pair_None db s c :
  first_enrollment_by_pair db s c = None <-> ~ enrolled db s c.
Proof.
  unfold first_enrollment_by_pair, enrolled. split.
  - intros H [r [Hin Hp]]. pose proof (find_none _ _ H r Hin) as Hf.
    simpl in Hf. apply pair_eqb_spec in Hp. congruence.
  - intros H. apply find_miss. intros r Hin.
    destruct ((Enrollment.student_id r =? s) && (Enrollment.course_id r =? c))
      eqn:E; [|reflexivity].
    exfalso. apply H. exists r. split; [exact Hin|]. now apply pair_eqb_spec.
Qed.

Lemma first_student_by_email_None db e :
  first_student_by_email db e = None <-> ~ email_registered db e.
Proof.
  unfold first_student_by_email, email_registered. split.
  - intros H [r [Hin He]]. pose proof (find_none _ _ H r Hin) as Hf.
    simpl in Hf. apply String.eqb_neq in Hf. contradiction.
  - intros H. apply find_miss. intros r Hin.
    destruct (String.eqb (Student.email r) e) eqn:E; [|reflexivity].
    exfalso. apply H. exists r. split; [exact Hin|]. now apply String.eqb_eq.
Qed.

Lemma first_student_by_email_Some db e r :
  first_student_by_email db e = Some r ->
  In r (students db) /\ Student.email r = e.
Proof.
  unfold first_student_by_email. intros H. apply find_some in H.
  destruct H as [Hin He]. split; [exact Hin|]. now apply String.eqb_eq.
Qed.

(** ** Creating an enrollment *)

Lemma int64_spec (n : Z) : int64 n = true <-> - 2 ^ 63 <= n < 2 ^ 63.
Proof.
  unfold int64. rewrite andb_true_iff, Z.leb_le, Z.ltb_lt. tauto.
Qed.

Lemma session_get_found {A : Type} (r : A) (key : Z) :
  session_get (Some r) key = Ok (Some r).
Proof. reflexivity. Qed.

Lemma session_get_missing {A : Type} (key : Z) :
  int64 key = true -> session_get (@None A) key = Ok None.
Proof. intros H. unfold session_get. now rewrite H. Qed.

Lemma session_get_overflow {A : Type} (key : Z) :
  int64 key = false -> session_get (@None A) key = Raise OtherError.
Proof. intros H. unfold session_get. now rewrite H. Qed.

(** The three ways [session.get] ends. *)
Lemma session_get_cases {A : Type} (row : option A) (key : Z) :
  (exists r, row = Some r /\ session_get row key = Ok (Some r))
  \/ (row = None /\ int64 key = true /\ session_get row key = Ok None)
  \/ (row = None /\ int64 key = false
      /\ session_get row key = Raise OtherError).
Proof.
  unfold session_get. destruct row as [r|]; [left; now exists r|].
  destruct (int64 key); auto.
Qed.

(** An id beyond the 64-bit range is the id of no student of [campus], and
    [create_enrollment] answers it 500, not 404. *)
Lemma create_enrollment_overflow :
  get_student campus (2 ^ 63) = None
  /\ create_enrollment campus (EnrollmentCreate.mk (2 ^ 63) 1 None) (tick 50)
     = (http_error 500 "An error occurred while creating the enrollment",
        campus)
  /\ get_course campus (2 ^ 63) = None
  /\ create_enrollment campus (EnrollmentCreate.mk 1 (2 ^ 63) None) (tick 50)
     = (http_error 500 "An error occurred while creating the enrollment",
        campus).
Proof. repeat split. Qed.

(** C1. [create_enrollment] checks its preconditions in a fixed order and
    stops at the first that fails. A student id that is the id of no student
    is answered 404 "Student not found" when it is within the 64-bit range,
    and 500 "An error occurred while creating the enrollment" when it is
    not, whatever the course id is; with the student known, a course id that
    is the id of no course is answered 404 "Course not found" within that
    range and the same 500 outside it; with both known, an existing
    enrollment of that student in that course is answered 400 "Student
    already enrolled in this course"; in each of these cases the database is
    left as it was. Otherwise the enrollment is appended, dated with the
    current time, and answered 201. *)
Theorem create_enrollment_chain (db : store) (e : EnrollmentCreate.t)
  (now : clock) :
  let s := EnrollmentCreate.student_id e in
  let c := EnrollmentCreate.course_id e in
  (~ has_student db s -> int64 s = true ->
   create_enrollment db e now
   = (http_error HTTP_404_NOT_FOUND "Student not found", db))
  /\ (~ has_student db s -> int64 s = false ->
      create_enrollment db e now
      = (http_error HTTP_500_INTERNAL_SERVER_ERROR
                    "An error occurred while creating the enrollment", db))
  /\ (has_student db s -> ~ has_course db c -> int64 c = true ->
      create_enrollment db e now
      = (http_error HTTP_404_NOT_FOUND "Course not found", db))
  /\ (has_student db s -> ~ has_course db c -> int64 c = false ->
      create_enrollment db e now
      = (http_error HTTP_500_INTERNAL_SERVER_ERROR
                    "An error occurred while creating the enrollment", db))
  /\ (has_student db s -> has_course db c -> enrolled db s c ->
      create_enrollment db e now
      = (http_error HTTP_400_BAD_REQUEST
                    "Student already enrolled in this course", db))
  /\ (has_student db s -> has_course db c -> ~ enrolled db s c ->
      exists r,
        create_enrollment db e now
        = (mk_response HTTP_201_CREATED (JEnrollment r),
           mk_store (students db) (courses db) (enrollments db ++ [r]))
        /\ Enrollment.student_id r = s
        /\ Enrollment.course_id r = c
        /\ Enrollment.grade r = EnrollmentCreate.grade e
        /\ Enrollment.enrollment_date r = now 0%nat).
Proof.
  intros s c.
  unfold create_enrollment, create_enrollment_between, create_enrollment_try.
  fold s c.
  destruct (get_student db s) as [st|] eqn:Hs.
  2:{ apply get_student_None in Hs. unfold session_get.
      destruct (int64 s);
        repeat split; try (intros; contradiction);
        intros; try discriminate; reflexivity. }
  assert (Hhs : has_student db s).
  { apply get_student_Some in Hs. now exists st. }
  rewrite session_get_found.
  destruct (get_course db c) as [co|] eqn:Hc.
  2:{ apply get_course_None in Hc. unfold session_get.
      destruct (int64 c);
        repeat split; try (intros; contradiction);
        intros; try discriminate; reflexivity. }
  assert (Hhc : has_course db c).
  { apply get_course_Some in Hc. now exists co. }
  rewrite session_get_found.
  destruct (first_enrollment_by_pair db s c) as [en|] eqn:Hp.
  - assert (Hen : enrolled db s c).
    { unfold first_enrollment_by_pair in Hp. apply find_some in Hp.
      destruct Hp as [Hin Hp]. exists en. split; [exact Hin|].
      now apply pair_eqb_spec. }
    repeat split; try (intros; contradiction).
  - apply first_enrollment_by_pair_None in Hp.
    repeat split; try (intros; contradiction).
    intros _ _ _. eexists. simpl. repeat split.
Qed.

Lemma get_student_has db k r : get_student db k = Some r -> has_student db k.
Proof. intros H. apply get_student_Some in H. now exists r. Qed.

Lemma get_course_has db k r : get_course db k = Some r -> has_course db k.
Proof. intros H. apply get_course_Some in H. now exists r. Qed.

Lemma first_enrollment_by_pair_enrolled db s c r :
  first_enrollment_by_pair db s c = Some r -> enrolled db s c.
Proof.
  unfold first_enrollment_by_pair. intros H. apply find_some in H.
  destruct H as [Hin Hp]. exists r. split; [exact Hin|].
  now apply pair_eqb_spec.
Qed.

Lemma first_student_by_email_registered db e r :
  first_student_by_email db e = Some r -> email_registered db e.
Proof. intros H. apply first_student_by_email_Some in H. now exists r. Qed.

Lemma create_enrollment_chain_witness :
  create_enrollment campus (EnrollmentCreate.mk 9 9 None) (tick 50)
  = (http_error 404 "Student not found", campus)
  /\ create_enrollment campus (EnrollmentCreate.mk (- 2 ^ 63 - 1) 1 None)
                       (tick 50)
     = (http_error 500 "An error occurred while creating the enrollment",
        campus)
  /\ create_enrollment campus (EnrollmentCreate.mk 2 9 None) (tick 50)
     = (http_error 404 "Course not found", campus)
  /\ create_enrollment campus (EnrollmentCreate.mk 2 (2 ^ 64) None) (tick 50)
     = (http_error 500 "An error occurred while creating the enrollment",
        campus)
  /\ create_enrollment campus (EnrollmentCreate.mk 1 1 None) (tick 50)
     = (http_error 400 "Student already enrolled in this course", campus)
  /\ exists r,
       create_enrollment campus (EnrollmentCreate.mk 2 1 None) (tick 50)
       = (mk_response 201 (JEnrollment r),
          mk_store (students campus) (courses campus)
                   (enrollments campus ++ [r]))
       /\ Enrollment.student_id r = 2
       /\ Enrollment.course_id r = 1
       /\ Enrollment.grade r = None
       /\ Enrollment.enrollment_date r = 50.
Proof.
  split; [|split; [|split; [|split; [|split]]]].
  - destruct (create_enrollment_chain campus (EnrollmentCreate.mk 9 9 None)
                (tick 50)) as (H & _).
    apply H; [apply get_student_None|]; reflexivity.
  - destruct (create_enrollment_chain campus
                (EnrollmentCreate.mk (- 2 ^ 63 - 1) 1 None) (tick 50))
      as (_ & H & _).
    apply H; [apply get_student_None|]; reflexivity.
  - destruct (create_enrollment_chain campus (EnrollmentCreate.mk 2 9 None)
                (tick 50)) as (_ & _ & H & _).
    apply H; [eapply get_student_has|apply get_course_None|]; reflexivity.
  - destruct (create_enrollment_chain campus
                (EnrollmentCreate.mk 2 (2 ^ 64) None) (tick 50))
      as (_ & _ & _ & H & _).
    apply H; [eapply get_student_has|apply get_course_None|]; reflexivity.
  - destruct (create_enrollment_chain campus (EnrollmentCreate.mk 1 1 None)
                (tick 50)) as (_ & _ & _ & _ & H & _).
    apply H; [eapply get_student_has|eapply get_course_has
             |eapply first_enrollment_by_pair_enrolled]; reflexivity.
  - destruct (create_enrollment_chain campus (EnrollmentCreate.mk 2 1 None)
                (tick 50)) as (_ & _ & _ & _ & _ & H).
    apply H; [eapply get_student_has|eapply get_course_has
             |apply first_enrollment_by_pair_None]; reflexivity.
Defined.

(** ** Creating a student *)

Lemma le_fold_max (ids : list Z) (x : Z) :
  In x ids -> x <= fold_right Z.max 0 ids.
Proof.
  induction ids as [|a ids IH]; simpl; [contradiction|].
  intros [->|H]; [lia|]. specialize (IH H). lia.
Qed.

Lemma next_rowid_fresh (ids : list Z) : ~ In (next_rowid ids) ids.
Proof.
  unfold next_rowid. intros H. apply le_fold_max in H. lia.
Qed.

Lemma insert_student_free db name email age t1 t2 :
  ~ email_registered db email ->
  insert_student db name email age t1 t2
  = let r := Student.mk (next_rowid (map Student.id (students db)))
                        name email age t1 t2 in
    Ok (r, mk_store (students db ++ [r]) (courses db) (enrollments db)).
Proof.
  intros H. unfold insert_student. rewrite existsb_find.
  apply first_student_by_email_None in H. unfold first_student_by_email in H.
  rewrite H. reflexivity.
Qed.

Lemma create_student_new db b now :
  ~ email_registered db (StudentCreate.email b) ->
  create_student db b now
  = (created (new_student db b now),
     mk_store (students db ++ [new_student db b now])
              (courses db) (enrollments db)).
Proof.
  intros H. unfold create_student, create_student_between, create_student_try.
  pose proof H as H'. apply first_student_by_email_None in H'. rewrite H'.
  rewrite (insert_student_free _ _ _ _ _ _ H). reflexivity.
Qed.

Lemma NoDup_map_snoc {A B : Type} (f : A -> B) (l : list A) (x : A) :
  NoDup (map f l) -> ~ In (f x) (map f l) -> NoDup (map f (l ++ [x])).
Proof.
  intros Hnd Hx. rewrite map_app. simpl.
  induction (map f l) as [|b bs IH]; simpl.
  - constructor; [intros []|constructor].
  - inversion Hnd as [|? ? Hnotin Hnd']; subst. constructor.
    + intros Hin. apply in_app_or in Hin. destruct Hin as [Hin|[Hin|[]]].
      * contradiction.
      * apply Hx. left. now symmetry.
    + apply IH; [exact Hnd'|]. intros Hin. apply Hx. now right.
Qed.

Lemma create_student_registered db b now :
  email_registered db (StudentCreate.email b) ->
  create_student db b now
  = (http_error HTTP_400_BAD_REQUEST "Email already registered", db).
Proof.
  intros Hreg.
  unfold create_student, create_student_between, create_student_try.
  destruct (first_student_by_email db (StudentCreate.email b)) eqn:E;
    [reflexivity|].
  apply first_student_by_email_None in E. contradiction.
Qed.

(** Posting students with valid bodies whose emails, in normal form, are new
    and pairwise different stores them one after the other, behind the rows
    the table already had. *)
Lemma serve_post_students (email_syntax : string -> bool)
  (email_normal : string -> string)
  (posts : list (clock * StudentCreate.t)) :
  forall db,
    Forall (fun tb => StudentCreate_valid email_syntax (snd tb) = true) posts ->
    NoDup (map (fun tb => email_normal (StudentCreate.email (snd tb))) posts) ->
    (forall tb,
        In tb posts ->
        ~ email_registered db (email_normal (StudentCreate.email (snd tb)))) ->
    exists rows,
      serve email_syntax email_normal db (map post_student posts)
      = (map created rows,
         mk_store (students db ++ rows) (courses db) (enrollments db))
      /\ map Student.email rows
         = map (fun tb => email_normal (StudentCreate.email (snd tb))) posts
      /\ map Student.name rows
         = map (fun tb => StudentCreate.name (snd tb)) posts
      /\ (NoDup (map Student.id (students db)) ->
          NoDup (map Student.id (students db ++ rows))).
Proof.
  induction posts as [|[now b] posts IH]; intros db Hvalid Hnodup Hfree.
  - exists []. simpl. rewrite app_nil_r. now destruct db.
  - inversion Hvalid as [|? ? Hb Hrest]; subst. simpl in Hb.
    inversion Hnodup as [|? ? Hnotin Hnodup']; subst.
    set (b' := StudentCreate.mk (StudentCreate.name b)
                                (email_normal (StudentCreate.email b))
                                (StudentCreate.age b)).
    assert (Hnew : ~ email_registered db (StudentCreate.email b')).
    { apply (Hfree (now, b)). now left. }
    set (r := new_student db b' now).
    set (db' := mk_store (students db ++ [r]) (courses db) (enrollments db)).
    destruct (IH db' Hrest Hnodup') as [rows [Hserve [Hemails [Hnames Hids]]]].
    { intros tb Hin [x [Hx Hxe]]. simpl in Hx. apply in_app_or in Hx.
      destruct Hx as [Hx|[Hx|[]]].
      - apply (Hfree tb (or_intror Hin)). now exists x.
      - subst x. simpl in Hxe. apply Hnotin. simpl. rewrite Hxe.
        apply (in_map
                 (fun tb => email_normal (StudentCreate.email (snd tb))))
          in Hin.
        exact Hin. }
    exists (r :: rows). simpl. unfold app at 1. simpl. rewrite Hb.
    fold b'. rewrite (create_student_new db b' now Hnew). fold r db'.
    rewrite Hserve. simpl. rewrite <- app_assoc. simpl.
    split; [reflexivity|]. split; [now f_equal|]. split; [now f_equal|].
    intros Hpk. simpl in Hids. rewrite <- app_assoc in Hids. apply Hids.
    apply NoDup_map_snoc; [exact Hpk|]. apply next_rowid_fresh.
Qed.

(** The id of a deleted student is given again to the next one, and the
    address a student is stored and answered with is the normal form of the
    one posted. *)
Lemma student_id_assigned_again :
  fst (serve has_at lower_domain empty_store
         [ (tick 10, POST_students john);
           (tick 20, DELETE_student 1);
           (tick 30, POST_students jane) ])
  = [ created (Student.mk 1 "John Doe" "john@example.com" 20 10 11);
      mk_response 204 JNone;
      created (Student.mk 1 "Jane Smith" "jane@example.com" 22 30 31) ]
  /\ fst (serve has_at lower_domain empty_store
            [ (tick 10, POST_students
                          (StudentCreate.mk "John Doe" "john@EXAMPLE.COM" 20));
              (tick 20, POST_students
                          (StudentCreate.mk "Jon Doe" "john@Example.com" 21)) ])
     = [ created (Student.mk 1 "John Doe" "john@example.com" 20 10 11);
         http_error 400 "Email already registered" ].
Proof. split; reflexivity. Qed.

(** C4. [create_student] answers 400 "Email already registered" and leaves
    the database as it was when a student of the database has the email it
    is called with. When none has, it appends the student and answers 201
    with the stored record, whose email (like its name and age) is the one
    it was called with and whose id differs from the id of every student the
    database holds. The email the handler is called with is the normal form
    [EmailStr] makes of the address of the body: POST /students/ with a
    valid body is answered 400 when that normal form is registered, and
    otherwise 201 with a record that has that normal form as its email, the
    name and age of the body and an id no student of the database has.
    Students posted one after the other, with valid bodies and addresses
    whose normal forms are new and pairwise different, are all stored with
    these, under ids that differ from one another and from the ids the table
    holds. *)
Theorem create_student_by_email (email_syntax : string -> bool)
  (email_normal : string -> string) (db : store) (b : StudentCreate.t)
  (now : clock) :
  (email_registered db (StudentCreate.email b) ->
   create_student db b now
   = (http_error HTTP_400_BAD_REQUEST "Email already registered", db))
  /\ (~ email_registered db (StudentCreate.email b) ->
      exists r,
        create_student db b now
        = (mk_response HTTP_201_CREATED (JStudent r),
           mk_store (students db ++ [r]) (courses db) (enrollments db))
        /\ Student.email r = StudentCreate.email b
        /\ Student.name r = StudentCreate.name b
        /\ Student.age r = StudentCreate.age b
        /\ forall r', In r' (students db) -> Student.id r' <> Student.id r)
  /\ (StudentCreate_valid email_syntax b = true ->
      email_registered db (email_normal (StudentCreate.email b)) ->
      app email_syntax email_normal db now (POST_students b)
      = (http_error HTTP_400_BAD_REQUEST "Email already registered", db))
  /\ (StudentCreate_valid email_syntax b = true ->
      ~ email_registered db (email_normal (StudentCreate.email b)) ->
      exists r,
        app email_syntax email_normal db now (POST_students b)
        = (mk_response HTTP_201_CREATED (JStudent r),
           mk_store (students db ++ [r]) (courses db) (enrollments db))
        /\ Student.email r = email_normal (StudentCreate.email b)
        /\ Student.name r = StudentCreate.name b
        /\ Student.age r = StudentCreate.age b
        /\ forall r', In r' (students db) -> Student.id r' <> Student.id r)
  /\ (forall posts,
         Forall (fun tb => StudentCreate_valid email_syntax (snd tb) = true)
                posts ->
         NoDup (map (fun tb => email_normal (StudentCreate.email (snd tb)))
                    posts) ->
         (forall tb,
             In tb posts ->
             ~ email_registered
                 db (email_normal (StudentCreate.email (snd tb)))) ->
         NoDup (map Student.id (students db)) ->
         exists rows,
           serve email_syntax email_normal db (map post_student posts)
           = (map created rows,
              mk_store (students db ++ rows) (courses db) (enrollments db))
           /\ map Student.email rows
              = map (fun tb => email_normal (StudentCreate.email (snd tb)))
                    posts
           /\ NoDup (map Student.id (students db ++ rows))).
Proof.
  assert (Hfresh : forall b0,
             forall r', In r' (students db) ->
                        Student.id r' <> Student.id (new_student db b0 now)).
  { intros b0 r' Hin Heq. simpl in Heq.
    apply (next_rowid_fresh (map Student.id (students db))).
    rewrite <- Heq. now apply in_map. }
  split; [|split; [|split; [|split]]].
  - apply create_student_registered.
  - intros Hnew. rewrite (create_student_new db b now Hnew).
    exists (new_student db b now). repeat split. apply Hfresh.
  - intros Hvalid Hreg. unfold app. simpl. rewrite Hvalid.
    now apply create_student_registered.
  - intros Hvalid Hnew. unfold app. simpl. rewrite Hvalid.
    set (b' := StudentCreate.mk (StudentCreate.name b)
                                (email_normal (StudentCreate.email b))
                                (StudentCreate.age b)).
    rewrite (create_student_new db b' now Hnew).
    exists (new_student db b' now). repeat split. apply Hfresh.
  - intros posts Hvalid Hnodup Hfree Hpk.
    destruct (serve_post_students email_syntax email_normal posts db
                Hvalid Hnodup Hfree)
      as [rows (Hserve & Hemails & _ & Hids)].
    exists rows. auto.
Qed.

Lemma create_student_by_email_witness :
  create_student campus john (tick 50)
  = (http_error 400 "Email already registered", campus)
  /\ (exists r,
         create_student campus (StudentCreate.mk "Ann" "ann@example.com" 31)
                        (tick 50)
         = (mk_response 201 (JStudent r),
            mk_store (students campus ++ [r]) (courses campus)
                     (enrollments campus))
         /\ Student.email r = "ann@example.com"
         /\ Student.name r = "Ann"
         /\ Student.age r = 31
         /\ forall r', In r' (students campus) ->
                       Student.id r' <> Student.id r)
  /\ app has_at lower_domain campus (tick 50)
         (POST_students (StudentCreate.mk "Jon" "john@EXAMPLE.com" 30))
     = (http_error 400 "Email already registered", campus)
  /\ (exists r,
         app has_at lower_domain campus (tick 50)
             (POST_students (StudentCreate.mk "Ann" "ann@Example.COM" 31))
         = (mk_response 201 (JStudent r),
            mk_store (students campus ++ [r]) (courses campus)
                     (enrollments campus))
         /\ Student.email r = "ann@example.com"
         /\ Student.name r = "Ann"
         /\ Student.age r = 31
         /\ forall r', In r' (students campus) ->
                       Student.id r' <> Student.id r).
Proof.
  split; [|split; [|split]].
  - destruct (create_student_by_email has_at lower_domain campus john
                (tick 50)) as (H & _).
    apply H. eapply first_student_by_email_registered. reflexivity.
  - destruct (create_student_by_email has_at lower_domain campus
                (StudentCreate.mk "Ann" "ann@example.com" 31) (tick 50))
      as (_ & H & _).
    apply H. apply first_student_by_email_None. reflexivity.
  - destruct (create_student_by_email has_at lower_domain campus
                (StudentCreate.mk "Jon" "john@EXAMPLE.com" 30) (tick 50))
      as (_ & _ & H & _).
    apply H; [reflexivity|].
    eapply first_student_by_email_registered. reflexivity.
  - destruct (create_student_by_email has_at lower_domain campus
                (StudentCreate.mk "Ann" "ann@Example.COM" 31) (tick 50))
      as (_ & _ & _ & H & _).
    apply H; [reflexivity|].
    apply first_student_by_email_None. reflexivity.
Defined.

(** ** Validation *)

Lemma length_between_false lo hi s :
  len s < lo \/ hi < len s -> length_between lo hi s = false.
Proof.
  intros H. unfold length_between. apply andb_false_iff.
  destruct H; [left|right]; now apply Z.leb_gt.
Qed.

Lemma between_false lo hi n :
  n < lo \/ hi < n -> between lo hi n = false.
Proof.
  intros H. unfold between. apply andb_false_iff.
  destruct H; [left|right]; now apply Z.leb_gt.
Qed.

Lemma app_invalid email_syntax email_normal db now req :
  body_valid email_syntax req = false ->
  app email_syntax email_normal db now req = (unprocessable, db).
Proof. intros H. unfold app. now rewrite H. Qed.

(** C7. A request whose body fails the schema of its route is answered 422
    and the database after it is the database before it, whatever the
    database is: the handler is not called. This holds of every route that
    takes a body, creation and update of students, courses and enrollments,
    and of every bound the schemas state: a name, title or instructor that is
    empty or too long, an email that fails the syntax check, an age outside
    1..150 (age 0), credits outside 1..10 (credits 0), a description of more
    than 1000 characters, a grade of more than 2; in an update the bounds are
    those of the fields that are set to a value. *)
Theorem invalid_body_unprocessable (email_syntax : string -> bool)
  (email_normal : string -> string) :
  (forall db now req,
      body_valid email_syntax req = false ->
      app email_syntax email_normal db now req = (unprocessable, db))
  /\ status unprocessable = 422
  /\ (forall db now b,
         len (StudentCreate.name b) < 1 \/ 100 < len (StudentCreate.name b)
         \/ email_syntax (StudentCreate.email b) = false
         \/ StudentCreate.age b < 1 \/ 150 < StudentCreate.age b ->
         app email_syntax email_normal db now (POST_students b) = (unprocessable, db))
  /\ (forall db now k b,
         (exists v, StudentUpdate.name b = Given (Some v)
                    /\ (len v < 1 \/ 100 < len v))
         \/ (exists v, StudentUpdate.email b = Given (Some v)
                       /\ email_syntax v = false)
         \/ (exists v, StudentUpdate.age b = Given (Some v)
                       /\ (v < 1 \/ 150 < v)) ->
         app email_syntax email_normal db now (PUT_student k b) = (unprocessable, db))
  /\ (forall db now b,
         len (CourseCreate.title b) < 1 \/ 200 < len (CourseCreate.title b)
         \/ (exists d, CourseCreate.description b = Some d /\ 1000 < len d)
         \/ CourseCreate.credits b < 1 \/ 10 < CourseCreate.credits b
         \/ len (CourseCreate.instructor b) < 1
         \/ 100 < len (CourseCreate.instructor b) ->
         app email_syntax email_normal db now (POST_courses b) = (unprocessable, db))
  /\ (forall db now k b,
         (exists v, CourseUpdate.title b = Given (Some v)
                    /\ (len v < 1 \/ 200 < len v))
         \/ (exists v, CourseUpdate.description b = Given (Some v)
                       /\ 1000 < len v)
         \/ (exists v, CourseUpdate.credits b = Given (Some v)
                       /\ (v < 1 \/ 10 < v))
         \/ (exists v, CourseUpdate.instructor b = Given (Some v)
                       /\ (len v < 1 \/ 100 < len v)) ->
         app email_syntax email_normal db now (PUT_course k b) = (unprocessable, db))
  /\ (forall db now b,
         (exists g, EnrollmentCreate.grade b = Some g /\ 2 < len g) ->
         app email_syntax email_normal db now (POST_enrollments b) = (unprocessable, db))
  /\ (forall db now k b,
         (exists g, EnrollmentUpdate.grade b = Given (Some g) /\ 2 < len g) ->
         app email_syntax email_normal db now (PUT_enrollment k b) = (unprocessable, db)).
Proof.
  split; [intros; now apply app_invalid|]. split; [reflexivity|].
  repeat split; intros; apply app_invalid; simpl.
  - unfold StudentCreate_valid.
    destruct H as [H|[H|[H|H]]].
    + rewrite length_between_false by auto. reflexivity.
    + rewrite length_between_false by auto. reflexivity.
    + rewrite H. now rewrite andb_false_r.
    + rewrite between_false by exact H. now rewrite andb_false_r.
  - unfold StudentUpdate_valid.
    destruct H as [[v [Hv H]]|[[v [Hv H]]|[v [Hv H]]]]; rewrite Hv; simpl.
    + rewrite length_between_false by exact H. reflexivity.
    + rewrite H. now rewrite andb_false_r.
    + rewrite between_false by exact H. now rewrite andb_false_r.
  - unfold CourseCreate_valid.
    destruct H as [H|[H|[[d [Hd H]]|H]]].
    + rewrite length_between_false by auto. reflexivity.
    + rewrite length_between_false by auto. reflexivity.
    + rewrite Hd. simpl. apply Z.leb_gt in H. rewrite H.
      now rewrite andb_false_r.
    + destruct H as [H|[H|H]].
      * rewrite between_false by auto. now rewrite andb_false_r.
      * rewrite between_false by auto. now rewrite andb_false_r.
      * rewrite (length_between_false 1 100) by exact H.
        now rewrite andb_false_r.
  - unfold CourseUpdate_valid.
    destruct H as [[v [Hv H]]|[[v [Hv H]]|[[v [Hv H]]|[v [Hv H]]]]];
      rewrite Hv; simpl.
    + rewrite length_between_false by exact H. reflexivity.
    + apply Z.leb_gt in H. rewrite H. now rewrite andb_false_r.
    + rewrite between_false by exact H. now rewrite andb_false_r.
    + rewrite length_between_false by exact H. now rewrite andb_false_r.
  - unfold EnrollmentCreate_valid. destruct H as [g [Hg H]]. rewrite Hg.
    simpl. now apply Z.leb_gt.
  - unfold EnrollmentUpdate_valid. destruct H as [g [Hg H]]. rewrite Hg.
    simpl. now apply Z.leb_gt.
Qed.

Lemma invalid_body_unprocessable_witness :
  app has_at lower_domain campus (tick 50)
      (POST_students (StudentCreate.mk "John Doe" "invalid-email" 20))
  = (unprocessable, campus)
  /\ app has_at lower_domain campus (tick 50)
         (POST_courses (CourseCreate.mk "Invalid Course" None 0 "Dr. Smith"))
     = (unprocessable, campus)
  /\ app has_at lower_domain campus (tick 50)
         (PUT_enrollment 1 (EnrollmentUpdate.mk (Given (Some "A++"))))
     = (unprocessable, campus).
Proof.
  destruct (invalid_body_unprocessable has_at lower_domain) as (H & _).
  split; [|split]; apply H; reflexivity.
Defined.

(** ** Listing *)

Lemma page_nonneg {A : Type} (skip limit : Z) (rows : list A) :
  0 <= limit ->
  page skip limit rows = firstn (Z.to_nat limit) (skipn (Z.to_nat skip) rows).
Proof.
  intros H. unfold page.
  destruct (limit <? 0) eqn:E; [apply Z.ltb_lt in E; lia|reflexivity].
Qed.

Lemma offset_limit_bound {A : Type} (skip limit : Z) (rows : list A) :
  int64 skip = true -> int64 limit = true ->
  offset_limit skip limit rows = Ok (page skip limit rows).
Proof. intros Hs Hl. unfold offset_limit. now rewrite Hs, Hl. Qed.

Lemma offset_limit_overflow {A : Type} (skip limit : Z) (rows : list A) :
  int64 skip && int64 limit = false ->
  offset_limit skip limit rows = Raise OtherError.
Proof. intros H. unfold offset_limit. now rewrite H. Qed.

Lemma offset_limit_nonneg {A : Type} (skip limit : Z) (rows : list A) :
  0 <= skip < 2 ^ 63 -> 0 <= limit < 2 ^ 63 ->
  offset_limit skip limit rows
  = Ok (firstn (Z.to_nat limit) (skipn (Z.to_nat skip) rows)).
Proof.
  intros Hs Hl.
  rewrite offset_limit_bound by (apply int64_spec; lia).
  now rewrite page_nonneg by lia.
Qed.

(** A limit beyond the 64-bit range is answered 500, not with a page; and of
    two addresses that differ in the case of the domain only the first is
    stored, so the list has one student where two were posted. *)
Lemma read_students_overflow :
  read_students campus 0 (2 ^ 63)
  = (http_error 500 "An error occurred while fetching students", campus)
  /\ fst (serve has_at lower_domain empty_store
            [ (tick 10, POST_students
                          (StudentCreate.mk "Student 0" "s@example.com" 20));
              (tick 20, POST_students
                          (StudentCreate.mk "Student 1" "s@Example.com" 21));
              (tick 30, GET_students 0 100) ])
     = [ created (Student.mk 1 "Student 0" "s@example.com" 20 10 11);
         http_error 400 "Email already registered";
         mk_response 200
           (JStudents [Student.mk 1 "Student 0" "s@example.com" 20 10 11]) ].
Proof. split; reflexivity. Qed.

(** C8. The three list endpoints answer the rows of their table in table
    order, [skip] rows dropped and at most [limit] rows kept, for [skip] and
    [limit] that are not negative and below 2^63; when one of them is outside
    the 64-bit range the answer is 500. A creation that is answered 201 puts
    its record behind the rows the table already had. So students created
    one after the other into an empty database, with valid bodies and
    addresses whose normal forms are different, are listed in creation
    order: after five of them, [GET /students/?skip=2&limit=2] answers
    exactly the third and the fourth created student, in that order. *)
Theorem list_in_creation_order (email_syntax : string -> bool)
  (email_normal : string -> string) :
  (forall db skip limit,
      0 <= skip < 2 ^ 63 -> 0 <= limit < 2 ^ 63 ->
      read_students db skip limit
      = (mk_response 200 (JStudents (firstn (Z.to_nat limit)
                                       (skipn (Z.to_nat skip) (students db)))),
         db)
      /\ read_courses db skip limit
         = (mk_response 200 (JCourses (firstn (Z.to_nat limit)
                                         (skipn (Z.to_nat skip) (courses db)))),
            db)
      /\ read_enrollments db skip limit
         = (mk_response 200
              (JEnrollments (firstn (Z.to_nat limit)
                               (skipn (Z.to_nat skip) (enrollments db)))),
            db))
  /\ (forall db skip limit,
         int64 skip && int64 limit = false ->
         read_students db skip limit
         = (http_error 500 "An error occurred while fetching students", db)
         /\ read_courses db skip limit
            = (http_error 500 "An error occurred while fetching courses", db)
         /\ read_enrollments db skip limit
            = (http_error 500 "An error occurred while fetching enrollments",
               db))
  /\ (forall db b now r db',
         create_student db b now = (mk_response 201 (JStudent r), db') ->
         students db' = students db ++ [r])
  /\ (forall db b now r db',
         create_course db b now = (mk_response 201 (JCourse r), db') ->
         courses db' = courses db ++ [r])
  /\ (forall db b now r db',
         create_enrollment db b now = (mk_response 201 (JEnrollment r), db') ->
         enrollments db' = enrollments db ++ [r])
  /\ (forall posts now skip limit,
         Forall (fun tb => StudentCreate_valid email_syntax (snd tb) = true)
                posts ->
         NoDup (map (fun tb => email_normal (StudentCreate.email (snd tb)))
                    posts) ->
         0 <= skip < 2 ^ 63 -> 0 <= limit < 2 ^ 63 ->
         exists rows db,
           serve email_syntax email_normal empty_store (map post_student posts)
           = (map created rows, db)
           /\ map Student.email rows
              = map (fun tb => email_normal (StudentCreate.email (snd tb)))
                    posts
           /\ map Student.name rows
              = map (fun tb => StudentCreate.name (snd tb)) posts
           /\ app email_syntax email_normal db now (GET_students skip limit)
              = (mk_response 200
                   (JStudents (firstn (Z.to_nat limit)
                                 (skipn (Z.to_nat skip) rows))),
                 db))
  /\ (forall p1 p2 p3 p4 p5 now,
         Forall (fun tb => StudentCreate_valid email_syntax (snd tb) = true)
                [p1; p2; p3; p4; p5] ->
         NoDup (map (fun tb => email_normal (StudentCreate.email (snd tb)))
                    [p1; p2; p3; p4; p5]) ->
         exists r1 r2 r3 r4 r5 db,
           serve email_syntax email_normal empty_store
                 (map post_student [p1; p2; p3; p4; p5])
           = ([created r1; created r2; created r3; created r4; created r5], db)
           /\ app email_syntax email_normal db now (GET_students 2 2)
              = (mk_response 200 (JStudents [r3; r4]), db)
           /\ Student.email r3 = email_normal (StudentCreate.email (snd p3))
           /\ Student.name r3 = StudentCreate.name (snd p3)
           /\ Student.email r4 = email_normal (StudentCreate.email (snd p4))
           /\ Student.name r4 = StudentCreate.name (snd p4)).
Proof.
  assert (Hscenario :
    forall posts now skip limit,
      Forall (fun tb => StudentCreate_valid email_syntax (snd tb) = true)
             posts ->
      NoDup (map (fun tb => email_normal (StudentCreate.email (snd tb)))
                 posts) ->
      0 <= skip < 2 ^ 63 -> 0 <= limit < 2 ^ 63 ->
      exists rows db,
        serve email_syntax email_normal empty_store (map post_student posts)
        = (map created rows, db)
        /\ map Student.email rows
           = map (fun tb => email_normal (StudentCreate.email (snd tb))) posts
        /\ map Student.name rows
           = map (fun tb => StudentCreate.name (snd tb)) posts
        /\ app email_syntax email_normal db now (GET_students skip limit)
           = (mk_response 200
                (JStudents (firstn (Z.to_nat limit)
                              (skipn (Z.to_nat skip) rows))),
              db)).
  { intros posts now skip limit Hvalid Hnodup Hskip Hlimit.
    destruct (serve_post_students email_syntax email_normal posts empty_store
                Hvalid Hnodup)
      as [rows [Hserve [Hemails [Hnames _]]]].
    { intros tb _ [x [[] _]]. }
    simpl in Hserve. exists rows. eexists. split; [exact Hserve|].
    split; [exact Hemails|]. split; [exact Hnames|].
    unfold app. simpl. unfold read_students. simpl.
    now rewrite offset_limit_nonneg. }
  split; [|split; [|split; [|split; [|split; [|split]]]]].
  - intros db skip limit Hskip Hlimit.
    unfold read_students, read_courses, read_enrollments.
    rewrite !offset_limit_nonneg by assumption. repeat split.
  - intros db skip limit Hover.
    unfold read_students, read_courses, read_enrollments.
    rewrite !offset_limit_overflow by assumption. repeat split.
  - intros db b now r db'.
    unfold create_student, create_student_between, create_student_try.
    destruct (first_student_by_email db (StudentCreate.email b)) eqn:E;
      simpl; [discriminate|].
    unfold insert_student. rewrite existsb_find.
    unfold first_student_by_email in E. rewrite E. simpl.
    intros H. inversion H. reflexivity.
  - intros db b now r db'. unfold create_course. simpl.
    intros H. inversion H. reflexivity.
  - intros db b now r db'.
    unfold create_enrollment, create_enrollment_between, create_enrollment_try.
    destruct (session_get_cases (get_student db (EnrollmentCreate.student_id b))
                (EnrollmentCreate.student_id b))
      as [[? [_ ->]]|[[_ [_ ->]]|[_ [_ ->]]]]; simpl; try discriminate.
    destruct (session_get_cases (get_course db (EnrollmentCreate.course_id b))
                (EnrollmentCreate.course_id b))
      as [[? [_ ->]]|[[_ [_ ->]]|[_ [_ ->]]]]; simpl; try discriminate.
    destruct (first_enrollment_by_pair db _ _); simpl; [discriminate|].
    intros H. inversion H. reflexivity.
  - exact Hscenario.
  - intros p1 p2 p3 p4 p5 now Hvalid Hnodup.
    assert (H2 : 0 <= 2 < 2 ^ 63) by lia.
    destruct (Hscenario [p1; p2; p3; p4; p5] now 2 2 Hvalid Hnodup H2 H2)
      as [rows [db [Hserve [Hemails [Hnames Hget]]]]].
    destruct rows as [|r1 [|r2 [|r3 [|r4 [|r5 [|r6 rows]]]]]];
      simpl in Hemails; try discriminate.
    simpl in Hnames. inversion Hemails. inversion Hnames.
    exists r1, r2, r3, r4, r5, db. repeat split; assumption.
Qed.

Lemma list_in_creation_order_witness :
  exists r1 r2 r3 r4 r5 db,
    serve has_at lower_domain empty_store (map post_student five_students)
    = ([created r1; created r2; created r3; created r4; created r5], db)
    /\ app has_at lower_domain db (tick 60) (GET_students 2 2)
       = (mk_response 200 (JStudents [r3; r4]), db)
    /\ Student.email r3 = "student2@example.com"
    /\ Student.name r3 = "Student 2"
    /\ Student.email r4 = "student3@example.com"
    /\ Student.name r4 = "Student 3".
Proof.
  destruct (list_in_creation_order has_at lower_domain)
    as (_ & _ & _ & _ & _ & _ & H).
  apply (H (tick 10, StudentCreate.mk "Student 0" "student0@example.com" 20)
           (tick 20, StudentCreate.mk "Student 1" "student1@example.com" 21)
           (tick 30, StudentCreate.mk "Student 2" "student2@example.com" 22)
           (tick 40, StudentCreate.mk "Student 3" "student3@example.com" 23)
           (tick 50, StudentCreate.mk "Student 4" "student4@example.com" 24)
           (tick 60)).
  - repeat constructor.
  - distinct_rows.
Defined.

(** ** Tables: rows found, replaced and removed by key *)

Lemma NoDup_map_inj {A B : Type} (f : A -> B) (l : list A) (x y : A) :
  NoDup (map f l) -> In x l -> In y l -> f x = f y -> x = y.
Proof.
  induction l as [|a l IH]; simpl; [contradiction|].
  intros Hnd Hx Hy Hxy. inversion Hnd as [|? ? Hnotin Hnd']; subst.
  destruct Hx as [->|Hx], Hy as [->|Hy]; auto.
  - exfalso. apply Hnotin. rewrite Hxy. now apply in_map.
  - exfalso. apply Hnotin. rewrite <- Hxy. now apply in_map.
Qed.

(** Removing rows keeps a column free of duplicates. *)
Lemma filter_distinct {Row Col : Type} (keep : Row -> bool)
  (col : Row -> Col) (rows : list Row)
  (Hdistinct : NoDup (map col rows)) :
  NoDup (map col (filter keep rows)).
Proof.
  induction rows as [|row rows IH]; simpl; [constructor|].
  inversion Hdistinct as [|? ? Hnotin Hrest]; subst.
  destruct (keep row); simpl; [|now apply IH].
  constructor; [|now apply IH].
  intros Hin. apply Hnotin. apply in_map_iff in Hin.
  destruct Hin as [x [Hfx Hx]]. apply filter_In in Hx.
  rewrite <- Hfx. apply in_map. tauto.
Qed.

Section Keyed.
Context {A : Type} (key : A -> Z).

Lemma put_keys (r : A) (l : list A) : map key (put_row key r l) = map key l.
Proof.
  unfold put_row. rewrite map_map. apply map_ext. intros x.
  destruct (key x =? key r) eqn:E; [|reflexivity].
  apply Z.eqb_eq in E. now symmetry.
Qed.

Lemma put_absent (r : A) (l : list A) :
  ~ In (key r) (map key l) -> put_row key r l = l.
Proof.
  unfold put_row. induction l as [|a l IH]; simpl; intros H; [reflexivity|].
  destruct (key a =? key r) eqn:E.
  - apply Z.eqb_eq in E. exfalso. apply H. now left.
  - f_equal. apply IH. intros Hin. apply H. now right.
Qed.

Lemma put_split (r r0 : A) (l : list A) :
  NoDup (map key l) -> In r0 l -> key r0 = key r ->
  exists l1 l2, l = l1 ++ r0 :: l2 /\ put_row key r l = l1 ++ r :: l2.
Proof.
  intros Hnd Hin Hk. apply in_split in Hin. destruct Hin as [l1 [l2 ->]].
  exists l1, l2. split; [reflexivity|].
  rewrite map_app in Hnd. simpl in Hnd.
  pose proof (NoDup_remove_2 _ _ _ Hnd) as Hnotin.
  unfold put_row. rewrite map_app. simpl.
  rewrite Hk, Z.eqb_refl. f_equal; [|f_equal].
  - apply put_absent. rewrite <- Hk. intros H. apply Hnotin.
    apply in_or_app. now left.
  - apply put_absent. rewrite <- Hk. intros H. apply Hnotin.
    apply in_or_app. now right.
Qed.

Lemma put_same {B : Type} (f : A -> B) (r r0 : A) (l : list A) :
  NoDup (map key l) -> In r0 l -> key r0 = key r -> f r = f r0 ->
  map f (put_row key r l) = map f l.
Proof.
  intros Hnd Hin Hk Hf.
  destruct (put_split r r0 l Hnd Hin Hk) as [l1 [l2 [-> ->]]].
  rewrite !map_app. simpl. now rewrite Hf.
Qed.

Lemma put_unique {B : Type} (f : A -> B) (r : A) (l : list A) :
  NoDup (map key l) -> NoDup (map f l) ->
  (forall x, In x l -> f x = f r -> key x = key r) ->
  NoDup (map f (put_row key r l)).
Proof.
  intros Hk Hf Hother.
  destruct (in_dec Z.eq_dec (key r) (map key l)) as [Hin|Hout].
  2:{ now rewrite put_absent. }
  apply in_map_iff in Hin. destruct Hin as [r0 [Hr0 Hin]].
  destruct (put_split r r0 l Hk Hin Hr0) as [l1 [l2 [-> ->]]].
  rewrite map_app in *. simpl in *.
  apply NoDup_remove in Hf. destruct Hf as [Hf Hnotin].
  apply NoDup_remove_2 in Hk.
  assert (Hfresh : ~ In (f r) (map f l1 ++ map f l2)).
  { intros H. apply in_app_or in H.
    assert (Hx : exists x, (In x l1 \/ In x l2) /\ f x = f r).
    { destruct H as [H|H]; apply in_map_iff in H;
        destruct H as [x [Hx Hxin]]; exists x; tauto. }
    destruct Hx as [x [Hxin Hx]].
    apply Hk. rewrite Hr0.
    rewrite <- (Hother x); [|apply in_or_app; simpl; tauto|exact Hx].
    apply in_or_app. destruct Hxin as [Hxin|Hxin];
      [left|right]; now apply in_map. }
  clear - Hf Hfresh.
  induction (map f l1) as [|b bs IH]; simpl in *.
  - constructor; assumption.
  - inversion Hf as [|? ? Hb Hbs]; subst. constructor.
    + intros H. apply in_app_or in H. destruct H as [H|[H|H]].
      * apply Hb. apply in_or_app. now left.
      * apply Hfresh. now left.
      * apply Hb. apply in_or_app. now right.
    + apply IH; [exact Hbs|]. intros H. apply Hfresh. now right.
Qed.

Lemma drop_split (k : Z) (r0 : A) (l : list A) :
  NoDup (map key l) -> In r0 l -> key r0 = k ->
  exists l1 l2, l = l1 ++ r0 :: l2 /\ drop_row key k l = l1 ++ l2.
Proof.
  intros Hnd Hin Hk. apply in_split in Hin. destruct Hin as [l1 [l2 ->]].
  exists l1, l2. split; [reflexivity|].
  rewrite map_app in Hnd. simpl in Hnd.
  pose proof (NoDup_remove_2 _ _ _ Hnd) as Hnotin.
  assert (Hkeep : forall l', ~ In k (map key l') -> drop_row key k l' = l').
  { induction l' as [|a l' IH]; simpl; intros H; [reflexivity|].
    destruct (key a =? k) eqn:E; simpl.
    - apply Z.eqb_eq in E. exfalso. apply H. now left.
    - f_equal. apply IH. intros Hin. apply H. now right. }
  unfold drop_row in *. rewrite filter_app. simpl.
  rewrite Hk, Z.eqb_refl. simpl. f_equal; apply Hkeep; rewrite <- Hk;
    intros H; apply Hnotin; apply in_or_app; tauto.
Qed.

Lemma drop_gone (k : Z) (l : list A) :
  find (fun x => key x =? k) (drop_row key k l) = None.
Proof.
  apply find_miss. intros x Hin. apply filter_In in Hin.
  destruct Hin as [_ Hx]. now apply negb_true_iff in Hx.
Qed.
End Keyed.

(** ** What the handlers keep *)

Lemma not_registered_not_in db e :
  ~ email_registered db e -> ~ In e (map Student.email (students db)).
Proof.
  intros H Hin. apply in_map_iff in Hin. destruct Hin as [r [He Hr]].
  apply H. now exists r.
Qed.

Lemma not_enrolled_not_in db s c :
  ~ enrolled db s c -> ~ In (s, c) (map Enrollment.pair_of (enrollments db)).
Proof.
  intros H Hin. apply in_map_iff in Hin. destruct Hin as [r [He Hr]].
  apply H. now exists r.
Qed.

Lemma create_student_invariant db b now :
  invariant db -> invariant (snd (create_student db b now)).
Proof.
  intros [[Hs He Hc Hn] Hp].
  unfold create_student, create_student_between, create_student_try.
  destruct (first_student_by_email db (StudentCreate.email b)) eqn:E; simpl.
  { repeat split; assumption. }
  apply first_student_by_email_None in E.
  rewrite (insert_student_free _ _ _ _ _ _ E). simpl.
  repeat split; simpl; try assumption.
  - apply NoDup_map_snoc; [exact Hs|]. apply next_rowid_fresh.
  - apply NoDup_map_snoc; [exact He|]. now apply not_registered_not_in.
Qed.

Lemma update_student_row_invariant db o r db' :
  invariant db -> update_student_row db o = Ok (r, db') -> invariant db'.
Proof.
  intros [[Hs He Hc Hn] Hp]. unfold update_student_row.
  destruct (negb (existsb _ (students db))); [discriminate|].
  destruct (Student.row_of o) as [r'|]; [|discriminate].
  destruct (existsb _ (students db)) eqn:E; [discriminate|].
  intros H. inversion H; subst; clear H.
  repeat split; simpl; try assumption.
  - now rewrite (put_keys Student.id).
  - apply (put_unique Student.id); [exact Hs|exact He|].
    intros x Hin Hx.
    pose proof (existsb_none _ _ E x Hin) as Hall. simpl in Hall.
    apply andb_false_iff in Hall. destruct Hall as [Hall|Hall].
    + apply String.eqb_neq in Hall. contradiction.
    + apply negb_false_iff in Hall. now apply Z.eqb_eq.
Qed.

Lemma finish_invariant {A : Type} db (success : A -> response) except
  (res : result (A * store)) :
  invariant db ->
  (forall a db', res = Ok (a, db') -> invariant db') ->
  invariant (snd (finish db success except res)).
Proof.
  intros Hdb Hres. destruct res as [[a db']|e]; simpl; [|exact Hdb].
  now apply (Hres a db').
Qed.

Lemma update_student_invariant db k u now :
  invariant db -> invariant (snd (update_student db k u now)).
Proof.
  intros Hdb. apply finish_invariant; [exact Hdb|].
  intros r db'. unfold update_student_try.
  destruct (session_get (get_student db k) k) as [[r0|]|?];
    try discriminate.
  destruct (match email_is_changed u r0 with
            | Some e => is_some (first_student_by_email db e)
            | None => false
            end); [discriminate|].
  now apply update_student_row_invariant.
Qed.

Lemma delete_student_invariant db k :
  invariant db -> invariant (snd (delete_student db k)).
Proof.
  intros [[Hs He Hc Hn] Hp]. unfold delete_student.
  destruct (session_get (get_student db k) k) as [[?|]|?];
    simpl; repeat split; simpl; try assumption;
    now apply filter_distinct.
Qed.

Lemma create_course_invariant db b now :
  invariant db -> invariant (snd (create_course db b now)).
Proof.
  intros [[Hs He Hc Hn] Hp]. unfold create_course. simpl.
  repeat split; simpl; try assumption.
  apply NoDup_map_snoc; [exact Hc|]. apply next_rowid_fresh.
Qed.

Lemma update_course_invariant db k u now :
  invariant db -> invariant (snd (update_course db k u now)).
Proof.
  intros Hdb. apply finish_invariant; [exact Hdb|].
  intros r db'. unfold update_course_try, update_course_row.
  destruct (session_get (get_course db k) k) as [[r0|]|?];
    try discriminate.
  destruct (negb (existsb _ (courses db))); [discriminate|].
  destruct (Course.row_of _) as [r'|]; [|discriminate].
  intros H. inversion H; subst; clear H.
  destruct Hdb as [[Hs He Hc Hn] Hp].
  repeat split; simpl; try assumption.
  now rewrite (put_keys Course.id).
Qed.

Lemma delete_course_invariant db k :
  invariant db -> invariant (snd (delete_course db k)).
Proof.
  intros [[Hs He Hc Hn] Hp]. unfold delete_course.
  destruct (session_get (get_course db k) k) as [[?|]|?];
    simpl; repeat split; simpl; try assumption;
    now apply filter_distinct.
Qed.

Lemma create_enrollment_invariant db b now :
  invariant db -> invariant (snd (create_enrollment db b now)).
Proof.
  intros Hdb. apply finish_invariant; [exact Hdb|].
  intros r db'. unfold create_enrollment_try.
  destruct (session_get (get_student db _) _) as [[?|]|?]; try discriminate.
  destruct (session_get (get_course db _) _) as [[?|]|?]; try discriminate.
  destruct (first_enrollment_by_pair db _ _) eqn:E; [discriminate|].
  apply first_enrollment_by_pair_None in E.
  unfold insert_enrollment. intros H. inversion H; subst; clear H.
  destruct Hdb as [[Hs He Hc Hn] Hp].
  repeat split; simpl; try assumption.
  - apply NoDup_map_snoc; [exact Hn|]. apply next_rowid_fresh.
  - apply NoDup_map_snoc; [exact Hp|]. now apply not_enrolled_not_in.
Qed.

(** The loop over [update_data] of [update_enrollment] touches the grade
    only. *)
Lemma setattr_enrollment_keeps (u : EnrollmentUpdate.t) (r : Enrollment.t) :
  let r' := fold_left setattr_enrollment
                      (EnrollmentUpdate.model_dump_exclude_unset u) r in
  Enrollment.id r' = Enrollment.id r
  /\ Enrollment.pair_of r' = Enrollment.pair_of r
  /\ Enrollment.enrollment_date r' = Enrollment.enrollment_date r.
Proof.
  unfold EnrollmentUpdate.model_dump_exclude_unset.
  destruct (EnrollmentUpdate.grade u); simpl; repeat split.
Qed.

Lemma update_enrollment_pairs db k u :
  NoDup (map Enrollment.id (enrollments db)) ->
  let db' := snd (update_enrollment db k u) in
  map Enrollment.pair_of (enrollments db')
  = map Enrollment.pair_of (enrollments db)
  /\ map Enrollment.id (enrollments db') = map Enrollment.id (enrollments db)
  /\ students db' = students db
  /\ courses db' = courses db.
Proof.
  intros Hn. unfold update_enrollment, update_enrollment_try.
  destruct (get_enrollment db k) as [r0|] eqn:E; simpl.
  2:{ unfold session_get. destruct (int64 k); simpl; repeat split. }
  unfold update_enrollment_row.
  destruct (negb (existsb _ (enrollments db))); simpl; [repeat split|].
  destruct (setattr_enrollment_keeps u r0) as [Hid [Hpair _]].
  apply get_enrollment_Some in E. destruct E as [Hin _].
  repeat split.
  - apply (put_same Enrollment.id Enrollment.pair_of _ r0); auto.
  - apply (put_keys Enrollment.id).
Qed.

Lemma update_enrollment_invariant db k u :
  invariant db -> invariant (snd (update_enrollment db k u)).
Proof.
  intros [[Hs He Hc Hn] Hp].
  destruct (update_enrollment_pairs db k u Hn) as [Hpairs [Hids [Hst Hco]]].
  repeat split; simpl; congruence.
Qed.

Lemma delete_enrollment_invariant db k :
  invariant db -> invariant (snd (delete_enrollment db k)).
Proof.
  intros [[Hs He Hc Hn] Hp]. unfold delete_enrollment.
  destruct (session_get (get_enrollment db k) k) as [[?|]|?];
    simpl; repeat split; simpl; try assumption;
    now apply filter_distinct.
Qed.

Lemma read_only_invariant db :
  (forall skip limit, snd (read_students db skip limit) = db)
  /\ (forall k, snd (read_student db k) = db)
  /\ (forall skip limit, snd (read_courses db skip limit) = db)
  /\ (forall k, snd (read_course db k) = db)
  /\ (forall skip limit, snd (read_enrollments db skip limit) = db)
  /\ (forall k, snd (read_enrollment db k) = db)
  /\ (forall k, snd (read_student_enrollments db k) = db)
  /\ (forall k, snd (read_course_enrollments db k) = db).
Proof.
  repeat split; intros k;
    unfold read_students, read_courses, read_enrollments,
      read_student, read_course, read_enrollment,
      read_student_enrollments, read_course_enrollments.
  - intros limit. now destruct (offset_limit k limit (students db)).
  - now destruct (session_get (get_student db k) k) as [[?|]|?].
  - intros limit. now destruct (offset_limit k limit (courses db)).
  - now destruct (session_get (get_course db k) k) as [[?|]|?].
  - intros limit. now destruct (offset_limit k limit (enrollments db)).
  - now destruct (session_get (get_enrollment db k) k) as [[?|]|?].
  - now destruct (session_get (get_student db k) k) as [[?|]|?].
  - now destruct (session_get (get_course db k) k) as [[?|]|?].
Qed.

Lemma app_invariant email_syntax email_normal db now req :
  invariant db -> invariant (snd (app email_syntax email_normal db now req)).
Proof.
  intros Hdb. unfold app.
  destruct (body_valid email_syntax req); [|exact Hdb].
  destruct (read_only_invariant db)
    as (H1 & H2 & H3 & H4 & H5 & H6 & H7 & H8).
  destruct req; simpl parsed; simpl route;
    rewrite ?H1, ?H2, ?H3, ?H4, ?H5, ?H6, ?H7, ?H8; try exact Hdb.
  - now apply create_student_invariant.
  - now apply update_student_invariant.
  - now apply delete_student_invariant.
  - now apply create_course_invariant.
  - now apply update_course_invariant.
  - now apply delete_course_invariant.
  - now apply create_enrollment_invariant.
  - now apply update_enrollment_invariant.
  - now apply delete_enrollment_invariant.
Qed.

Lemma reachable_invariant email_syntax email_normal db :
  reachable email_syntax email_normal db -> invariant db.
Proof.
  induction 1 as [|db now req Hreach IH].
  - repeat split; simpl; constructor.
  - now apply app_invariant.
Qed.

Lemma serve_reachable email_syntax email_normal reqs :
  forall db,
    reachable email_syntax email_normal db ->
    reachable email_syntax email_normal (snd (serve email_syntax email_normal db reqs)).
Proof.
  induction reqs as [|[now req] reqs IH]; intros db Hdb; simpl; [exact Hdb|].
  pose proof (reachable_app email_syntax email_normal db now req Hdb) as Hstep.
  destruct (app email_syntax email_normal db now req) as [resp db']. simpl in Hstep.
  specialize (IH db' Hstep).
  destruct (serve email_syntax email_normal db' reqs) as [resps db'']. exact IH.
Qed.

(** ** Enrollments of one student in one course *)

(** C2. In every database the API brings about from the empty one, by any
    sequence of its requests, no two enrollment records have the same
    (student_id, course_id): two records of the table with the same pair are
    one record, at one place of the table. In such a database
    [create_enrollment] of a pair that exists answers 400 or 404 and changes
    nothing, and [update_enrollment], whose body has a grade and nothing else,
    leaves the list of pairs of the table as it was. *)
Theorem enrollment_pair_unique (email_syntax : string -> bool)
  (email_normal : string -> string) (db : store) :
  reachable email_syntax email_normal db ->
  NoDup (map Enrollment.pair_of (enrollments db))
  /\ (forall r1 r2,
         In r1 (enrollments db) -> In r2 (enrollments db) ->
         Enrollment.student_id r1 = Enrollment.student_id r2 ->
         Enrollment.course_id r1 = Enrollment.course_id r2 ->
         r1 = r2)
  /\ (forall b now,
         enrolled db (EnrollmentCreate.student_id b)
                  (EnrollmentCreate.course_id b) ->
         snd (create_enrollment db b now) = db
         /\ (int64 (EnrollmentCreate.student_id b) = true ->
             int64 (EnrollmentCreate.course_id b) = true ->
             status (fst (create_enrollment db b now)) = 400
             \/ status (fst (create_enrollment db b now)) = 404))
  /\ (forall k u,
         map Enrollment.pair_of (enrollments (snd (update_enrollment db k u)))
         = map Enrollment.pair_of (enrollments db)).
Proof.
  intros Hreach. apply reachable_invariant in Hreach.
  destruct Hreach as [[Hs He Hc Hn] Hp].
  split; [exact Hp|]. split; [|split].
  - intros r1 r2 H1 H2 Hst Hco.
    apply (NoDup_map_inj Enrollment.pair_of (enrollments db)); auto.
    unfold Enrollment.pair_of. congruence.
  - intros b now Hen.
    unfold create_enrollment, create_enrollment_between, create_enrollment_try.
    unfold session_get.
    destruct (get_student db _); simpl.
    2:{ destruct (int64 (EnrollmentCreate.student_id b)); simpl;
          (split; [reflexivity|intros; try discriminate; auto]). }
    destruct (get_course db _); simpl.
    2:{ destruct (int64 (EnrollmentCreate.course_id b)); simpl;
          (split; [reflexivity|intros; try discriminate; auto]). }
    destruct (first_enrollment_by_pair db _ _) eqn:E; simpl; [auto|].
    apply first_enrollment_by_pair_None in E. contradiction.
  - intros k u. now apply update_enrollment_pairs.
Qed.

Lemma enrollment_pair_unique_witness :
  NoDup (map Enrollment.pair_of (enrollments campus))
  /\ snd (create_enrollment campus (EnrollmentCreate.mk 1 1 (Some "B"))
                            (tick 50)) = campus
  /\ (status (fst (create_enrollment campus
                     (EnrollmentCreate.mk 1 1 (Some "B")) (tick 50))) = 400
      \/ status (fst (create_enrollment campus
                        (EnrollmentCreate.mk 1 1 (Some "B")) (tick 50))) = 404)
  /\ map Enrollment.pair_of
         (enrollments
            (snd (update_enrollment campus 1
                    (EnrollmentUpdate.mk (Given (Some "B"))))))
     = [(1, 1)].
Proof.
  assert (Hreach : reachable has_at lower_domain campus).
  { apply serve_reachable. apply reachable_empty. }
  destruct (enrollment_pair_unique has_at lower_domain campus Hreach)
    as (Hnodup & _ & Hcreate & Hupdate).
  destruct (Hcreate (EnrollmentCreate.mk 1 1 (Some "B")) (tick 50))
    as [Hsame Hstatus].
  { eapply first_enrollment_by_pair_enrolled. reflexivity. }
  split; [exact Hnodup|]. split; [exact Hsame|]. split.
  - apply Hstatus; reflexivity.
  - rewrite Hupdate. reflexivity.
Defined.

(** ** Updating a student *)

Lemma existsb_all_false {A : Type} (f : A -> bool) (l : list A) :
  (forall x, In x l -> f x = false) -> existsb f l = false.
Proof.
  intros H. rewrite existsb_find. now rewrite (find_miss f l H).
Qed.

Lemma find_put {A : Type} (key : A -> Z) (r : A) (l : list A) :
  In (key r) (map key l) ->
  find (fun x => key x =? key r) (put_row key r l) = Some r.
Proof.
  unfold put_row. induction l as [|a l IH]; simpl; [contradiction|].
  intros Hin. destruct (key a =? key r) eqn:E.
  - now rewrite Z.eqb_refl.
  - rewrite E. apply IH. destruct Hin as [Hin|Hin]; [|exact Hin].
    apply Z.eqb_neq in E. contradiction.
Qed.

(** The instance [update_student] commits. *)
Lemma setattr_student_loop (u : StudentUpdate.t) (r : Student.t)
  (t : datetime) :
  set_student_updated_at
    (fold_left setattr_student (StudentUpdate.model_dump_exclude_unset u)
               (Student.load r)) t
  = Student.mk_inst (Student.id r)
      (patched (StudentUpdate.name u) (Student.name r))
      (patched (StudentUpdate.email u) (Student.email r))
      (patched (StudentUpdate.age u) (Student.age r))
      (Student.created_at r) t.
Proof.
  destruct u as [[|n] [|e] [|a]]; reflexivity.
Qed.

Lemma setattr_course_loop (u : CourseUpdate.t) (r : Course.t) (t : datetime) :
  set_course_updated_at
    (fold_left setattr_course (CourseUpdate.model_dump_exclude_unset u)
               (Course.load r)) t
  = Course.mk_inst (Course.id r)
      (patched (CourseUpdate.title u) (Course.title r))
      match CourseUpdate.description u with
      | Unset => Course.description r
      | Given v => v
      end
      (patched (CourseUpdate.credits u) (Course.credits r))
      (patched (CourseUpdate.instructor u) (Course.instructor r))
      (Course.created_at r) t.
Proof.
  destruct u as [[|ti] [|d] [|c] [|i]]; reflexivity.
Qed.

Lemma in_students_exists db r :
  In r (students db) ->
  existsb (fun x => Student.id x =? Student.id r) (students db) = true.
Proof.
  intros H. apply existsb_exists. exists r. split; [exact H|apply Z.eqb_refl].
Qed.

(** What a successful [update_student] returns and stores. *)
Lemma update_student_ok db k u now r' db' :
  update_student db k u now = (mk_response 200 (JStudent r'), db') ->
  exists r,
    get_student db k = Some r
    /\ Student.row_of
         (Student.mk_inst (Student.id r)
            (patched (StudentUpdate.name u) (Student.name r))
            (patched (StudentUpdate.email u) (Student.email r))
            (patched (StudentUpdate.age u) (Student.age r))
            (Student.created_at r) (now 0%nat))
       = Some r'
    /\ db' = mk_store (put_row Student.id r' (students db))
                      (courses db) (enrollments db).
Proof.
  unfold update_student, update_student_between, update_student_try.
  destruct (session_get_cases (get_student db k) k)
    as [[r [E ->]]|[[_ [_ ->]]|[_ [_ ->]]]]; simpl; try discriminate.
  destruct (match email_is_changed u r with
            | Some e => is_some (first_student_by_email db e)
            | None => false
            end); simpl; [discriminate|].
  rewrite setattr_student_loop. unfold update_student_row.
  destruct (negb (existsb _ (students db))); simpl; [discriminate|].
  destruct (Student.row_of _) as [row|] eqn:Hrow; simpl; [|discriminate].
  destruct (existsb _ (students db)); simpl; [discriminate|].
  intros H. inversion H; subst. exists r. repeat split; assumption.
Qed.

Lemma get_student_in db r :
  NoDup (map Student.id (students db)) -> In r (students db) ->
  get_student db (Student.id r) = Some r.
Proof.
  intros Hnd Hin.
  destruct (has_student_get db (Student.id r)) as [r0 E]; [now exists r|].
  rewrite E. f_equal. apply get_student_Some in E. destruct E as [Hin0 Hid].
  now apply (NoDup_map_inj Student.id (students db)).
Qed.

Lemma get_course_in db r :
  NoDup (map Course.id (courses db)) -> In r (courses db) ->
  get_course db (Course.id r) = Some r.
Proof.
  intros Hnd Hin.
  destruct (has_course_get db (Course.id r)) as [r0 E]; [now exists r|].
  rewrite E. f_equal. apply get_course_Some in E. destruct E as [Hin0 Hid].
  now apply (NoDup_map_inj Course.id (courses db)).
Qed.

(** [update_student] goes through when the email check is skipped or passes,
    no attribute is set to [None] and no other student has the email the
    record ends with. *)
Lemma update_student_commits db r u now n e a :
  store_ok db -> In r (students db) ->
  (forall e', email_is_changed u r = Some e' -> ~ email_registered db e') ->
  patched (StudentUpdate.name u) (Student.name r) = Some n ->
  patched (StudentUpdate.email u) (Student.email r) = Some e ->
  patched (StudentUpdate.age u) (Student.age r) = Some a ->
  (forall x, In x (students db) -> Student.email x = e ->
             Student.id x = Student.id r) ->
  let r' := Student.mk (Student.id r) n e a (Student.created_at r)
                       (now 0%nat) in
  exists l1 l2,
    students db = l1 ++ r :: l2
    /\ update_student db (Student.id r) u now
       = (mk_response 200 (JStudent r'),
          mk_store (l1 ++ r' :: l2) (courses db) (enrollments db)).
Proof.
  intros [Hs He Hc Hn] Hin Hcheck Hname Hemail Hage Hother r'.
  destruct (put_split Student.id r' r (students db) Hs Hin eq_refl)
    as [l1 [l2 [Hsplit Hput]]].
  exists l1, l2. split; [exact Hsplit|].
  unfold update_student, update_student_between, update_student_try.
  rewrite (get_student_in db r Hs Hin), session_get_found.
  cbv beta iota zeta.
  assert (Htaken : match email_is_changed u r with
                   | Some e' => is_some (first_student_by_email db e')
                   | None => false
                   end = false).
  { destruct (email_is_changed u r) as [e'|]; [|reflexivity].
    specialize (Hcheck e' eq_refl).
    apply first_student_by_email_None in Hcheck. now rewrite Hcheck. }
  rewrite Htaken, setattr_student_loop, Hname, Hemail, Hage.
  unfold update_student_row. simpl Student.i_id.
  rewrite (in_students_exists db r Hin). simpl.
  rewrite existsb_all_false.
  - simpl. fold r'. now rewrite <- Hput.
  - intros x Hx. destruct (String.eqb (Student.email x) e) eqn:E;
      [|reflexivity].
    apply String.eqb_eq in E. rewrite (Hother x Hx E).
    now rewrite Z.eqb_refl.
Qed.

Lemma row_of_patched r u t r' :
  Student.row_of
    (Student.mk_inst (Student.id r)
       (patched (StudentUpdate.name u) (Student.name r))
       (patched (StudentUpdate.email u) (Student.email r))
       (patched (StudentUpdate.age u) (Student.age r))
       (Student.created_at r) t)
  = Some r' ->
  patched (StudentUpdate.name u) (Student.name r) = Some (Student.name r')
  /\ patched (StudentUpdate.email u) (Student.email r)
     = Some (Student.email r')
  /\ patched (StudentUpdate.age u) (Student.age r) = Some (Student.age r')
  /\ Student.id r' = Student.id r
  /\ Student.created_at r' = Student.created_at r
  /\ Student.updated_at r' = t.
Proof.
  unfold Student.row_of. simpl.
  destruct (patched (StudentUpdate.name u) (Student.name r)); [|discriminate].
  destruct (patched (StudentUpdate.email u) (Student.email r));
    [|discriminate].
  destruct (patched (StudentUpdate.age u) (Student.age r)); [|discriminate].
  intros H. inversion H; subst. simpl. repeat split.
Qed.

(** C5. A successful [update_student] changes the fields the body supplies
    and no other field of the body's schema: a field the body leaves out
    keeps its stored value, a field the body gives a value has that value,
    and id and created_at stay (updated_at is refreshed by the handler); the
    record answered is the record stored. After
    creating John Doe, john@example.com, 20 in an empty database, the update
    with name "John Updated" and age 21 answers, and stores, a record whose
    email is still john@example.com. A field the body sets to null is part of
    the update data like any supplied field: the update is then not the one of
    the body without that field, it is answered 400 and stores nothing,
    because the column does not take NULL. *)
Theorem update_student_partial :
  (forall db k u now r r' db',
      get_student db k = Some r ->
      update_student db k u now = (mk_response 200 (JStudent r'), db') ->
      (StudentUpdate.name u = Unset -> Student.name r' = Student.name r)
      /\ (StudentUpdate.email u = Unset -> Student.email r' = Student.email r)
      /\ (StudentUpdate.age u = Unset -> Student.age r' = Student.age r)
      /\ (forall v, StudentUpdate.name u = Given (Some v) ->
                    Student.name r' = v)
      /\ (forall v, StudentUpdate.email u = Given (Some v) ->
                    Student.email r' = v)
      /\ (forall v, StudentUpdate.age u = Given (Some v) ->
                    Student.age r' = v)
      /\ Student.id r' = Student.id r
      /\ Student.created_at r' = Student.created_at r
      /\ get_student db' k = Some r')
  /\ (forall now1 now2,
         let db1 := snd (create_student empty_store john now1) in
         let updated :=
           Student.mk 1 "John Updated" "john@example.com" 21
                      (now1 0%nat) (now2 0%nat) in
         update_student db1 1
           (StudentUpdate.mk (Given (Some "John Updated")) Unset
                             (Given (Some 21))) now2
         = (mk_response 200 (JStudent updated), mk_store [updated] [] [])
         /\ get_student (mk_store [updated] [] []) 1 = Some updated)
  /\ (forall u,
         (StudentUpdate.name u = Given None ->
          In (StudentUpdate.Name None)
             (StudentUpdate.model_dump_exclude_unset u))
         /\ (StudentUpdate.email u = Given None ->
             In (StudentUpdate.Email None)
                (StudentUpdate.model_dump_exclude_unset u))
         /\ (StudentUpdate.age u = Given None ->
             In (StudentUpdate.Age None)
                (StudentUpdate.model_dump_exclude_unset u)))
  /\ (forall db k u now,
         has_student db k ->
         StudentUpdate.name u = Given None
         \/ StudentUpdate.email u = Given None
         \/ StudentUpdate.age u = Given None ->
         snd (update_student db k u now) = db
         /\ status (fst (update_student db k u now)) = 400).
Proof.
  split; [|split; [|split]].
  - intros db k u now r r' db' Hget Hupd.
    destruct (update_student_ok _ _ _ _ _ _ Hupd) as [r0 [Hget0 [Hrow Hdb']]].
    rewrite Hget in Hget0. inversion Hget0; subst r0; clear Hget0.
    apply row_of_patched in Hrow.
    destruct Hrow as (Hn & He & Ha & Hid & Hcr & _).
    apply get_student_Some in Hget. destruct Hget as [Hin Hk].
    repeat split.
    + intros H. rewrite H in Hn. simpl in Hn. congruence.
    + intros H. rewrite H in He. simpl in He. congruence.
    + intros H. rewrite H in Ha. simpl in Ha. congruence.
    + intros v H. rewrite H in Hn. simpl in Hn. congruence.
    + intros v H. rewrite H in He. simpl in He. congruence.
    + intros v H. rewrite H in Ha. simpl in Ha. congruence.
    + exact Hid.
    + exact Hcr.
    + rewrite Hdb'. unfold get_student. simpl. rewrite <- Hk, <- Hid.
      apply find_put. rewrite Hid. now apply in_map.
  - intros now1 now2. split; reflexivity.
  - intros u. unfold StudentUpdate.model_dump_exclude_unset.
    repeat split; intros H; rewrite H.
    + simpl. now left.
    + apply in_or_app. right. apply in_or_app. left. simpl. now left.
    + apply in_or_app. right. apply in_or_app. right. simpl. now left.
  - intros db k u now Hhas Hnull.
    destruct (has_student_get db k Hhas) as [r Hget].
    pose proof (get_student_Some _ _ _ Hget) as [Hin Hk].
    unfold update_student, update_student_between, update_student_try.
    rewrite Hget, session_get_found. cbv beta iota zeta.
    destruct (match email_is_changed u r with
              | Some e => is_some (first_student_by_email db e)
              | None => false
              end); simpl; [split; reflexivity|].
    rewrite setattr_student_loop. unfold update_student_row.
    simpl Student.i_id. rewrite (in_students_exists db r Hin). simpl.
    assert (Hrow : Student.row_of
                     (Student.mk_inst (Student.id r)
                        (patched (StudentUpdate.name u) (Student.name r))
                        (patched (StudentUpdate.email u) (Student.email r))
                        (patched (StudentUpdate.age u) (Student.age r))
                        (Student.created_at r) (now 0%nat)) = None).
    { unfold Student.row_of. simpl.
      destruct Hnull as [H|[H|H]]; rewrite H; simpl;
        repeat match goal with
               | |- context [match patched ?f ?x with _ => _ end] =>
                   destruct (patched f x)
               end; reflexivity. }
    rewrite Hrow. simpl. split; reflexivity.
Qed.

Lemma update_student_partial_witness :
  (snd (update_student campus 2
          (StudentUpdate.mk (Given None) Unset (Given (Some 23))) (tick 50))
   = campus
   /\ status (fst (update_student campus 2
                     (StudentUpdate.mk (Given None) Unset (Given (Some 23)))
                     (tick 50))) = 400)
  /\ update_student (snd (create_student empty_store john (tick 10))) 1
       (StudentUpdate.mk (Given (Some "John Updated")) Unset
                         (Given (Some 21))) (tick 20)
     = (mk_response 200
          (JStudent (Student.mk 1 "John Updated" "john@example.com" 21 10 20)),
        mk_store [Student.mk 1 "John Updated" "john@example.com" 21 10 20]
                 [] []).
Proof.
  destruct update_student_partial as (_ & Hjohn & _ & Hnull).
  split.
  - apply Hnull; [eapply get_student_has; reflexivity|now left].
  - apply (Hjohn (tick 10) (tick 20)).
Defined.

Lemma email_is_changed_Some u r e :
  email_is_changed u r = Some e ->
  StudentUpdate.email u = Given (Some e) /\ e <> "" /\ e <> Student.email r.
Proof.
  unfold email_is_changed.
  destruct (StudentUpdate.email u) as [|[e'|]]; simpl; try discriminate.
  destruct (String.eqb e' "") eqn:E1; simpl; [discriminate|].
  destruct (String.eqb e' (Student.email r)) eqn:E2; simpl; [discriminate|].
  intros H. inversion H; subst.
  apply String.eqb_neq in E1. apply String.eqb_neq in E2. auto.
Qed.

Lemma email_is_changed_given u r e :
  StudentUpdate.email u = Given (Some e) -> e <> "" -> e <> Student.email r ->
  email_is_changed u r = Some e.
Proof.
  intros H H1 H2. unfold email_is_changed. rewrite H. simpl.
  apply String.eqb_neq in H1. apply String.eqb_neq in H2.
  now rewrite H1, H2.
Qed.

Lemma email_is_changed_own u r :
  StudentUpdate.email u = Given (Some (Student.email r)) ->
  email_is_changed u r = None.
Proof.
  intros H. unfold email_is_changed. rewrite H. simpl.
  rewrite String.eqb_refl. now rewrite andb_false_r.
Qed.

Lemma patched_some {A : Type} (f : field A) (stored : A) :
  f <> Given None -> exists v, patched f stored = Some v.
Proof.
  destruct f as [|[v|]]; simpl; intros H.
  - now exists stored.
  - now exists v.
  - contradiction.
Qed.

Lemma update_student_row_not_http db o c d :
  update_student_row db o <> Raise (HTTPException c d).
Proof.
  unfold update_student_row.
  destruct (negb (existsb _ (students db))); [discriminate|].
  destruct (Student.row_of o); [|discriminate].
  destruct (existsb _ (students db)); discriminate.
Qed.

(** C6. [update_student] on an existing student compares the email of the
    body with the emails of the table only when the body has an email and it
    is not the student's current one: the answer 400 "Email already
    registered" is given exactly in that case, when a student has that email.
    A body whose email is the student's current email is answered 200 (no
    field of it being null). A body whose email is the one of another student
    is answered 400 and the database stays as it was. *)
Theorem update_student_email_check :
  (forall db k u now,
      fst (update_student db k u now)
      = http_error 400 "Email already registered" ->
      exists r e,
        get_student db k = Some r
        /\ StudentUpdate.email u = Given (Some e)
        /\ e <> Student.email r
        /\ email_registered db e)
  /\ (forall db k u now r e,
         get_student db k = Some r ->
         StudentUpdate.email u = Given (Some e) ->
         e <> "" -> e <> Student.email r -> email_registered db e ->
         update_student db k u now
         = (http_error 400 "Email already registered", db))
  /\ (forall db r u now,
         store_ok db -> In r (students db) ->
         StudentUpdate.email u = Given (Some (Student.email r)) ->
         StudentUpdate.name u <> Given None ->
         StudentUpdate.age u <> Given None ->
         exists r' db',
           update_student db (Student.id r) u now
           = (mk_response 200 (JStudent r'), db')
           /\ Student.email r' = Student.email r)
  /\ (forall db k u now e other,
         has_student db k ->
         StudentUpdate.email u = Given (Some e) ->
         In other (students db) -> Student.email other = e ->
         Student.id other <> k ->
         snd (update_student db k u now) = db
         /\ status (fst (update_student db k u now)) = 400).
Proof.
  split; [|split; [|split]].
  - intros db k u now.
    unfold update_student, update_student_between, update_student_try.
    destruct (session_get_cases (get_student db k) k)
      as [[r [Hget ->]]|[[_ [_ ->]]|[_ [_ ->]]]]; simpl; try discriminate.
    destruct (email_is_changed u r) as [e|] eqn:Hch.
    + destruct (first_student_by_email db e) as [x|] eqn:Hx; simpl.
      * intros _. exists r, e.
        apply email_is_changed_Some in Hch. destruct Hch as (Hu & _ & Hne).
        apply first_student_by_email_registered in Hx. auto.
      * destruct (update_student_row db _) as [[r' db']|[c d| |]] eqn:Hrow;
          simpl; try discriminate.
        now apply update_student_row_not_http in Hrow.
    + destruct (update_student_row db _) as [[r' db']|[c d| |]] eqn:Hrow;
        simpl; try discriminate.
      now apply update_student_row_not_http in Hrow.
  - intros db k u now r e Hget Hu Hne1 Hne2 Hreg.
    unfold update_student, update_student_between, update_student_try.
    rewrite Hget, session_get_found. cbv beta iota zeta.
    rewrite (email_is_changed_given u r e Hu Hne1 Hne2).
    destruct (first_student_by_email db e) eqn:E; [reflexivity|].
    apply first_student_by_email_None in E. contradiction.
  - intros db r u now Hok Hin Hu Hname Hage.
    destruct (patched_some (StudentUpdate.name u) (Student.name r) Hname)
      as [n Hn].
    destruct (patched_some (StudentUpdate.age u) (Student.age r) Hage)
      as [a Ha].
    destruct (update_student_commits db r u now n (Student.email r) a Hok Hin)
      as [l1 [l2 [_ Hupd]]]; auto.
    + intros e' He'. rewrite (email_is_changed_own u r Hu) in He'.
      discriminate.
    + now rewrite Hu.
    + intros x Hx Hxe. f_equal.
      apply (NoDup_map_inj Student.email (students db)); auto.
      now destruct Hok.
    + eexists. eexists. split; [exact Hupd|reflexivity].
  - intros db k u now e other Hhas Hu Hother He Hid.
    destruct (has_student_get db k Hhas) as [r Hget].
    pose proof (get_student_Some _ _ _ Hget) as [Hin Hk].
    unfold update_student, update_student_between, update_student_try.
    rewrite Hget, session_get_found. cbv beta iota zeta.
    destruct (match email_is_changed u r with
              | Some e => is_some (first_student_by_email db e)
              | None => false
              end); simpl; [split; reflexivity|].
    rewrite setattr_student_loop. unfold update_student_row.
    simpl Student.i_id. rewrite (in_students_exists db r Hin). simpl.
    destruct (Student.row_of _) as [row|] eqn:Hrow; simpl;
      [|split; reflexivity].
    apply row_of_patched in Hrow. destruct Hrow as (_ & Hre & _ & Hrid & _).
    rewrite Hu in Hre. simpl in Hre. inversion Hre as [Hre'].
    assert (Hdup : existsb
                     (fun x => String.eqb (Student.email x) (Student.email row)
                               && negb (Student.id x =? Student.id row))
                     (students db) = true).
    { apply existsb_exists. exists other. split; [exact Hother|].
      rewrite <- Hre', He, String.eqb_refl. simpl.
      apply negb_true_iff. apply Z.eqb_neq. congruence. }
    rewrite Hdup. simpl. split; reflexivity.
Qed.

Lemma update_student_email_check_witness :
  (exists r' db',
      update_student campus 2
        (StudentUpdate.mk Unset (Given (Some "jane@example.com")) Unset)
        (tick 50)
      = (mk_response 200 (JStudent r'), db')
      /\ Student.email r' = "jane@example.com")
  /\ (snd (update_student campus 2
             (StudentUpdate.mk Unset (Given (Some "john@example.com")) Unset)
             (tick 50)) = campus
      /\ status (fst (update_student campus 2
                        (StudentUpdate.mk Unset
                           (Given (Some "john@example.com")) Unset)
                        (tick 50))) = 400).
Proof.
  destruct update_student_email_check as (_ & _ & Hown & Hother).
  split.
  - apply (Hown campus (Student.mk 2 "Jane Smith" "jane@example.com" 22 20 21)).
    + distinct_rows.
    + simpl. right. now left.
    + reflexivity.
    + discriminate.
    + discriminate.
  - apply (Hother campus 2 _ (tick 50) "john@example.com"
                  (Student.mk 1 "John Doe" "john@example.com" 20 10 11)).
    + eapply get_student_has. reflexivity.
    + reflexivity.
    + simpl. now left.
    + reflexivity.
    + discriminate.
Defined.

(** ** Deleting a student *)

(** C9. In a database that satisfies its declared constraints,
    [delete_student] of an id the students table has is answered 204 whatever
    the enrollments table holds; the students table loses the one record with
    that id and keeps the others in place; the courses table and the
    enrollments table, records of the deleted student included, are as they
    were; and [read_student] of the same id (an id within the 64-bit range,
    as the ids of a table are) is then answered 404. *)
Theorem delete_student_frame (db : store) (k : Z) :
  store_ok db -> has_student db k ->
  exists l1 r l2,
    students db = l1 ++ r :: l2
    /\ Student.id r = k
    /\ delete_student db k
       = (mk_response 204 JNone,
          mk_store (l1 ++ l2) (courses db) (enrollments db))
    /\ enrollments (snd (delete_student db k)) = enrollments db
    /\ courses (snd (delete_student db k)) = courses db
    /\ (int64 k = true ->
        fst (read_student (snd (delete_student db k)) k)
        = http_error 404 "Student not found").
Proof.
  intros [Hs _ _ _] Hhas.
  destruct (has_student_get db k Hhas) as [r Hget].
  pose proof (get_student_Some _ _ _ Hget) as [Hin Hk].
  destruct (drop_split Student.id k r (students db) Hs Hin Hk)
    as [l1 [l2 [Hsplit Hdrop]]].
  exists l1, r, l2. unfold delete_student. rewrite Hget, session_get_found.
  unfold delete_student_row. rewrite Hk, Hdrop. simpl.
  repeat split; try assumption.
  intros H64. unfold read_student, get_student. simpl. rewrite <- Hdrop.
  rewrite (drop_gone Student.id), session_get_missing by exact H64.
  reflexivity.
Qed.

Lemma campus_ok : store_ok campus.
Proof. distinct_rows. Qed.

Lemma delete_student_frame_witness :
  enrolled campus 1 1
  /\ exists l1 r l2,
       students campus = l1 ++ r :: l2
       /\ Student.id r = 1
       /\ delete_student campus 1
          = (mk_response 204 JNone,
             mk_store (l1 ++ l2) (courses campus) (enrollments campus))
       /\ enrollments (snd (delete_student campus 1)) = enrollments campus
       /\ courses (snd (delete_student campus 1)) = courses campus
       /\ fst (read_student (snd (delete_student campus 1)) 1)
          = http_error 404 "Student not found".
Proof.
  split.
  - eapply first_enrollment_by_pair_enrolled. reflexivity.
  - destruct (delete_student_frame campus 1 campus_ok)
      as (l1 & r & l2 & Hsplit & Hid & Hdel & Hen & Hco & Hread).
    { eapply get_student_has. reflexivity. }
    exists l1, r, l2.
    split; [exact Hsplit|]. split; [exact Hid|]. split; [exact Hdel|].
    split; [exact Hen|]. split; [exact Hco|]. apply Hread. reflexivity.
Defined.

(** ** Updating with an empty body *)

(** C10. In a database that satisfies its declared constraints, an update
    whose body supplies no field is answered 200 for every student, and for
    every course, of the database; the record answered and stored is the
    former record with updated_at set to the current time and every other
    field as it was; the other records of the table stay in place and the
    other tables are as they were. *)
Theorem empty_update_refreshes (db : store) (now : clock) :
  store_ok db ->
  (forall r,
      In r (students db) ->
      let r' := set_student_row_updated_at r (now 0%nat) in
      exists l1 l2,
        students db = l1 ++ r :: l2
        /\ update_student db (Student.id r) no_fields now
           = (mk_response 200 (JStudent r'),
              mk_store (l1 ++ r' :: l2) (courses db) (enrollments db)))
  /\ (forall r,
         In r (courses db) ->
         let r' := set_course_row_updated_at r (now 0%nat) in
         exists l1 l2,
           courses db = l1 ++ r :: l2
           /\ update_course db (Course.id r) no_course_fields now
              = (mk_response 200 (JCourse r'),
                 mk_store (students db) (l1 ++ r' :: l2) (enrollments db))).
Proof.
  intros Hok. split.
  - intros r Hin r'.
    apply (update_student_commits db r no_fields now
             (Student.name r) (Student.email r) (Student.age r));
      try reflexivity; try assumption.
    + intros e' H. discriminate.
    + intros x Hx Hxe. f_equal.
      apply (NoDup_map_inj Student.email (students db)); auto.
      now destruct Hok.
  - intros r Hin r'. destruct Hok as [_ _ Hc _].
    destruct (put_split Course.id r' r (courses db) Hc Hin eq_refl)
      as [l1 [l2 [Hsplit Hput]]].
    exists l1, l2. split; [exact Hsplit|].
    unfold update_course, update_course_try.
    rewrite (get_course_in db r Hc Hin), session_get_found.
    cbv beta iota zeta. rewrite setattr_course_loop.
    unfold update_course_row. simpl Course.i_id.
    assert (Hex : existsb (fun x => Course.id x =? Course.id r) (courses db)
                  = true).
    { apply existsb_exists. exists r. split; [exact Hin|apply Z.eqb_refl]. }
    rewrite Hex. simpl. fold r'. now rewrite <- Hput.
Qed.

Lemma empty_update_refreshes_witness :
  (exists l1 l2,
      students campus = l1 ++ Student.mk 2 "Jane Smith" "jane@example.com" 22
                                         20 21 :: l2
      /\ update_student campus 2 no_fields (tick 50)
         = (mk_response 200
              (JStudent (Student.mk 2 "Jane Smith" "jane@example.com" 22
                                    20 50)),
            mk_store
              (l1 ++ Student.mk 2 "Jane Smith" "jane@example.com" 22 20 50
                  :: l2)
              (courses campus) (enrollments campus)))
  /\ (exists l1 l2,
         courses campus = l1 ++ Course.mk 1 "Python 101" None 3 "Dr. Smith"
                                          30 31 :: l2
         /\ update_course campus 1 no_course_fields (tick 50)
            = (mk_response 200
                 (JCourse (Course.mk 1 "Python 101" None 3 "Dr. Smith" 30 50)),
               mk_store (students campus)
                 (l1 ++ Course.mk 1 "Python 101" None 3 "Dr. Smith" 30 50
                     :: l2)
                 (enrollments campus))).
Proof.
  destruct (empty_update_refreshes campus (tick 50) campus_ok)
    as [Hstudent Hcourse].
  split.
  - apply (Hstudent (Student.mk 2 "Jane Smith" "jane@example.com" 22 20 21)).
    simpl. right. now left.
  - apply (Hcourse (Course.mk 1 "Python 101" None 3 "Dr. Smith" 30 31)).
    simpl. now left.
Defined.

(** ** Constraint violations at commit time *)





(** * Further properties of the handlers *)

Lemma find_snoc_fresh {A : Type} (f : A -> bool) (l : list A) (x : A) :
  (forall y, In y l -> f y = false) -> f x = true ->
  find f (l ++ [x]) = Some x.
Proof.
  intros Hl Hx. induction l as [|a l IH]; simpl.
  - now rewrite Hx.
  - rewrite (Hl a (or_introl eq_refl)). apply IH.
    intros y Hy. apply Hl. now right.
Qed.

Lemma fresh_id_misses {A : Type} (key : A -> Z) (l : list A) :
  forall y, In y l -> (key y =? next_rowid (map key l)) = false.
Proof.
  intros y Hy. apply Z.eqb_neq. intros H.
  apply (next_rowid_fresh (map key l)). rewrite <- H. now apply in_map.
Qed.

Lemma create_student_201 db b now r db' :
  create_student db b now = (mk_response 201 (JStudent r), db') ->
  r = new_student db b now
  /\ db' = mk_store (students db ++ [r]) (courses db) (enrollments db).
Proof.
  unfold create_student, create_student_between, create_student_try.
  destruct (first_student_by_email db (StudentCreate.email b)) eqn:E;
    simpl; [discriminate|].
  apply first_student_by_email_None in E.
  rewrite (insert_student_free _ _ _ _ _ _ E). simpl.
  intros H. inversion H. split; reflexivity.
Qed.

Lemma create_enrollment_201 db b now r db' :
  create_enrollment db b now = (mk_response 201 (JEnrollment r), db') ->
  r = Enrollment.mk (next_rowid (map Enrollment.id (enrollments db)))
        (EnrollmentCreate.student_id b) (EnrollmentCreate.course_id b)
        (EnrollmentCreate.grade b) (now 0%nat)
  /\ db' = mk_store (students db) (courses db) (enrollments db ++ [r])
  /\ has_student db (EnrollmentCreate.student_id b)
  /\ has_course db (EnrollmentCreate.course_id b)
  /\ ~ enrolled db (EnrollmentCreate.student_id b)
                   (EnrollmentCreate.course_id b).
Proof.
  unfold create_enrollment, create_enrollment_between, create_enrollment_try.
  destruct (session_get_cases
              (get_student db (EnrollmentCreate.student_id b))
              (EnrollmentCreate.student_id b))
    as [[? [Es ->]]|[[_ [_ ->]]|[_ [_ ->]]]]; simpl; try discriminate.
  destruct (session_get_cases
              (get_course db (EnrollmentCreate.course_id b))
              (EnrollmentCreate.course_id b))
    as [[? [Ec ->]]|[[_ [_ ->]]|[_ [_ ->]]]]; simpl; try discriminate.
  destruct (first_enrollment_by_pair db _ _) eqn:Ep; simpl; [discriminate|].
  intros H. inversion H. repeat split.
  - eapply get_student_has; eassumption.
  - eapply get_course_has; eassumption.
  - now apply first_enrollment_by_pair_None.
Qed.

(** ** Courses are created unconditionally *)

(** X1. [create_course] has no precondition: for every database and body it
    answers 201 with the stored record, which carries the fields of the body,
    the two clock readings and an id no course of the table has; the record
    is appended and the other tables are untouched. Nothing is unique about a
    course but its id: the same body posted twice gives two courses with
    different ids. *)
Theorem create_course_always (db : store) (b : CourseCreate.t)
  (now now' : clock) :
  exists r,
    create_course db b now
    = (mk_response 201 (JCourse r),
       mk_store (students db) (courses db ++ [r]) (enrollments db))
    /\ Course.title r = CourseCreate.title b
    /\ Course.description r = CourseCreate.description b
    /\ Course.credits r = CourseCreate.credits b
    /\ Course.instructor r = CourseCreate.instructor b
    /\ Course.created_at r = now 0%nat
    /\ Course.updated_at r = now 1%nat
    /\ (forall r', In r' (courses db) -> Course.id r' <> Course.id r)
    /\ exists r2 db2,
         create_course (snd (create_course db b now)) b now'
         = (mk_response 201 (JCourse r2), db2)
         /\ Course.title r2 = Course.title r
         /\ Course.id r2 <> Course.id r
         /\ In r (courses db2) /\ In r2 (courses db2).
Proof.
  eexists. unfold create_course, insert_course. simpl.
  repeat split.
  - intros r' Hin Heq. simpl in Heq.
    apply (next_rowid_fresh (map Course.id (courses db))).
    rewrite <- Heq. now apply in_map.
  - eexists. eexists. repeat split; simpl.
    + intros Heq.
      apply (next_rowid_fresh
               (map Course.id
                  (courses db
                   ++ [Course.mk (next_rowid (map Course.id (courses db)))
                         (CourseCreate.title b) (CourseCreate.description b)
                         (CourseCreate.credits b) (CourseCreate.instructor b)
                         (now 0%nat) (now 1%nat)]))).
      rewrite Heq, map_app. apply in_or_app. right. simpl. now left.
    + apply in_or_app. left. apply in_or_app. right. now left.
    + apply in_or_app. right. now left.
Qed.

(** ** Reading back what was created *)

(** X2. A record that a creation answered 201 with is what the read by id
    answers on the database after it: [read_student], [read_course] and
    [read_enrollment] of the new id answer 200 with that very record, and
    change nothing. *)
Theorem read_after_create :
  (forall db b now r db',
      create_student db b now = (mk_response 201 (JStudent r), db') ->
      read_student db' (Student.id r) = (mk_response 200 (JStudent r), db'))
  /\ (forall db b now r db',
         create_course db b now = (mk_response 201 (JCourse r), db') ->
         read_course db' (Course.id r) = (mk_response 200 (JCourse r), db'))
  /\ (forall db b now r db',
         create_enrollment db b now
         = (mk_response 201 (JEnrollment r), db') ->
         read_enrollment db' (Enrollment.id r)
         = (mk_response 200 (JEnrollment r), db')).
Proof.
  split; [|split].
  - intros db b now r db' H. apply create_student_201 in H.
    destruct H as [Hr ->]. unfold read_student, get_student. simpl.
    rewrite find_snoc_fresh; [reflexivity| |apply Z.eqb_refl].
    rewrite Hr. simpl. apply fresh_id_misses.
  - intros db b now r db' H. unfold create_course, insert_course in H.
    simpl in H. inversion H; subst; clear H.
    unfold read_course, get_course. simpl.
    rewrite find_snoc_fresh; [reflexivity| |apply Z.eqb_refl].
    apply fresh_id_misses.
  - intros db b now r db' H. apply create_enrollment_201 in H.
    destruct H as (Hr & -> & _). unfold read_enrollment, get_enrollment.
    simpl. rewrite find_snoc_fresh; [reflexivity| |apply Z.eqb_refl].
    rewrite Hr. simpl. apply fresh_id_misses.
Qed.

Lemma read_after_create_witness :
  read_student (snd (create_student campus
                       (StudentCreate.mk "Ann" "ann@example.com" 31)
                       (tick 50))) 3
  = (mk_response 200
       (JStudent (Student.mk 3 "Ann" "ann@example.com" 31 50 51)),
     snd (create_student campus
            (StudentCreate.mk "Ann" "ann@example.com" 31) (tick 50)))
  /\ read_enrollment
       (snd (create_enrollment campus (EnrollmentCreate.mk 2 1 None)
                               (tick 50))) 2
     = (mk_response 200 (JEnrollment (Enrollment.mk 2 2 1 None 50)),
        snd (create_enrollment campus (EnrollmentCreate.mk 2 1 None)
                               (tick 50))).
Proof.
  destruct read_after_create as (Hs & _ & He). split.
  - apply (Hs campus (StudentCreate.mk "Ann" "ann@example.com" 31) (tick 50)
              (Student.mk 3 "Ann" "ann@example.com" 31 50 51)).
    reflexivity.
  - apply (He campus (EnrollmentCreate.mk 2 1 None) (tick 50)
              (Enrollment.mk 2 2 1 None 50)).
    reflexivity.
Defined.

(** ** Ids that are not there *)

Lemma get_enrollment_None db k :
  get_enrollment db k = None -> ~ has_enrollment db k.
Proof.
  unfold get_enrollment. intros H [r [Hin Hk]].
  pose proof (find_none _ _ H r Hin) as Hf. simpl in Hf.
  apply Z.eqb_neq in Hf. contradiction.
Qed.

Lemma get_enrollment_has db k r :
  get_enrollment db k = Some r -> has_enrollment db k.
Proof. intros H. apply get_enrollment_Some in H. now exists r. Qed.

Lemma has_enrollment_get db k :
  has_enrollment db k -> exists r, get_enrollment db k = Some r.
Proof.
  intros [r [Hin Hk]]. apply find_hit. exists r. split; [exact Hin|].
  now apply Z.eqb_eq.
Qed.

Lemma no_student_get db k : ~ has_student db k -> get_student db k = None.
Proof.
  intros H. destruct (get_student db k) eqn:E; [|reflexivity].
  exfalso. apply H. eapply get_student_has. eassumption.
Qed.

Lemma no_course_get db k : ~ has_course db k -> get_course db k = None.
Proof.
  intros H. destruct (get_course db k) eqn:E; [|reflexivity].
  exfalso. apply H. eapply get_course_has. eassumption.
Qed.

Lemma no_enrollment_get db k :
  ~ has_enrollment db k -> get_enrollment db k = None.
Proof.
  intros H. destruct (get_enrollment db k) eqn:E; [|reflexivity].
  exfalso. apply H. eapply get_enrollment_has. eassumption.
Qed.

(** X3. Every route that names a record by id looks the record up first: on
    an id its table does not have, reading, updating and deleting a student,
    a course or an enrollment, and listing the enrollments of a student or of
    a course, answer 404 with "Student not found", "Course not found" or
    "Enrollment not found" when the id is within the 64-bit range, and 500
    with the message of the handler when it is not; this whatever the body
    is (for [update_student] also when the email of the body is taken), and
    the database stays as it was. *)
Theorem unknown_id_not_found (db : store) (k : Z) :
  (~ has_student db k ->
   (int64 k = true ->
    let nf := (http_error 404 "Student not found", db) in
    read_student db k = nf
    /\ (forall u now, update_student db k u now = nf)
    /\ delete_student db k = nf
    /\ read_student_enrollments db k = nf)
   /\ (int64 k = false ->
       read_student db k
       = (http_error 500 "An error occurred while fetching the student", db)
       /\ (forall u now,
              update_student db k u now
              = (http_error 500 "An error occurred while updating the student",
                 db))
       /\ delete_student db k
          = (http_error 500 "An error occurred while deleting the student", db)
       /\ read_student_enrollments db k
          = (http_error 500
               "An error occurred while fetching student enrollments", db)))
  /\ (~ has_course db k ->
      (int64 k = true ->
       let nf := (http_error 404 "Course not found", db) in
       read_course db k = nf
       /\ (forall u now, update_course db k u now = nf)
       /\ delete_course db k = nf
       /\ read_course_enrollments db k = nf)
      /\ (int64 k = false ->
          read_course db k
          = (http_error 500 "An error occurred while fetching the course", db)
          /\ (forall u now,
                 update_course db k u now
                 = (http_error 500
                      "An error occurred while updating the course", db))
          /\ delete_course db k
             = (http_error 500 "An error occurred while deleting the course",
                db)
          /\ read_course_enrollments db k
             = (http_error 500
                  "An error occurred while fetching course enrollments", db)))
  /\ (~ has_enrollment db k ->
      (int64 k = true ->
       let nf := (http_error 404 "Enrollment not found", db) in
       read_enrollment db k = nf
       /\ (forall u, update_enrollment db k u = nf)
       /\ delete_enrollment db k = nf)
      /\ (int64 k = false ->
          read_enrollment db k
          = (http_error 500 "An error occurred while fetching the enrollment",
             db)
          /\ (forall u,
                 update_enrollment db k u
                 = (http_error 500
                      "An error occurred while updating the enrollment", db))
          /\ delete_enrollment db k
             = (http_error 500
                  "An error occurred while deleting the enrollment", db))).
Proof.
  split; [|split]; intros H; split; intros H64.
  - apply no_student_get in H.
    unfold read_student, update_student, update_student_between,
      update_student_try, delete_student, read_student_enrollments.
    rewrite H, session_get_missing by exact H64. repeat split.
  - apply no_student_get in H.
    unfold read_student, update_student, update_student_between,
      update_student_try, delete_student, read_student_enrollments.
    rewrite H, session_get_overflow by exact H64. repeat split.
  - apply no_course_get in H.
    unfold read_course, update_course, update_course_try, delete_course,
      read_course_enrollments.
    rewrite H, session_get_missing by exact H64. repeat split.
  - apply no_course_get in H.
    unfold read_course, update_course, update_course_try, delete_course,
      read_course_enrollments.
    rewrite H, session_get_overflow by exact H64. repeat split.
  - apply no_enrollment_get in H.
    unfold read_enrollment, update_enrollment, update_enrollment_try,
      delete_enrollment.
    rewrite H, session_get_missing by exact H64. repeat split.
  - apply no_enrollment_get in H.
    unfold read_enrollment, update_enrollment, update_enrollment_try,
      delete_enrollment.
    rewrite H, session_get_overflow by exact H64. repeat split.
Qed.

Lemma unknown_id_not_found_witness :
  update_student campus 9999
    (StudentUpdate.mk Unset (Given (Some "john@example.com")) Unset) (tick 50)
  = (http_error 404 "Student not found", campus)
  /\ read_student campus (2 ^ 63)
     = (http_error 500 "An error occurred while fetching the student", campus)
  /\ delete_course campus 9999 = (http_error 404 "Course not found", campus)
  /\ delete_course campus (- 2 ^ 63 - 1)
     = (http_error 500 "An error occurred while deleting the course", campus)
  /\ update_enrollment campus 9999 (EnrollmentUpdate.mk (Given (Some "B")))
     = (http_error 404 "Enrollment not found", campus)
  /\ update_enrollment campus (2 ^ 70) (EnrollmentUpdate.mk (Given (Some "B")))
     = (http_error 500 "An error occurred while updating the enrollment",
        campus).
Proof.
  destruct (unknown_id_not_found campus 9999) as (Hs & Hc & He).
  destruct (unknown_id_not_found campus (2 ^ 63)) as (Hs' & _ & _).
  destruct (unknown_id_not_found campus (- 2 ^ 63 - 1)) as (_ & Hc' & _).
  destruct (unknown_id_not_found campus (2 ^ 70)) as (_ & _ & He').
  split; [|split; [|split; [|split; [|split]]]].
  - apply Hs; [apply get_student_None|]; reflexivity.
  - apply Hs'; [apply get_student_None|]; reflexivity.
  - apply Hc; [apply get_course_None|]; reflexivity.
  - apply Hc'; [apply get_course_None|]; reflexivity.
  - apply He; [apply get_enrollment_None|]; reflexivity.
  - apply He'; [apply get_enrollment_None|]; reflexivity.
Defined.

(** ** Statuses, and what a refused request leaves behind *)

Lemma update_student_row_cases db o :
  (exists r db', update_student_row db o = Ok (r, db'))
  \/ update_student_row db o = Raise IntegrityError
  \/ update_student_row db o = Raise OtherError.
Proof.
  unfold update_student_row.
  destruct (negb (existsb _ (students db))); [auto|].
  destruct (Student.row_of o); [|auto].
  destruct (existsb _ (students db)); [auto|]. left. eauto.
Qed.









(** X5. A request that is refused changes nothing: whenever the answer has a
    status of 400 or more (400, 404, 422, 500) the database after the request
    is the database before it; and so it is after every GET, whatever it
    answers. *)
Theorem refused_leaves_database (email_syntax : string -> bool)
  (email_normal : string -> string) (db : store)
  (now : clock) (req : request) :
  (400 <= status (fst (app email_syntax email_normal db now req)) ->
   snd (app email_syntax email_normal db now req) = db)
  /\ (is_get req = true -> snd (app email_syntax email_normal db now req) = db).
Proof.
  unfold app. destruct (body_valid email_syntax req); [|split; reflexivity].
  assert (Hfinish : forall (A : Type) (ok : A -> response) except
                           (res : result (A * store)) c,
             (forall a, status (ok a) = c) -> c < 400 ->
             400 <= status (fst (finish db ok except res)) ->
             snd (finish db ok except res) = db).
  { intros A ok except [[a db']|e] c Hok Hc; simpl; [|reflexivity].
    rewrite Hok. lia. }
  destruct (read_only_invariant db)
    as (H1 & H2 & H3 & H4 & H5 & H6 & H7 & H8).
  destruct req; simpl parsed; simpl route; simpl is_get; split;
    try discriminate; try (intros _; auto; fail);
    try (apply (Hfinish _ _ _ _ 201); [reflexivity|lia]);
    try (apply (Hfinish _ _ _ _ 200); [reflexivity|lia]).
  - unfold delete_student.
    destruct (session_get (get_student db _) _) as [[?|]|?]; simpl; auto.
    unfold HTTP_204_NO_CONTENT. lia.
  - unfold delete_course.
    destruct (session_get (get_course db _) _) as [[?|]|?]; simpl; auto.
    unfold HTTP_204_NO_CONTENT. lia.
  - unfold delete_enrollment.
    destruct (session_get (get_enrollment db _) _) as [[?|]|?]; simpl; auto.
    unfold HTTP_204_NO_CONTENT. lia.
Qed.

Lemma refused_leaves_database_witness :
  snd (app has_at lower_domain campus (tick 50)
         (PUT_course 1 (CourseUpdate.mk (Given None) Unset Unset Unset)))
  = campus
  /\ status (fst (app has_at lower_domain campus (tick 50)
                    (PUT_course 1
                       (CourseUpdate.mk (Given None) Unset Unset Unset))))
     = 500.
Proof.
  split; [|reflexivity].
  destruct (refused_leaves_database has_at lower_domain campus (tick 50)
              (PUT_course 1 (CourseUpdate.mk (Given None) Unset Unset Unset)))
    as [Hrefused _].
  apply Hrefused. apply Z.leb_le. reflexivity.
Defined.

(** ** Updating a course *)

Lemma in_courses_exists db r :
  In r (courses db) ->
  existsb (fun x => Course.id x =? Course.id r) (courses db) = true.
Proof.
  intros H. apply existsb_exists. exists r. split; [exact H|apply Z.eqb_refl].
Qed.

(** X6. [update_course] on a course of the table (ids being unique): when
    the body sets none of title, credits and instructor to null, the answer
    is 200 with the stored record, in which each field the body gives has the
    given value, each field it leaves out has its former value, the
    description is cleared when the body sets it to null, id and created_at
    are kept and updated_at is the current time; the record takes the place
    of the former one and nothing else changes. When the body sets title,
    credits or instructor to null, which the update schema lets through, the
    commit fails on the NOT NULL column and the answer is 500 "An error
    occurred while updating the course", the database unchanged. *)
Theorem update_course_patch (db : store) (r : Course.t) (u : CourseUpdate.t)
  (now : clock) :
  NoDup (map Course.id (courses db)) -> In r (courses db) ->
  (CourseUpdate.title u <> Given None ->
   CourseUpdate.credits u <> Given None ->
   CourseUpdate.instructor u <> Given None ->
   exists r' l1 l2,
     courses db = l1 ++ r :: l2
     /\ update_course db (Course.id r) u now
        = (mk_response 200 (JCourse r'),
           mk_store (students db) (l1 ++ r' :: l2) (enrollments db))
     /\ Some (Course.title r')
        = patched (CourseUpdate.title u) (Course.title r)
     /\ Course.description r'
        = match CourseUpdate.description u with
          | Unset => Course.description r
          | Given v => v
          end
     /\ Some (Course.credits r')
        = patched (CourseUpdate.credits u) (Course.credits r)
     /\ Some (Course.instructor r')
        = patched (CourseUpdate.instructor u) (Course.instructor r)
     /\ Course.id r' = Course.id r
     /\ Course.created_at r' = Course.created_at r
     /\ Course.updated_at r' = now 0%nat)
  /\ (CourseUpdate.title u = Given None
      \/ CourseUpdate.credits u = Given None
      \/ CourseUpdate.instructor u = Given None ->
      update_course db (Course.id r) u now
      = (http_error 500 "An error occurred while updating the course", db)).
Proof.
  intros Hpk Hin.
  assert (Hupd : update_course db (Course.id r) u now
                 = finish db (fun r => mk_response 200 (JCourse r))
                     (except_500 "An error occurred while updating the course")
                     match patched_course u r (now 0%nat) with
                     | None => Raise IntegrityError
                     | Some r' =>
                         Ok (r', mk_store (students db)
                                   (put_row Course.id r' (courses db))
                                   (enrollments db))
                     end).
  { unfold update_course, update_course_try.
    rewrite (get_course_in db r Hpk Hin), session_get_found.
    cbv beta iota zeta. rewrite setattr_course_loop.
    unfold update_course_row. simpl Course.i_id.
    rewrite (in_courses_exists db r Hin). reflexivity. }
  rewrite Hupd. clear Hupd. split.
  - intros Ht Hc Hi.
    destruct (patched_some _ (Course.title r) Ht) as [ti Hti].
    destruct (patched_some _ (Course.credits r) Hc) as [cr Hcr].
    destruct (patched_some _ (Course.instructor r) Hi) as [ins Hins].
    unfold patched_course, Course.row_of. simpl. rewrite Hti, Hcr, Hins.
    simpl. eexists.
    match goal with
    | |- context [put_row Course.id ?x _] => set (r' := x)
    end.
    destruct (put_split Course.id r' r (courses db) Hpk Hin eq_refl)
      as [l1 [l2 [Hsplit Hput]]].
    exists l1, l2. rewrite Hput. repeat split. exact Hsplit.
  - intros Hnull.
    assert (Hrow : patched_course u r (now 0%nat) = None).
    { unfold patched_course, Course.row_of. simpl.
      destruct Hnull as [H|[H|H]]; rewrite H; simpl;
        repeat match goal with
               | |- context [match patched ?f ?x with _ => _ end] =>
                   destruct (patched f x)
               end; reflexivity. }
    rewrite Hrow. reflexivity.
Qed.

Lemma update_course_patch_witness :
  (exists r' l1 l2,
      courses campus
      = l1 ++ Course.mk 1 "Python 101" None 3 "Dr. Smith" 30 31 :: l2
      /\ update_course campus 1
           (CourseUpdate.mk Unset (Given (Some "Basics")) (Given (Some 4))
                            Unset) (tick 50)
         = (mk_response 200 (JCourse r'),
            mk_store (students campus) (l1 ++ r' :: l2) (enrollments campus))
      /\ Some (Course.title r') = Some "Python 101"
      /\ Course.description r' = Some "Basics"
      /\ Some (Course.credits r') = Some 4
      /\ Some (Course.instructor r') = Some "Dr. Smith"
      /\ Course.id r' = 1
      /\ Course.created_at r' = 30
      /\ Course.updated_at r' = 50)
  /\ update_course campus 1
       (CourseUpdate.mk (Given None) Unset Unset Unset) (tick 50)
     = (http_error 500 "An error occurred while updating the course", campus).
Proof.
  split.
  - apply (update_course_patch campus
             (Course.mk 1 "Python 101" None 3 "Dr. Smith" 30 31)
             (CourseUpdate.mk Unset (Given (Some "Basics")) (Given (Some 4))
                              Unset) (tick 50));
      try discriminate; [distinct_rows|simpl; now left].
  - apply (update_course_patch campus
             (Course.mk 1 "Python 101" None 3 "Dr. Smith" 30 31)
             (CourseUpdate.mk (Given None) Unset Unset Unset) (tick 50));
      [distinct_rows|simpl; now left|now left].
Defined.

(** ** Deleting a course or an enrollment *)

Lemma get_enrollment_in db r :
  NoDup (map Enrollment.id (enrollments db)) -> In r (enrollments db) ->
  get_enrollment db (Enrollment.id r) = Some r.
Proof.
  intros Hnd Hin.
  destruct (has_enrollment_get db (Enrollment.id r)) as [r0 E];
    [now exists r|].
  rewrite E. f_equal. apply get_enrollment_Some in E.
  destruct E as [Hin0 Hid].
  now apply (NoDup_map_inj Enrollment.id (enrollments db)).
Qed.

(** X7. [delete_course] of a course of the table (ids being unique) answers
    204, removes that one record and keeps the other courses in place; the
    students and the enrollments, those in the deleted course included, stay
    as they were. The deletion is final: reading, updating or deleting the
    same id again (an id within the 64-bit range, as the ids of a table are)
    answers 404, and so does enrolling a student in it. *)
Theorem delete_course_frame (db : store) (r : Course.t) :
  NoDup (map Course.id (courses db)) -> In r (courses db) ->
  exists l1 l2,
    courses db = l1 ++ r :: l2
    /\ delete_course db (Course.id r)
       = (mk_response 204 JNone,
          mk_store (students db) (l1 ++ l2) (enrollments db))
    /\ (int64 (Course.id r) = true ->
        let db' := snd (delete_course db (Course.id r)) in
        let nf := (http_error 404 "Course not found", db') in
        read_course db' (Course.id r) = nf
        /\ (forall u now, update_course db' (Course.id r) u now = nf)
        /\ delete_course db' (Course.id r) = nf
        /\ read_course_enrollments db' (Course.id r) = nf
        /\ forall s g now,
             has_student db s ->
             create_enrollment db' (EnrollmentCreate.mk s (Course.id r) g) now
             = nf).
Proof.
  intros Hpk Hin.
  destruct (drop_split Course.id (Course.id r) r (courses db) Hpk Hin eq_refl)
    as [l1 [l2 [Hsplit Hdrop]]].
  exists l1, l2. split; [exact Hsplit|].
  unfold delete_course at 1 2.
  rewrite (get_course_in db r Hpk Hin), session_get_found.
  unfold delete_course_row. rewrite Hdrop. split; [reflexivity|].
  intros H64. simpl snd.
  assert (Hgone : get_course
                    (mk_store (students db) (l1 ++ l2) (enrollments db))
                    (Course.id r) = None).
  { unfold get_course. simpl. rewrite <- Hdrop.
    apply (drop_gone Course.id). }
  unfold read_course, update_course, update_course_try, delete_course,
    read_course_enrollments.
  rewrite Hgone, session_get_missing by exact H64. repeat split.
  intros s g now Hs.
  unfold create_enrollment, create_enrollment_between, create_enrollment_try.
  simpl EnrollmentCreate.student_id. simpl EnrollmentCreate.course_id.
  destruct (has_student_get db s Hs) as [x Hx].
  unfold get_student in *. simpl students. rewrite Hx, session_get_found.
  fold (get_course (mk_store (students db) (l1 ++ l2) (enrollments db))
                   (Course.id r)).
  now rewrite Hgone, session_get_missing by exact H64.
Qed.

Lemma delete_course_frame_witness :
  enrolled campus 1 1
  /\ exists l1 l2,
       courses campus
       = l1 ++ Course.mk 1 "Python 101" None 3 "Dr. Smith" 30 31 :: l2
       /\ delete_course campus 1
          = (mk_response 204 JNone,
             mk_store (students campus) (l1 ++ l2) (enrollments campus))
       /\ let db' := snd (delete_course campus 1) in
          let nf := (http_error 404 "Course not found", db') in
          read_course db' 1 = nf
          /\ (forall u now, update_course db' 1 u now = nf)
          /\ delete_course db' 1 = nf
          /\ read_course_enrollments db' 1 = nf
          /\ forall s g now,
               has_student campus s ->
               create_enrollment db' (EnrollmentCreate.mk s 1 g) now = nf.
Proof.
  split.
  - eapply first_enrollment_by_pair_enrolled. reflexivity.
  - destruct (delete_course_frame campus
                (Course.mk 1 "Python 101" None 3 "Dr. Smith" 30 31))
      as (l1 & l2 & Hsplit & Hdel & Hgone); [distinct_rows|simpl; now left|].
    exists l1, l2. split; [exact Hsplit|]. split; [exact Hdel|].
    apply Hgone. reflexivity.
Defined.

Lemma regraded_is_loop u r :
  fold_left setattr_enrollment (EnrollmentUpdate.model_dump_exclude_unset u) r
  = regraded u r.
Proof.
  unfold EnrollmentUpdate.model_dump_exclude_unset, regraded.
  destruct (EnrollmentUpdate.grade u); simpl; [now destruct r|reflexivity].
Qed.

(** X8. [update_enrollment] of an enrollment of the table (ids being unique)
    answers 200 with the stored record: its grade is the one of the body, no
    grade when the body sets it to null, the former grade when the body
    leaves it out; id, student, course and enrollment date are the former
    ones. The record takes the place of the former one; the other
    enrollments, the students and the courses are untouched. *)
Theorem update_enrollment_grade (db : store) (r : Enrollment.t)
  (u : EnrollmentUpdate.t) :
  NoDup (map Enrollment.id (enrollments db)) -> In r (enrollments db) ->
  exists l1 l2,
    enrollments db = l1 ++ r :: l2
    /\ update_enrollment db (Enrollment.id r) u
       = (mk_response 200 (JEnrollment (regraded u r)),
          mk_store (students db) (courses db) (l1 ++ regraded u r :: l2))
    /\ (forall g, EnrollmentUpdate.grade u = Given g ->
                  Enrollment.grade (regraded u r) = g)
    /\ (EnrollmentUpdate.grade u = Unset -> regraded u r = r).
Proof.
  intros Hpk Hin.
  destruct (put_split Enrollment.id (regraded u r) r (enrollments db)
              Hpk Hin eq_refl) as [l1 [l2 [Hsplit Hput]]].
  exists l1, l2. split; [exact Hsplit|]. split; [|split].
  - unfold update_enrollment, update_enrollment_try.
    rewrite (get_enrollment_in db r Hpk Hin), session_get_found.
    cbv beta iota zeta. rewrite regraded_is_loop.
    unfold update_enrollment_row.
    assert (Hex : existsb (fun x => Enrollment.id x
                                    =? Enrollment.id (regraded u r))
                          (enrollments db) = true).
    { apply existsb_exists. exists r. split; [exact Hin|apply Z.eqb_refl]. }
    rewrite Hex. simpl. now rewrite Hput.
  - intros g Hg. unfold regraded. now rewrite Hg.
  - intros Hg. unfold regraded. rewrite Hg. now destruct r.
Qed.

Lemma update_enrollment_grade_witness :
  exists l1 l2,
    enrollments campus = l1 ++ Enrollment.mk 1 1 1 (Some "A") 40 :: l2
    /\ update_enrollment campus 1 (EnrollmentUpdate.mk (Given None))
       = (mk_response 200 (JEnrollment (Enrollment.mk 1 1 1 None 40)),
          mk_store (students campus) (courses campus)
                   (l1 ++ Enrollment.mk 1 1 1 None 40 :: l2)).
Proof.
  destruct (update_enrollment_grade campus
              (Enrollment.mk 1 1 1 (Some "A") 40)
              (EnrollmentUpdate.mk (Given None)))
    as (l1 & l2 & Hsplit & Hupd & _); [distinct_rows|simpl; now left|].
  exists l1, l2. split; [exact Hsplit|exact Hupd].
Defined.

Lemma drop_row_in {A : Type} (key : A -> Z) (k : Z) (l : list A) (x : A) :
  In x (drop_row key k l) <-> In x l /\ key x <> k.
Proof.
  unfold drop_row. rewrite filter_In, negb_true_iff, Z.eqb_neq. tauto.
Qed.

(** X9. [delete_enrollment] of an enrollment of a database the API brought
    about answers 204 and removes that one record, the students and courses
    untouched; the same id (an id within the 64-bit range, as the ids of a
    table are) is then answered 404 by read, update and delete.
    The pair is free again: the student is no longer enrolled in the course,
    and, student and course being still there, [create_enrollment] of the
    same pair is answered 201. *)
Theorem delete_then_enroll_again (email_syntax : string -> bool)
  (email_normal : string -> string)
  (db : store) (r : Enrollment.t) :
  reachable email_syntax email_normal db -> In r (enrollments db) ->
  let s := Enrollment.student_id r in
  let c := Enrollment.course_id r in
  let db' := snd (delete_enrollment db (Enrollment.id r)) in
  (exists l1 l2,
      enrollments db = l1 ++ r :: l2
      /\ delete_enrollment db (Enrollment.id r)
         = (mk_response 204 JNone,
            mk_store (students db) (courses db) (l1 ++ l2)))
  /\ (int64 (Enrollment.id r) = true ->
      read_enrollment db' (Enrollment.id r)
      = (http_error 404 "Enrollment not found", db')
      /\ (forall u, update_enrollment db' (Enrollment.id r) u
                    = (http_error 404 "Enrollment not found", db'))
      /\ delete_enrollment db' (Enrollment.id r)
         = (http_error 404 "Enrollment not found", db'))
  /\ ~ enrolled db' s c
  /\ (forall g now,
         has_student db s -> has_course db c ->
         exists r2,
           create_enrollment db' (EnrollmentCreate.mk s c g) now
           = (mk_response 201 (JEnrollment r2),
              mk_store (students db') (courses db') (enrollments db' ++ [r2]))
           /\ Enrollment.pair_of r2 = (s, c)).
Proof.
  intros Hreach Hin s c db'. apply reachable_invariant in Hreach.
  destruct Hreach as [[_ _ _ Hpk] Hpairs].
  destruct (drop_split Enrollment.id (Enrollment.id r) r (enrollments db)
              Hpk Hin eq_refl) as [l1 [l2 [Hsplit Hdrop]]].
  assert (Hdel : delete_enrollment db (Enrollment.id r)
                 = (mk_response 204 JNone,
                    mk_store (students db) (courses db) (l1 ++ l2))).
  { unfold delete_enrollment.
    rewrite (get_enrollment_in db r Hpk Hin), session_get_found.
    unfold delete_enrollment_row. now rewrite Hdrop. }
  assert (Hdb' : db' = mk_store (students db) (courses db)
                         (drop_row Enrollment.id (Enrollment.id r)
                                   (enrollments db))).
  { subst db'. rewrite Hdel, Hdrop. reflexivity. }
  assert (Hgone : get_enrollment db' (Enrollment.id r) = None).
  { rewrite Hdb'. unfold get_enrollment. simpl.
    apply (drop_gone Enrollment.id). }
  assert (Hfree : ~ enrolled db' s c).
  { intros [x [Hx Hxp]]. rewrite Hdb' in Hx. simpl in Hx.
    apply drop_row_in in Hx. destruct Hx as [Hx Hne]. apply Hne. f_equal.
    apply (NoDup_map_inj Enrollment.pair_of (enrollments db)); auto. }
  split; [exists l1, l2; auto|]. split.
  { intros H64.
    unfold read_enrollment, update_enrollment, update_enrollment_try,
      delete_enrollment.
    rewrite Hgone, session_get_missing by exact H64. repeat split. }
  split; [exact Hfree|].
  intros g now Hs Hc.
  unfold create_enrollment, create_enrollment_between, create_enrollment_try.
  simpl EnrollmentCreate.student_id. simpl EnrollmentCreate.course_id.
  destruct (has_student_get db s Hs) as [x Hx].
  destruct (has_course_get db c Hc) as [y Hy].
  assert (Hx' : get_student db' s = Some x) by (now rewrite Hdb').
  assert (Hy' : get_course db' c = Some y) by (now rewrite Hdb').
  rewrite Hx', Hy', !session_get_found.
  apply first_enrollment_by_pair_None in Hfree. rewrite Hfree.
  eexists. simpl. split; reflexivity.
Qed.

Lemma delete_then_enroll_again_witness :
  read_enrollment (snd (delete_enrollment campus 1)) 1
  = (http_error 404 "Enrollment not found", snd (delete_enrollment campus 1))
  /\ exists r2,
       create_enrollment (snd (delete_enrollment campus 1))
         (EnrollmentCreate.mk 1 1 (Some "B")) (tick 50)
       = (mk_response 201 (JEnrollment r2),
          mk_store (students (snd (delete_enrollment campus 1)))
                   (courses (snd (delete_enrollment campus 1)))
                   (enrollments (snd (delete_enrollment campus 1)) ++ [r2]))
       /\ Enrollment.pair_of r2 = (1, 1).
Proof.
  assert (Hreach : reachable has_at lower_domain campus).
  { apply serve_reachable. apply reachable_empty. }
  destruct (delete_then_enroll_again has_at lower_domain campus
              (Enrollment.mk 1 1 1 (Some "A") 40) Hreach)
    as (_ & Hread & _ & Hagain); [simpl; now left|].
  split; [apply Hread; reflexivity|].
  apply (Hagain (Some "B") (tick 50)).
  - eapply get_student_has. reflexivity.
  - eapply get_course_has. reflexivity.
Defined.

(** ** Enrollments of a student, enrollments in a course *)

(** A column that decides another one on the selected rows has no duplicate
    there when the other has none in the table. *)
Lemma selected_distinct {Row K1 K2 : Type} (whole : Row -> K1)
  (part : Row -> K2) (sel : Row -> bool) (rows : list Row) :
  NoDup (map whole rows) ->
  (forall a b, sel a = true -> sel b = true -> part a = part b ->
               whole a = whole b) ->
  NoDup (map part (filter sel rows)).
Proof.
  intros Hnd Hdet. induction rows as [|a rows IH]; simpl; [constructor|].
  inversion Hnd as [|? ? Hnotin Hnd']; subst.
  destruct (sel a) eqn:Ea; simpl; [|now apply IH].
  constructor; [|now apply IH].
  intros Hin. apply in_map_iff in Hin. destruct Hin as [x [Hx Hxin]].
  apply filter_In in Hxin. destruct Hxin as [Hxl Hsx].
  apply Hnotin. rewrite <- (Hdet x a Hsx Ea Hx). now apply in_map.
Qed.

(** X10. [read_student_enrollments] of a student of the table answers 200
    with exactly the enrollments whose student_id is the id asked for,
    none when the student has none; so does
    [read_course_enrollments] with course_id. In a database the API brought
    about, such a list names no course twice, respectively no student
    twice. *)
Theorem enrollments_by_parent (email_syntax : string -> bool)
  (email_normal : string -> string) (db : store)
  (k : Z) :
  (has_student db k ->
   exists l,
     read_student_enrollments db k = (mk_response 200 (JEnrollments l), db)
     /\ (forall r, In r l <->
                   In r (enrollments db) /\ Enrollment.student_id r = k)
     /\ (~ (exists c, enrolled db k c) -> l = [])
     /\ (reachable email_syntax email_normal db -> NoDup (map Enrollment.course_id l)))
  /\ (has_course db k ->
      exists l,
        read_course_enrollments db k = (mk_response 200 (JEnrollments l), db)
        /\ (forall r, In r l <->
                      In r (enrollments db) /\ Enrollment.course_id r = k)
        /\ (~ (exists s, enrolled db s k) -> l = [])
        /\ (reachable email_syntax email_normal db ->
            NoDup (map Enrollment.student_id l))).
Proof.
  assert (Hempty : forall (f : Enrollment.t -> bool) (l : list Enrollment.t),
             (forall r, In r l -> f r = false) -> filter f l = []).
  { intros f l H. induction l as [|a l IH]; simpl; [reflexivity|].
    rewrite (H a (or_introl eq_refl)). apply IH. intros r Hr. apply H.
    now right. }
  split.
  - intros Hhas. destruct (has_student_get db k Hhas) as [x Hx].
    unfold read_student_enrollments. rewrite Hx, session_get_found. eexists.
    split; [reflexivity|]. split; [|split].
    + intros r. rewrite filter_In, Z.eqb_eq. tauto.
    + intros Hnone. apply Hempty. intros r Hr. apply Z.eqb_neq. intros Hk.
      apply Hnone. exists (Enrollment.course_id r), r.
      split; [exact Hr|]. unfold Enrollment.pair_of. now rewrite Hk.
    + intros Hreach. apply reachable_invariant in Hreach.
      destruct Hreach as [_ Hnd].
      apply (selected_distinct Enrollment.pair_of); [exact Hnd|].
      intros a b Ha Hb Hab. apply Z.eqb_eq in Ha. apply Z.eqb_eq in Hb.
      unfold Enrollment.pair_of. congruence.
  - intros Hhas. destruct (has_course_get db k Hhas) as [x Hx].
    unfold read_course_enrollments. rewrite Hx, session_get_found. eexists.
    split; [reflexivity|]. split; [|split].
    + intros r. rewrite filter_In, Z.eqb_eq. tauto.
    + intros Hnone. apply Hempty. intros r Hr. apply Z.eqb_neq. intros Hk.
      apply Hnone. exists (Enrollment.student_id r), r.
      split; [exact Hr|]. unfold Enrollment.pair_of. now rewrite Hk.
    + intros Hreach. apply reachable_invariant in Hreach.
      destruct Hreach as [_ Hnd].
      apply (selected_distinct Enrollment.pair_of); [exact Hnd|].
      intros a b Ha Hb Hab. apply Z.eqb_eq in Ha. apply Z.eqb_eq in Hb.
      unfold Enrollment.pair_of. congruence.
Qed.

Lemma enrollments_by_parent_witness :
  (exists l,
      read_student_enrollments campus 2
      = (mk_response 200 (JEnrollments l), campus)
      /\ l = [])
  /\ (exists l,
         read_course_enrollments campus 1
         = (mk_response 200 (JEnrollments l), campus)
         /\ NoDup (map Enrollment.student_id l)).
Proof.
  assert (Hreach : reachable has_at lower_domain campus).
  { apply serve_reachable. apply reachable_empty. }
  split.
  - destruct (enrollments_by_parent has_at lower_domain campus 2) as [Hs _].
    destruct Hs as (l & Hread & _ & Hnone & _);
      [eapply get_student_has; reflexivity|].
    exists l. split; [exact Hread|]. apply Hnone.
    intros [c [r [Hin Hp]]]. simpl in Hin.
    destruct Hin as [<-|[]]. discriminate.
  - destruct (enrollments_by_parent has_at lower_domain campus 1) as [_ Hc].
    destruct Hc as (l & Hread & _ & _ & Hnd);
      [eapply get_course_has; reflexivity|].
    exists l. split; [exact Hread|]. now apply Hnd.
Defined.

(** ** Enrollments of a deleted student *)

(** X11. [delete_student] takes no notice of the enrollments: after it, in
    a database that satisfied its declared constraints, each enrollment of
    the deleted student is still answered 200 by [read_enrollment] and still
    listed among the enrollments of its course, while
    [read_student_enrollments] of the deleted id (an id within the 64-bit
    range, as the ids of a table are) answers 404 and [create_enrollment]
    for it answers 404 "Student not found". *)
Theorem deleted_student_enrollments (db : store) (e : Enrollment.t) :
  store_ok db -> In e (enrollments db) ->
  has_student db (Enrollment.student_id e) ->
  let s := Enrollment.student_id e in
  let db' := snd (delete_student db s) in
  fst (delete_student db s) = mk_response 204 JNone
  /\ read_enrollment db' (Enrollment.id e)
     = (mk_response 200 (JEnrollment e), db')
  /\ (has_course db (Enrollment.course_id e) ->
      exists l,
        read_course_enrollments db' (Enrollment.course_id e)
        = (mk_response 200 (JEnrollments l), db')
        /\ In e l)
  /\ (int64 s = true ->
      read_student_enrollments db' s
      = (http_error 404 "Student not found", db')
      /\ forall c g now,
           create_enrollment db' (EnrollmentCreate.mk s c g) now
           = (http_error 404 "Student not found", db')).
Proof.
  intros [Hs _ _ Hn] Hin Hhas s db'.
  destruct (has_student_get db s Hhas) as [x Hx].
  pose proof (get_student_Some _ _ _ Hx) as [_ Hxs].
  assert (Hdel : delete_student db s
                 = (mk_response 204 JNone,
                    mk_store (drop_row Student.id s (students db))
                             (courses db) (enrollments db))).
  { unfold delete_student. rewrite Hx, session_get_found.
    unfold delete_student_row. now rewrite Hxs. }
  assert (Hdb' : db' = mk_store (drop_row Student.id s (students db))
                         (courses db) (enrollments db)).
  { subst db'. now rewrite Hdel. }
  assert (Hgone : get_student db' s = None).
  { rewrite Hdb'. unfold get_student. simpl. apply (drop_gone Student.id). }
  split; [now rewrite Hdel|]. split; [|split].
  - unfold read_enrollment.
    assert (Hget : get_enrollment db' (Enrollment.id e) = Some e).
    { rewrite Hdb'. now apply (get_enrollment_in db e). }
    now rewrite Hget.
  - intros Hc. destruct (has_course_get db _ Hc) as [y Hy].
    unfold read_course_enrollments.
    assert (Hy' : get_course db' (Enrollment.course_id e) = Some y).
    { now rewrite Hdb'. }
    rewrite Hy', session_get_found. eexists. split; [reflexivity|].
    apply filter_In. rewrite Hdb'. simpl. split; [exact Hin|].
    apply Z.eqb_refl.
  - intros H64. split.
    + unfold read_student_enrollments.
      now rewrite Hgone, session_get_missing by exact H64.
    + intros c g now.
      unfold create_enrollment, create_enrollment_between,
        create_enrollment_try.
      simpl EnrollmentCreate.student_id.
      now rewrite Hgone, session_get_missing by exact H64.
Qed.

Lemma deleted_student_enrollments_witness :
  fst (delete_student campus 1) = mk_response 204 JNone
  /\ read_enrollment (snd (delete_student campus 1)) 1
     = (mk_response 200 (JEnrollment (Enrollment.mk 1 1 1 (Some "A") 40)),
        snd (delete_student campus 1))
  /\ read_student_enrollments (snd (delete_student campus 1)) 1
     = (http_error 404 "Student not found", snd (delete_student campus 1)).
Proof.
  destruct (deleted_student_enrollments campus
              (Enrollment.mk 1 1 1 (Some "A") 40) campus_ok)
    as (Hdel & Hread & _ & Hlist).
  - simpl. now left.
  - eapply get_student_has. reflexivity.
  - split; [exact Hdel|]. split; [exact Hread|].
    apply Hlist. reflexivity.
Defined.

(** ** What every database of the API satisfies *)



Lemma Forall_snoc {A : Type} (P : A -> Prop) (l : list A) (x : A) :
  Forall P l -> P x -> Forall P (l ++ [x]).
Proof.
  intros Hl Hx. apply Forall_app. split; [exact Hl|]. now constructor.
Qed.

Lemma Forall_put_row {A : Type} (P : A -> Prop) (key : A -> Z) (r : A)
  (l : list A) :
  Forall P l -> P r -> Forall P (put_row key r l).
Proof.
  intros Hl Hr. unfold put_row. apply Forall_forall. intros x Hx.
  apply in_map_iff in Hx. destruct Hx as [y [Hy Hin]].
  destruct (key y =? key r); subst x; [exact Hr|].
  now apply (proj1 (Forall_forall P l) Hl).
Qed.

Lemma Forall_drop_row {A : Type} (P : A -> Prop) (key : A -> Z) (k : Z)
  (l : list A) :
  Forall P l -> Forall P (drop_row key k l).
Proof.
  intros Hl. apply Forall_forall. intros x Hx. apply drop_row_in in Hx.
  apply (proj1 (Forall_forall P l) Hl). tauto.
Qed.

Lemma patched_ok {A : Type} (p : A -> bool) (f : field A) (stored v : A) :
  field_ok p f = true -> p stored = true -> patched f stored = Some v ->
  p v = true.
Proof.
  destruct f as [|[w|]]; simpl; intros Hf Hs Hv; inversion Hv; subst; auto.
Qed.

Lemma update_course_ok db k u now r' db' :
  update_course_try db k u now = Ok (r', db') ->
  exists r,
    In r (courses db)
    /\ patched_course u r (now 0%nat) = Some r'
    /\ db' = mk_store (students db) (put_row Course.id r' (courses db))
                      (enrollments db).
Proof.
  unfold update_course_try.
  destruct (session_get_cases (get_course db k) k)
    as [[r [E ->]]|[[_ [_ ->]]|[_ [_ ->]]]]; try discriminate.
  rewrite setattr_course_loop. unfold update_course_row.
  destruct (negb (existsb _ (courses db))); [discriminate|].
  fold (patched_course u r (now 0%nat)).
  destruct (patched_course u r (now 0%nat)) as [row|] eqn:Hrow;
    [|discriminate].
  intros H. inversion H; subst. exists r.
  apply get_course_Some in E. tauto.
Qed.

Lemma update_enrollment_ok db k u r' db' :
  update_enrollment_try db k u = Ok (r', db') ->
  exists r,
    In r (enrollments db)
    /\ r' = regraded u r
    /\ db' = mk_store (students db) (courses db)
                      (put_row Enrollment.id r' (enrollments db)).
Proof.
  unfold update_enrollment_try.
  destruct (session_get_cases (get_enrollment db k) k)
    as [[r [E ->]]|[[_ [_ ->]]|[_ [_ ->]]]]; try discriminate.
  rewrite regraded_is_loop. unfold update_enrollment_row.
  destruct (negb (existsb _ (enrollments db))); [discriminate|].
  intros H. inversion H; subst. exists r.
  apply get_enrollment_Some in E. tauto.
Qed.

Lemma app_rows_valid email_syntax email_normal db now req :
  (forall e, email_syntax e = true -> email_syntax (email_normal e) = true) ->
  rows_valid email_syntax db ->
  rows_valid email_syntax (snd (app email_syntax email_normal db now req)).
Proof.
  intros Hnormal Hdb. pose proof Hdb as (Hs & Hc & He). unfold app.
  destruct (body_valid email_syntax req) eqn:Hvalid; [|exact Hdb].
  destruct (read_only_invariant db)
    as (H1 & H2 & H3 & H4 & H5 & H6 & H7 & H8).
  assert (Hparsed : body_valid email_syntax (parsed email_normal req) = true).
  { destruct req; simpl in *; try exact Hvalid.
    - unfold StudentCreate_valid in *.
      cbn [StudentCreate.name StudentCreate.email StudentCreate.age].
      repeat (match goal with
              | H : _ && _ = true |- _ =>
                  apply andb_true_iff in H; destruct H
              end).
      rewrite !andb_true_iff. repeat split; auto.
    - unfold StudentUpdate_valid in *.
      cbn [StudentUpdate.name StudentUpdate.email StudentUpdate.age].
      repeat (match goal with
              | H : _ && _ = true |- _ =>
                  apply andb_true_iff in H; destruct H
              end).
      rewrite !andb_true_iff. repeat split; auto.
      destruct (StudentUpdate.email student_update) as [|[e|]]; simpl in *;
        auto. }
  clear Hvalid. rename Hparsed into Hvalid.
  destruct (parsed email_normal req) eqn:Hreq; simpl route; simpl in Hvalid;
    rewrite ?H1, ?H2, ?H3, ?H4, ?H5, ?H6, ?H7, ?H8; try exact Hdb.
  - destruct (create_student db student now) as [resp db'] eqn:E.
    unfold create_student, create_student_between, create_student_try in E.
    destruct (first_student_by_email db _) eqn:Ef; simpl in E.
    { inversion E; subst. exact Hdb. }
    apply first_student_by_email_None in Ef.
    rewrite (insert_student_free _ _ _ _ _ _ Ef) in E. simpl in E.
    inversion E; subst. simpl. repeat split; try assumption.
    apply Forall_snoc; [exact Hs|].
    unfold student_row_valid. simpl. now destruct student.
  - unfold update_student, update_student_between.
    destruct (update_student_try db db student_id student_update now)
      as [[r' db']|e] eqn:E; simpl; [|exact Hdb].
    assert (Hupd : update_student db student_id student_update now
                   = (mk_response 200 (JStudent r'), db')).
    { unfold update_student, update_student_between. now rewrite E. }
    apply update_student_ok in Hupd.
    destruct Hupd as (r & Hget & Hrow & ->).
    apply get_student_Some in Hget. destruct Hget as [Hin _].
    apply row_of_patched in Hrow. destruct Hrow as (Hn & Hem & Ha & _).
    pose proof (proj1 (Forall_forall _ _) Hs r Hin) as Hr.
    unfold student_row_valid, StudentCreate_valid in Hr. simpl in Hr.
    unfold StudentUpdate_valid in Hvalid.
    apply andb_true_iff in Hr. destruct Hr as [Hr Hr3].
    apply andb_true_iff in Hr. destruct Hr as [Hr1 Hr2].
    apply andb_true_iff in Hvalid. destruct Hvalid as [Hv Hv3].
    apply andb_true_iff in Hv. destruct Hv as [Hv1 Hv2].
    repeat split; simpl; try assumption.
    apply Forall_put_row; [exact Hs|].
    unfold student_row_valid, StudentCreate_valid. simpl.
    rewrite (patched_ok _ _ _ _ Hv1 Hr1 Hn), (patched_ok _ _ _ _ Hv2 Hr2 Hem),
      (patched_ok _ _ _ _ Hv3 Hr3 Ha). reflexivity.
  - unfold delete_student.
    destruct (session_get (get_student db _) _) as [[?|]|?]; simpl;
      try exact Hdb.
    repeat split; simpl; try assumption. now apply Forall_drop_row.
  - unfold create_course, insert_course. simpl.
    repeat split; simpl; try assumption.
    apply Forall_snoc; [exact Hc|].
    unfold course_row_valid. simpl. now destruct course.
  - unfold update_course.
    destruct (update_course_try db course_id course_update now)
      as [[r' db']|e] eqn:E; simpl; [|exact Hdb].
    apply update_course_ok in E. destruct E as (r & Hin & Hrow & ->).
    pose proof (proj1 (Forall_forall _ _) Hc r Hin) as Hr.
    unfold course_row_valid, CourseCreate_valid in Hr. simpl in Hr.
    unfold CourseUpdate_valid in Hvalid.
    repeat (match goal with
            | H : _ && _ = true |- _ =>
                apply andb_true_iff in H; destruct H
            end).
    repeat split; simpl; try assumption.
    apply Forall_put_row; [exact Hc|].
    unfold patched_course, Course.row_of in Hrow. simpl in Hrow.
    destruct (patched (CourseUpdate.title course_update) _) as [ti|] eqn:Hti;
      [|discriminate].
    destruct (patched (CourseUpdate.credits course_update) _) as [cr|] eqn:Hcr;
      [|discriminate].
    destruct (patched (CourseUpdate.instructor course_update) _)
      as [ins|] eqn:Hins; [|discriminate].
    inversion Hrow; subst r'; clear Hrow.
    unfold course_row_valid, CourseCreate_valid. simpl.
    rewrite (patched_ok (length_between 1 200) _ _ _ ltac:(eassumption)
               ltac:(eassumption) Hti).
    rewrite (patched_ok (between 1 10) _ _ _ ltac:(eassumption)
               ltac:(eassumption) Hcr).
    rewrite (patched_ok (length_between 1 100) _ _ _ ltac:(eassumption)
               ltac:(eassumption) Hins).
    destruct (CourseUpdate.description course_update) as [|d]; simpl in *;
      repeat rewrite andb_true_r; assumption.
  - unfold delete_course.
    destruct (session_get (get_course db _) _) as [[?|]|?]; simpl;
      try exact Hdb.
    repeat split; simpl; try assumption. now apply Forall_drop_row.
  - unfold create_enrollment, create_enrollment_between.
    destruct (create_enrollment_try db db enrollment now)
      as [[r' db']|e] eqn:E; simpl; [|exact Hdb].
    unfold create_enrollment_try in E.
    destruct (session_get (get_student db _) _) as [[?|]|?];
      try discriminate.
    destruct (session_get (get_course db _) _) as [[?|]|?];
      try discriminate.
    destruct (first_enrollment_by_pair db _ _); [discriminate|].
    unfold insert_enrollment in E. inversion E; subst.
    repeat split; simpl; try assumption.
    apply Forall_snoc; [exact He|]. exact Hvalid.
  - unfold update_enrollment.
    destruct (update_enrollment_try db enrollment_id enrollment_update)
      as [[r' db']|e] eqn:E; simpl; [|exact Hdb].
    apply update_enrollment_ok in E. destruct E as (r & Hin & -> & ->).
    pose proof (proj1 (Forall_forall _ _) He r Hin) as Hr.
    repeat split; simpl; try assumption.
    apply Forall_put_row; [exact He|].
    unfold enrollment_row_valid, EnrollmentCreate_valid, regraded in *.
    unfold EnrollmentUpdate_valid in Hvalid. simpl in *.
    destruct (EnrollmentUpdate.grade enrollment_update); assumption.
  - unfold delete_enrollment.
    destruct (session_get (get_enrollment db _) _) as [[?|]|?]; simpl;
      try exact Hdb.
    repeat split; simpl; try assumption. now apply Forall_drop_row.
Qed.

Lemma reachable_rows_valid email_syntax email_normal db :
  (forall e, email_syntax e = true -> email_syntax (email_normal e) = true) ->
  reachable email_syntax email_normal db -> rows_valid email_syntax db.
Proof.
  intros Hnormal. induction 1 as [|db now req Hreach IH].
  - repeat split; constructor.
  - now apply app_rows_valid.
Qed.

Lemma has_at_lower_domain (e : string) :
  has_at e = true -> has_at (lower_domain e) = true.
Proof.
  induction e as [|c e IH]; simpl; [discriminate|].
  destruct (Ascii.eqb c "@") eqn:E; simpl; [now rewrite E|].
  rewrite E. simpl. exact IH.
Qed.

Lemma length_between_true lo hi s :
  length_between lo hi s = true -> lo <= len s <= hi.
Proof.
  unfold length_between. rewrite andb_true_iff, !Z.leb_le. tauto.
Qed.

Lemma between_true lo hi n : between lo hi n = true -> lo <= n <= hi.
Proof. unfold between. rewrite andb_true_iff, !Z.leb_le. tauto. Qed.

(** X13. Whatever requests were served, every row of the database is within
    the bounds of the schemas: a student has a name of 1 to 100 characters,
    an email that passes the syntax check (the normal form of an address
    that passes it passing it too) and an age from 1 to 150; a course
    has a title of 1 to 200 characters, a description, if any, of at most
    1000, credits from 1 to 10 and an instructor of 1 to 100 characters; the
    grade of an enrollment, if any, has at most 2 characters. Bodies are
    validated before the handlers run, and an update keeps what it does not
    set. *)
Theorem stored_rows_within_bounds (email_syntax : string -> bool)
  (email_normal : string -> string)
  (db : store) :
  (forall e, email_syntax e = true -> email_syntax (email_normal e) = true) ->
  reachable email_syntax email_normal db ->
  (forall r, In r (students db) ->
             1 <= len (Student.name r) <= 100
             /\ email_syntax (Student.email r) = true
             /\ 1 <= Student.age r <= 150)
  /\ (forall r, In r (courses db) ->
                1 <= len (Course.title r) <= 200
                /\ (forall d, Course.description r = Some d -> len d <= 1000)
                /\ 1 <= Course.credits r <= 10
                /\ 1 <= len (Course.instructor r) <= 100)
  /\ (forall r g, In r (enrollments db) -> Enrollment.grade r = Some g ->
                  len g <= 2).
Proof.
  intros Hnormal Hreach.
  apply (reachable_rows_valid _ _ _ Hnormal) in Hreach.
  destruct Hreach as (Hs & Hc & He). split; [|split].
  - intros r Hin. pose proof (proj1 (Forall_forall _ _) Hs r Hin) as Hr.
    unfold student_row_valid, StudentCreate_valid in Hr. simpl in Hr.
    apply andb_true_iff in Hr. destruct Hr as [Hr Ha].
    apply andb_true_iff in Hr. destruct Hr as [Hn Hem].
    apply length_between_true in Hn. apply between_true in Ha. tauto.
  - intros r Hin. pose proof (proj1 (Forall_forall _ _) Hc r Hin) as Hr.
    unfold course_row_valid, CourseCreate_valid in Hr. simpl in Hr.
    apply andb_true_iff in Hr. destruct Hr as [Hr Hi].
    apply andb_true_iff in Hr. destruct Hr as [Hr Hcr].
    apply andb_true_iff in Hr. destruct Hr as [Ht Hd].
    apply length_between_true in Ht. apply length_between_true in Hi.
    apply between_true in Hcr. repeat split; try tauto.
    intros d Hdesc. rewrite Hdesc in Hd. simpl in Hd. now apply Z.leb_le.
  - intros r g Hin Hg. pose proof (proj1 (Forall_forall _ _) He r Hin) as Hr.
    unfold enrollment_row_valid, EnrollmentCreate_valid in Hr. simpl in Hr.
    rewrite Hg in Hr. simpl in Hr. now apply Z.leb_le.
Qed.

Lemma stored_rows_within_bounds_witness :
  (forall r, In r (students campus) ->
             1 <= len (Student.name r) <= 100
             /\ has_at (Student.email r) = true
             /\ 1 <= Student.age r <= 150)
  /\ (forall r, In r (courses campus) ->
                1 <= len (Course.title r) <= 200
                /\ (forall d, Course.description r = Some d -> len d <= 1000)
                /\ 1 <= Course.credits r <= 10
                /\ 1 <= len (Course.instructor r) <= 100)
  /\ (forall r g, In r (enrollments campus) -> Enrollment.grade r = Some g ->
                  len g <= 2).
Proof.
  apply (stored_rows_within_bounds has_at lower_domain campus).
  - exact has_at_lower_domain.
  - apply serve_reachable. apply reachable_empty.
Defined.

(** ** Pages of a listing *)

Lemma firstn_then_more {A : Type} (n m : nat) (l : list A) :
  firstn n l ++ firstn m (skipn n l) = firstn (n + m) l.
Proof.
  revert l. induction n as [|n IH]; intros l; simpl; [reflexivity|].
  destruct l as [|a l]; simpl; [now rewrite firstn_nil|].
  now rewrite IH.
Qed.

(** Consecutive pages of a table, as [.offset(skip).limit(limit)] cuts
    them. *)
Lemma offset_limit_pages {A : Type} (rows : list A) (skip n m : Z) :
  0 <= skip -> 0 <= n -> 0 <= m -> skip + n + m < 2 ^ 63 ->
  exists p1 p2,
    offset_limit skip n rows = Ok p1
    /\ offset_limit (skip + n) m rows = Ok p2
    /\ offset_limit skip (n + m) rows = Ok (p1 ++ p2)
    /\ Z.of_nat (List.length p1) <= n
    /\ (Z.of_nat (List.length rows) <= skip -> p1 = [])
    /\ (n = 0 -> p1 = [])
    /\ (skip = 0 -> Z.of_nat (List.length rows) <= n -> p1 = rows).
Proof.
  intros Hskip Hn Hm Hmax.
  exists (firstn (Z.to_nat n) (skipn (Z.to_nat skip) rows)),
    (firstn (Z.to_nat m) (skipn (Z.to_nat (skip + n)) rows)).
  rewrite !offset_limit_nonneg by lia.
  split; [reflexivity|]. split; [reflexivity|]. split; [|split; [|split]].
  - f_equal. rewrite !Z2Nat.inj_add by lia.
    rewrite (Nat.add_comm (Z.to_nat skip) (Z.to_nat n)), <- skipn_skipn.
    symmetry. apply firstn_then_more.
  - rewrite length_firstn. lia.
  - intros Hend. rewrite skipn_all2 by lia. apply firstn_nil.
  - split.
    + intros ->. reflexivity.
    + intros -> Hall. simpl. apply firstn_all2. lia.
Qed.

(** X14. The pages of the list routes, for [skip] and [limit] that are not
    negative and stay below 2^63: [GET /students/] answers 200 with at most
    [limit] students, none when [skip] reaches the end of the table or
    [limit] is 0; the page after a page continues it, the two together being
    the page of the joint size, and likewise for courses and enrollments;
    skipping nothing with a limit that covers the table gives the whole
    table, so the defaults (skip 0, limit 100) give the whole table while it
    has at most 100 rows and its first 100 rows after. A negative limit
    (within the 64-bit range) is no limit: every row from [skip] on is
    answered. A [skip] or [limit] outside the 64-bit range is answered
    500. *)
Theorem pages_of_a_table (db : store) (skip n m : Z) :
  (0 <= skip -> 0 <= n -> 0 <= m -> skip + n + m < 2 ^ 63 ->
   (exists p1 p2,
       read_students db skip n = (mk_response 200 (JStudents p1), db)
       /\ read_students db (skip + n) m
          = (mk_response 200 (JStudents p2), db)
       /\ read_students db skip (n + m)
          = (mk_response 200 (JStudents (p1 ++ p2)), db)
       /\ Z.of_nat (List.length p1) <= n
       /\ (Z.of_nat (List.length (students db)) <= skip -> p1 = [])
       /\ (n = 0 -> p1 = [])
       /\ (skip = 0 -> Z.of_nat (List.length (students db)) <= n ->
           p1 = students db))
   /\ (exists p1 p2,
          read_courses db skip n = (mk_response 200 (JCourses p1), db)
          /\ read_courses db (skip + n) m
             = (mk_response 200 (JCourses p2), db)
          /\ read_courses db skip (n + m)
             = (mk_response 200 (JCourses (p1 ++ p2)), db)
          /\ Z.of_nat (List.length p1) <= n)
   /\ (exists p1 p2,
          read_enrollments db skip n
          = (mk_response 200 (JEnrollments p1), db)
          /\ read_enrollments db (skip + n) m
             = (mk_response 200 (JEnrollments p2), db)
          /\ read_enrollments db skip (n + m)
             = (mk_response 200 (JEnrollments (p1 ++ p2)), db)
          /\ Z.of_nat (List.length p1) <= n))
  /\ read_students db default_skip default_limit
     = (mk_response 200 (JStudents (firstn 100 (students db))), db)
  /\ read_courses db default_skip default_limit
     = (mk_response 200 (JCourses (firstn 100 (courses db))), db)
  /\ read_enrollments db default_skip default_limit
     = (mk_response 200 (JEnrollments (firstn 100 (enrollments db))), db)
  /\ (0 <= skip < 2 ^ 63 -> - 2 ^ 63 <= n < 0 ->
      read_students db skip n
      = (mk_response 200 (JStudents (skipn (Z.to_nat skip) (students db))),
         db))
  /\ (int64 skip && int64 n = false ->
      status (fst (read_students db skip n)) = 500
      /\ status (fst (read_courses db skip n)) = 500
      /\ status (fst (read_enrollments db skip n)) = 500).
Proof.
  split; [|split; [|split; [|split; [|split]]]].
  - intros Hskip Hn Hm Hmax.
    unfold read_students, read_courses, read_enrollments.
    split; [|split].
    + destruct (offset_limit_pages (students db) skip n m Hskip Hn Hm Hmax)
        as (p1 & p2 & -> & -> & -> & Hlen & Hend & Hzero & Hall).
      exists p1, p2. repeat (split; [first [reflexivity|assumption]|]).
      assumption.
    + destruct (offset_limit_pages (courses db) skip n m Hskip Hn Hm Hmax)
        as (p1 & p2 & -> & -> & -> & Hlen & _).
      exists p1, p2. repeat (split; [first [reflexivity|assumption]|]).
      assumption.
    + destruct (offset_limit_pages (enrollments db) skip n m Hskip Hn Hm Hmax)
        as (p1 & p2 & -> & -> & -> & Hlen & _).
      exists p1, p2. repeat (split; [first [reflexivity|assumption]|]).
      assumption.
  - reflexivity.
  - reflexivity.
  - reflexivity.
  - intros Hskip Hn. unfold read_students.
    rewrite offset_limit_bound by (apply int64_spec; lia).
    unfold page. destruct (n <? 0) eqn:E; [reflexivity|].
    apply Z.ltb_ge in E. lia.
  - intros Hover. unfold read_students, read_courses, read_enrollments.
    rewrite !offset_limit_overflow by exact Hover. repeat split.
Qed.

Lemma pages_of_a_table_witness :
  (exists p1 p2,
      read_students campus 0 1 = (mk_response 200 (JStudents p1), campus)
      /\ read_students campus (0 + 1) 1
         = (mk_response 200 (JStudents p2), campus)
      /\ read_students campus 0 (1 + 1)
         = (mk_response 200 (JStudents (p1 ++ p2)), campus)
      /\ Z.of_nat (List.length p1) <= 1)
  /\ read_students campus 1 (- 1)
     = (mk_response 200
          (JStudents [Student.mk 2 "Jane Smith" "jane@example.com" 22 20 21]),
        campus)
  /\ status (fst (read_courses campus (2 ^ 63) 100)) = 500.
Proof.
  split; [|split].
  - destruct (pages_of_a_table campus 0 1 1) as (Hpages & _).
    destruct Hpages as ((p1 & p2 & H1 & H2 & H12 & Hlen & _) & _);
      [lia|lia|lia|lia|].
    exists p1, p2. split; [exact H1|]. split; [exact H2|].
    split; [exact H12|exact Hlen].
  - destruct (pages_of_a_table campus 1 (- 1) 0) as (_ & _ & _ & _ & H & _).
    apply H; lia.
  - destruct (pages_of_a_table campus (2 ^ 63) 100 0)
      as (_ & _ & _ & _ & _ & H).
    apply H. reflexivity.
Defined.

(** ** Changing an email *)

(** X15. [update_student] with an email that is not empty, differs from the
    student's and that no student has (no field of the body being null) is
    answered 200 in a database that satisfies its declared constraints, and
    moves the email: afterwards the new email is registered and the former
    one is not, so [create_student] with the new email is answered 400 and
    [create_student] with the former email is answered 201. *)
Theorem change_email (db : store) (r : Student.t) (u : StudentUpdate.t)
  (now : clock) (e : string) :
  store_ok db -> In r (students db) ->
  StudentUpdate.email u = Given (Some e) ->
  e <> "" -> e <> Student.email r -> ~ email_registered db e ->
  StudentUpdate.name u <> Given None -> StudentUpdate.age u <> Given None ->
  exists r' db',
    update_student db (Student.id r) u now
    = (mk_response 200 (JStudent r'), db')
    /\ Student.email r' = e
    /\ Student.id r' = Student.id r
    /\ email_registered db' e
    /\ ~ email_registered db' (Student.email r)
    /\ (forall b now',
           StudentCreate.email b = e ->
           create_student db' b now'
           = (http_error 400 "Email already registered", db'))
    /\ (forall b now',
           StudentCreate.email b = Student.email r ->
           status (fst (create_student db' b now')) = 201).
Proof.
  intros Hok Hin Hu He1 He2 Hfree Hname Hage.
  destruct (patched_some (StudentUpdate.name u) (Student.name r) Hname)
    as [n Hn].
  destruct (patched_some (StudentUpdate.age u) (Student.age r) Hage)
    as [a Ha].
  assert (Hcheck : forall e', email_is_changed u r = Some e' ->
                              ~ email_registered db e').
  { intros e' He'. apply email_is_changed_Some in He'.
    destruct He' as (Hu' & _). rewrite Hu in Hu'. inversion Hu'; subst.
    exact Hfree. }
  assert (Hemail : patched (StudentUpdate.email u) (Student.email r) = Some e).
  { now rewrite Hu. }
  assert (Hother : forall x, In x (students db) -> Student.email x = e ->
                             Student.id x = Student.id r).
  { intros x Hx Hxe. exfalso. apply Hfree. now exists x. }
  destruct (update_student_commits db r u now n e a Hok Hin Hcheck Hn Hemail
              Ha Hother) as [l1 [l2 [Hsplit Hupd]]].
  eexists. eexists. split; [exact Hupd|].
  set (r' := Student.mk (Student.id r) n e a (Student.created_at r)
                        (now 0%nat)) in *.
  set (db' := mk_store (l1 ++ r' :: l2) (courses db) (enrollments db)).
  assert (Hnew : email_registered db' e).
  { exists r'. split; [|reflexivity]. simpl. apply in_or_app. right.
    now left. }
  assert (Hold : ~ email_registered db' (Student.email r)).
  { intros [x [Hx Hxe]]. simpl in Hx.
    destruct Hok as [_ Hemails _ _]. rewrite Hsplit, map_app in Hemails.
    simpl in Hemails. apply NoDup_remove_2 in Hemails. apply Hemails.
    rewrite <- map_app, <- Hxe.
    apply in_app_or in Hx. destruct Hx as [Hx|[Hx|Hx]].
    - apply in_map. apply in_or_app. now left.
    - subst x. simpl in Hxe. congruence.
    - apply in_map. apply in_or_app. now right. }
  repeat split; try assumption.
  - intros b now' Hb.
    unfold create_student, create_student_between, create_student_try.
    rewrite Hb. destruct (first_student_by_email db' e) eqn:E; [reflexivity|].
    apply first_student_by_email_None in E. contradiction.
  - intros b now' Hb. rewrite create_student_new; [reflexivity|].
    now rewrite Hb.
Qed.

Lemma change_email_witness :
  exists r' db',
    update_student campus 2
      (StudentUpdate.mk Unset (Given (Some "js@example.com")) Unset) (tick 50)
    = (mk_response 200 (JStudent r'), db')
    /\ Student.email r' = "js@example.com"
    /\ email_registered db' "js@example.com"
    /\ ~ email_registered db' "jane@example.com".
Proof.
  destruct (change_email campus
              (Student.mk 2 "Jane Smith" "jane@example.com" 22 20 21)
              (StudentUpdate.mk Unset (Given (Some "js@example.com")) Unset)
              (tick 50) "js@example.com" campus_ok)
    as (r' & db' & Hupd & He & _ & Hnew & Hold & _);
    try discriminate; try reflexivity.
  - simpl. right. now left.
  - apply first_student_by_email_None. reflexivity.
  - exists r', db'. repeat split; assumption.
Defined.
